(** * Smart Standup Orchestrator: risk detection and reporting

    A shallow embedding of [src/main.py] (with the tables of
    [src/models.py]) and the properties of its reporting core:
    per-user deduplication, the three risk detectors, the rule-based
    summary, the submission handler and the JSON payloads.

    Conventions of the embedding.
    - A Python [str] is a [string]: the UTF-8 bytes of the text.  [strip]
      and [lower] work on the code points of the text, with the tables of
      CPython 3.11.
    - A [date] is its proleptic Gregorian ordinal ([date.toordinal()]), a
      [datetime] the number of microseconds since the midnight that opens
      ordinal 0, so that [created_at.date()] is a floor division.  The
      range limits of Python's dates (years 1 to 9999) are not modelled.
    - A Python [dict] is an association list in insertion order.
    - The wall clock ([date.today()] in the dashboard, [datetime.utcnow()]
      in the risk report) is an argument [today] of the handlers; the
      database session is a record of tables that the handlers read and
      return.
    - The store is SQLite: a table is kept and scanned by its integer
      primary key, a row inserted without a key gets one more than the
      largest, and an insert under a key that a stored row holds raises
      at the commit, which no handler catches.
    - The other library calls have their nominal behaviour, and an
      exception is modelled only where the source handles one. *)

From Stdlib Require Import ZArith NArith List String Ascii Bool Lia.
From Stdlib Require Import Permutation Sorted DecimalString.
Import ListNotations.

Local Open Scope string_scope.
Local Open Scope Z_scope.

(* ================================================================= *)
(** ** Unicode text

    A [str] is a sequence of code points; the model keeps its UTF-8 bytes
    and decodes them where Python looks at code points.  The tables are
    those of CPython 3.11 (Unicode 14.0.0). *)

Module Unicode.

Local Open Scope N_scope.

(** Whitespace: the code points for which [str.isspace] holds. *)
Definition whitespace_ranges : list (N * N) :=
  [(9, 13); (28, 32); (133, 133); (160, 160);
   (5760, 5760); (8192, 8202); (8232, 8233); (8239, 8239);
   (8287, 8287); (12288, 12288)]%N.

(** Lowercase: runs [(first, last, step, image of first)]; a code point of
    a run maps to the image of the first plus its distance from it. *)
Definition lower_runs : list (N * N * N * N) :=
  [(65, 90, 1, 97); (192, 214, 1, 224);
   (216, 222, 1, 248); (256, 302, 2, 257);
   (306, 310, 2, 307); (313, 327, 2, 314);
   (330, 374, 2, 331); (376, 376, 1, 255);
   (377, 381, 2, 378); (385, 385, 1, 595);
   (386, 388, 2, 387); (390, 390, 1, 596);
   (391, 391, 1, 392); (393, 394, 1, 598);
   (395, 395, 1, 396); (398, 398, 1, 477);
   (399, 399, 1, 601); (400, 400, 1, 603);
   (401, 401, 1, 402); (403, 403, 1, 608);
   (404, 404, 1, 611); (406, 406, 1, 617);
   (407, 407, 1, 616); (408, 408, 1, 409);
   (412, 412, 1, 623); (413, 413, 1, 626);
   (415, 415, 1, 629); (416, 420, 2, 417);
   (422, 422, 1, 640); (423, 423, 1, 424);
   (425, 425, 1, 643); (428, 428, 1, 429);
   (430, 430, 1, 648); (431, 431, 1, 432);
   (433, 434, 1, 650); (435, 437, 2, 436);
   (439, 439, 1, 658); (440, 440, 1, 441);
   (444, 444, 1, 445); (452, 452, 1, 454);
   (453, 453, 1, 454); (455, 455, 1, 457);
   (456, 456, 1, 457); (458, 458, 1, 460);
   (459, 475, 2, 460); (478, 494, 2, 479);
   (497, 497, 1, 499); (498, 500, 2, 499);
   (502, 502, 1, 405); (503, 503, 1, 447);
   (504, 542, 2, 505); (544, 544, 1, 414);
   (546, 562, 2, 547); (570, 570, 1, 11365);
   (571, 571, 1, 572); (573, 573, 1, 410);
   (574, 574, 1, 11366); (577, 577, 1, 578);
   (579, 579, 1, 384); (580, 580, 1, 649);
   (581, 581, 1, 652); (582, 590, 2, 583);
   (880, 882, 2, 881); (886, 886, 1, 887);
   (895, 895, 1, 1011); (902, 902, 1, 940);
   (904, 906, 1, 941); (908, 908, 1, 972);
   (910, 911, 1, 973); (913, 929, 1, 945);
   (931, 939, 1, 963); (975, 975, 1, 983);
   (984, 1006, 2, 985); (1012, 1012, 1, 952);
   (1015, 1015, 1, 1016); (1017, 1017, 1, 1010);
   (1018, 1018, 1, 1019); (1021, 1023, 1, 891);
   (1024, 1039, 1, 1104); (1040, 1071, 1, 1072);
   (1120, 1152, 2, 1121); (1162, 1214, 2, 1163);
   (1216, 1216, 1, 1231); (1217, 1229, 2, 1218);
   (1232, 1326, 2, 1233); (1329, 1366, 1, 1377);
   (4256, 4293, 1, 11520); (4295, 4295, 1, 11559);
   (4301, 4301, 1, 11565); (5024, 5103, 1, 43888);
   (5104, 5109, 1, 5112); (7312, 7354, 1, 4304);
   (7357, 7359, 1, 4349); (7680, 7828, 2, 7681);
   (7838, 7838, 1, 223); (7840, 7934, 2, 7841);
   (7944, 7951, 1, 7936); (7960, 7965, 1, 7952);
   (7976, 7983, 1, 7968); (7992, 7999, 1, 7984);
   (8008, 8013, 1, 8000); (8025, 8031, 2, 8017);
   (8040, 8047, 1, 8032); (8072, 8079, 1, 8064);
   (8088, 8095, 1, 8080); (8104, 8111, 1, 8096);
   (8120, 8121, 1, 8112); (8122, 8123, 1, 8048);
   (8124, 8124, 1, 8115); (8136, 8139, 1, 8050);
   (8140, 8140, 1, 8131); (8152, 8153, 1, 8144);
   (8154, 8155, 1, 8054); (8168, 8169, 1, 8160);
   (8170, 8171, 1, 8058); (8172, 8172, 1, 8165);
   (8184, 8185, 1, 8056); (8186, 8187, 1, 8060);
   (8188, 8188, 1, 8179); (8486, 8486, 1, 969);
   (8490, 8490, 1, 107); (8491, 8491, 1, 229);
   (8498, 8498, 1, 8526); (8544, 8559, 1, 8560);
   (8579, 8579, 1, 8580); (9398, 9423, 1, 9424);
   (11264, 11311, 1, 11312); (11360, 11360, 1, 11361);
   (11362, 11362, 1, 619); (11363, 11363, 1, 7549);
   (11364, 11364, 1, 637); (11367, 11371, 2, 11368);
   (11373, 11373, 1, 593); (11374, 11374, 1, 625);
   (11375, 11375, 1, 592); (11376, 11376, 1, 594);
   (11378, 11378, 1, 11379); (11381, 11381, 1, 11382);
   (11390, 11391, 1, 575); (11392, 11490, 2, 11393);
   (11499, 11501, 2, 11500); (11506, 11506, 1, 11507);
   (42560, 42604, 2, 42561); (42624, 42650, 2, 42625);
   (42786, 42798, 2, 42787); (42802, 42862, 2, 42803);
   (42873, 42875, 2, 42874); (42877, 42877, 1, 7545);
   (42878, 42886, 2, 42879); (42891, 42891, 1, 42892);
   (42893, 42893, 1, 613); (42896, 42898, 2, 42897);
   (42902, 42920, 2, 42903); (42922, 42922, 1, 614);
   (42923, 42923, 1, 604); (42924, 42924, 1, 609);
   (42925, 42925, 1, 620); (42926, 42926, 1, 618);
   (42928, 42928, 1, 670); (42929, 42929, 1, 647);
   (42930, 42930, 1, 669); (42931, 42931, 1, 43859);
   (42932, 42946, 2, 42933); (42948, 42948, 1, 42900);
   (42949, 42949, 1, 642); (42950, 42950, 1, 7566);
   (42951, 42953, 2, 42952); (42960, 42960, 1, 42961);
   (42966, 42968, 2, 42967); (42997, 42997, 1, 42998);
   (65313, 65338, 1, 65345); (66560, 66599, 1, 66600);
   (66736, 66771, 1, 66776); (66928, 66938, 1, 66967);
   (66940, 66954, 1, 66979); (66956, 66962, 1, 66995);
   (66964, 66965, 1, 67003); (68736, 68786, 1, 68800);
   (71840, 71871, 1, 71872); (93760, 93791, 1, 93792);
   (125184, 125217, 1, 125218)]%N.

(** Case-ignorable code points. *)
Definition case_ignorable_ranges : list (N * N) :=
  [(39, 39); (46, 46); (58, 58); (94, 94);
   (96, 96); (168, 168); (173, 173); (175, 175);
   (180, 180); (183, 184); (688, 879); (884, 885);
   (890, 890); (900, 901); (903, 903); (1155, 1161);
   (1369, 1369); (1375, 1375); (1425, 1469); (1471, 1471);
   (1473, 1474); (1476, 1477); (1479, 1479); (1524, 1524);
   (1536, 1541); (1552, 1562); (1564, 1564); (1600, 1600);
   (1611, 1631); (1648, 1648); (1750, 1757); (1759, 1768);
   (1770, 1773); (1807, 1807); (1809, 1809); (1840, 1866);
   (1958, 1968); (2027, 2037); (2042, 2042); (2045, 2045);
   (2070, 2093); (2137, 2139); (2184, 2184); (2192, 2193);
   (2200, 2207); (2249, 2306); (2362, 2362); (2364, 2364);
   (2369, 2376); (2381, 2381); (2385, 2391); (2402, 2403);
   (2417, 2417); (2433, 2433); (2492, 2492); (2497, 2500);
   (2509, 2509); (2530, 2531); (2558, 2558); (2561, 2562);
   (2620, 2620); (2625, 2626); (2631, 2632); (2635, 2637);
   (2641, 2641); (2672, 2673); (2677, 2677); (2689, 2690);
   (2748, 2748); (2753, 2757); (2759, 2760); (2765, 2765);
   (2786, 2787); (2810, 2815); (2817, 2817); (2876, 2876);
   (2879, 2879); (2881, 2884); (2893, 2893); (2901, 2902);
   (2914, 2915); (2946, 2946); (3008, 3008); (3021, 3021);
   (3072, 3072); (3076, 3076); (3132, 3132); (3134, 3136);
   (3142, 3144); (3146, 3149); (3157, 3158); (3170, 3171);
   (3201, 3201); (3260, 3260); (3263, 3263); (3270, 3270);
   (3276, 3277); (3298, 3299); (3328, 3329); (3387, 3388);
   (3393, 3396); (3405, 3405); (3426, 3427); (3457, 3457);
   (3530, 3530); (3538, 3540); (3542, 3542); (3633, 3633);
   (3636, 3642); (3654, 3662); (3761, 3761); (3764, 3772);
   (3782, 3782); (3784, 3789); (3864, 3865); (3893, 3893);
   (3895, 3895); (3897, 3897); (3953, 3966); (3968, 3972);
   (3974, 3975); (3981, 3991); (3993, 4028); (4038, 4038);
   (4141, 4144); (4146, 4151); (4153, 4154); (4157, 4158);
   (4184, 4185); (4190, 4192); (4209, 4212); (4226, 4226);
   (4229, 4230); (4237, 4237); (4253, 4253); (4348, 4348);
   (4957, 4959); (5906, 5908); (5938, 5939); (5970, 5971);
   (6002, 6003); (6068, 6069); (6071, 6077); (6086, 6086);
   (6089, 6099); (6103, 6103); (6109, 6109); (6155, 6159);
   (6211, 6211); (6277, 6278); (6313, 6313); (6432, 6434);
   (6439, 6440); (6450, 6450); (6457, 6459); (6679, 6680);
   (6683, 6683); (6742, 6742); (6744, 6750); (6752, 6752);
   (6754, 6754); (6757, 6764); (6771, 6780); (6783, 6783);
   (6823, 6823); (6832, 6862); (6912, 6915); (6964, 6964);
   (6966, 6970); (6972, 6972); (6978, 6978); (7019, 7027);
   (7040, 7041); (7074, 7077); (7080, 7081); (7083, 7085);
   (7142, 7142); (7144, 7145); (7149, 7149); (7151, 7153);
   (7212, 7219); (7222, 7223); (7288, 7293); (7376, 7378);
   (7380, 7392); (7394, 7400); (7405, 7405); (7412, 7412);
   (7416, 7417); (7468, 7530); (7544, 7544); (7579, 7679);
   (8125, 8125); (8127, 8129); (8141, 8143); (8157, 8159);
   (8173, 8175); (8189, 8190); (8203, 8207); (8216, 8217);
   (8228, 8228); (8231, 8231); (8234, 8238); (8288, 8292);
   (8294, 8303); (8305, 8305); (8319, 8319); (8336, 8348);
   (8400, 8432); (11388, 11389); (11503, 11505); (11631, 11631);
   (11647, 11647); (11744, 11775); (11823, 11823); (12293, 12293);
   (12330, 12333); (12337, 12341); (12347, 12347); (12441, 12446);
   (12540, 12542); (40981, 40981); (42232, 42237); (42508, 42508);
   (42607, 42610); (42612, 42621); (42623, 42623); (42652, 42655);
   (42736, 42737); (42752, 42785); (42864, 42864); (42888, 42890);
   (42994, 42996); (43000, 43001); (43010, 43010); (43014, 43014);
   (43019, 43019); (43045, 43046); (43052, 43052); (43204, 43205);
   (43232, 43249); (43263, 43263); (43302, 43309); (43335, 43345);
   (43392, 43394); (43443, 43443); (43446, 43449); (43452, 43453);
   (43471, 43471); (43493, 43494); (43561, 43566); (43569, 43570);
   (43573, 43574); (43587, 43587); (43596, 43596); (43632, 43632);
   (43644, 43644); (43696, 43696); (43698, 43700); (43703, 43704);
   (43710, 43711); (43713, 43713); (43741, 43741); (43756, 43757);
   (43763, 43764); (43766, 43766); (43867, 43871); (43881, 43883);
   (44005, 44005); (44008, 44008); (44013, 44013); (64286, 64286);
   (64434, 64450); (65024, 65039); (65043, 65043); (65056, 65071);
   (65106, 65106); (65109, 65109); (65279, 65279); (65287, 65287);
   (65294, 65294); (65306, 65306); (65342, 65342); (65344, 65344);
   (65392, 65392); (65438, 65439); (65507, 65507); (65529, 65531);
   (66045, 66045); (66272, 66272); (66422, 66426); (67456, 67461);
   (67463, 67504); (67506, 67514); (68097, 68099); (68101, 68102);
   (68108, 68111); (68152, 68154); (68159, 68159); (68325, 68326);
   (68900, 68903); (69291, 69292); (69446, 69456); (69506, 69509);
   (69633, 69633); (69688, 69702); (69744, 69744); (69747, 69748);
   (69759, 69761); (69811, 69814); (69817, 69818); (69821, 69821);
   (69826, 69826); (69837, 69837); (69888, 69890); (69927, 69931);
   (69933, 69940); (70003, 70003); (70016, 70017); (70070, 70078);
   (70089, 70092); (70095, 70095); (70191, 70193); (70196, 70196);
   (70198, 70199); (70206, 70206); (70367, 70367); (70371, 70378);
   (70400, 70401); (70459, 70460); (70464, 70464); (70502, 70508);
   (70512, 70516); (70712, 70719); (70722, 70724); (70726, 70726);
   (70750, 70750); (70835, 70840); (70842, 70842); (70847, 70848);
   (70850, 70851); (71090, 71093); (71100, 71101); (71103, 71104);
   (71132, 71133); (71219, 71226); (71229, 71229); (71231, 71232);
   (71339, 71339); (71341, 71341); (71344, 71349); (71351, 71351);
   (71453, 71455); (71458, 71461); (71463, 71467); (71727, 71735);
   (71737, 71738); (71995, 71996); (71998, 71998); (72003, 72003);
   (72148, 72151); (72154, 72155); (72160, 72160); (72193, 72202);
   (72243, 72248); (72251, 72254); (72263, 72263); (72273, 72278);
   (72281, 72283); (72330, 72342); (72344, 72345); (72752, 72758);
   (72760, 72765); (72767, 72767); (72850, 72871); (72874, 72880);
   (72882, 72883); (72885, 72886); (73009, 73014); (73018, 73018);
   (73020, 73021); (73023, 73029); (73031, 73031); (73104, 73105);
   (73109, 73109); (73111, 73111); (73459, 73460); (78896, 78904);
   (92912, 92916); (92976, 92982); (92992, 92995); (94031, 94031);
   (94095, 94111); (94176, 94177); (94179, 94180); (110576, 110579);
   (110581, 110587); (110589, 110590); (113821, 113822); (113824, 113827);
   (118528, 118573); (118576, 118598); (119143, 119145); (119155, 119170);
   (119173, 119179); (119210, 119213); (119362, 119364); (121344, 121398);
   (121403, 121452); (121461, 121461); (121476, 121476); (121499, 121503);
   (121505, 121519); (122880, 122886); (122888, 122904); (122907, 122913);
   (122915, 122916); (122918, 122922); (123184, 123197); (123566, 123566);
   (123628, 123631); (125136, 125142); (125252, 125259); (127995, 127999);
   (917505, 917505); (917536, 917631); (917760, 917999)]%N.

(** Cased code points that are not case-ignorable. *)
Definition cased_ranges : list (N * N) :=
  [(65, 90); (97, 122); (170, 170); (181, 181);
   (186, 186); (192, 214); (216, 246); (248, 442);
   (444, 447); (452, 659); (661, 687); (880, 883);
   (886, 887); (891, 893); (895, 895); (902, 902);
   (904, 906); (908, 908); (910, 929); (931, 1013);
   (1015, 1153); (1162, 1327); (1329, 1366); (1376, 1416);
   (4256, 4293); (4295, 4295); (4301, 4301); (4304, 4346);
   (4349, 4351); (5024, 5109); (5112, 5117); (7296, 7304);
   (7312, 7354); (7357, 7359); (7424, 7467); (7531, 7543);
   (7545, 7578); (7680, 7957); (7960, 7965); (7968, 8005);
   (8008, 8013); (8016, 8023); (8025, 8025); (8027, 8027);
   (8029, 8029); (8031, 8061); (8064, 8116); (8118, 8124);
   (8126, 8126); (8130, 8132); (8134, 8140); (8144, 8147);
   (8150, 8155); (8160, 8172); (8178, 8180); (8182, 8188);
   (8450, 8450); (8455, 8455); (8458, 8467); (8469, 8469);
   (8473, 8477); (8484, 8484); (8486, 8486); (8488, 8488);
   (8490, 8493); (8495, 8500); (8505, 8505); (8508, 8511);
   (8517, 8521); (8526, 8526); (8544, 8575); (8579, 8580);
   (9398, 9449); (11264, 11387); (11390, 11492); (11499, 11502);
   (11506, 11507); (11520, 11557); (11559, 11559); (11565, 11565);
   (42560, 42605); (42624, 42651); (42786, 42863); (42865, 42887);
   (42891, 42894); (42896, 42954); (42960, 42961); (42963, 42963);
   (42965, 42969); (42997, 42998); (43002, 43002); (43824, 43866);
   (43872, 43880); (43888, 43967); (64256, 64262); (64275, 64279);
   (65313, 65338); (65345, 65370); (66560, 66639); (66736, 66771);
   (66776, 66811); (66928, 66938); (66940, 66954); (66956, 66962);
   (66964, 66965); (66967, 66977); (66979, 66993); (66995, 67001);
   (67003, 67004); (68736, 68786); (68800, 68850); (71840, 71903);
   (93760, 93823); (119808, 119892); (119894, 119964); (119966, 119967);
   (119970, 119970); (119973, 119974); (119977, 119980); (119982, 119993);
   (119995, 119995); (119997, 120003); (120005, 120069); (120071, 120074);
   (120077, 120084); (120086, 120092); (120094, 120121); (120123, 120126);
   (120128, 120132); (120134, 120134); (120138, 120144); (120146, 120485);
   (120488, 120512); (120514, 120538); (120540, 120570); (120572, 120596);
   (120598, 120628); (120630, 120654); (120656, 120686); (120688, 120712);
   (120714, 120744); (120746, 120770); (120772, 120779); (122624, 122633);
   (122635, 122654); (125184, 125251); (127280, 127305); (127312, 127337);
   (127344, 127369)]%N.


Definition in_ranges (c : N) (ranges : list (N * N)) : bool :=
  existsb (fun r => (fst r <=? c) && (c <=? snd r)) ranges.

(** [chr(c).isspace()] *)
Definition is_space (c : N) : bool := in_ranges c whitespace_ranges.

Definition case_ignorable (c : N) : bool := in_ranges c case_ignorable_ranges.

Definition cased (c : N) : bool := in_ranges c cased_ranges.

Fixpoint lower_in (c : N) (runs : list (N * N * N * N)) : N :=
  match runs with
  | [] => c
  | (first, last, step, image) :: rest =>
      if (first <=? c) && (c <=? last) && ((c - first) mod step =? 0)
      then image + (c - first)
      else lower_in c rest
  end.

(** The lowercase of one code point: one code point, or two for the
    capital I with a dot above. *)
Definition to_lower (c : N) : list N :=
  if c <? 128 then [if (65 <=? c) && (c <=? 90) then c + 32 else c]
  else if c =? 304 then [105; 775]
  else [lower_in c lower_runs].

(** The first code point that is not case-ignorable. *)
Fixpoint first_solid (l : list N) : option N :=
  match l with
  | [] => None
  | c :: rest => if case_ignorable c then first_solid rest else Some c
  end.

(** A capital sigma ends a word: a cased letter comes before it and none
    after it, case-ignorable code points aside.  [before] runs backwards
    from the sigma. *)
Definition final_sigma (before after : list N) : bool :=
  match first_solid before with Some c => cased c | None => false end
  && match first_solid after with Some c => negb (cased c) | None => true end.

Fixpoint lower_from (before l : list N) : list N :=
  match l with
  | [] => []
  | c :: rest =>
      ((if c =? 931 then [if final_sigma before rest then 962 else 963]
        else to_lower c)
       ++ lower_from (c :: before) rest)%list
  end.

(** [s.lower()] on code points *)
Definition lower (l : list N) : list N := lower_from [] l.

Fixpoint ltrim (l : list N) : list N :=
  match l with
  | [] => []
  | c :: rest => if is_space c then ltrim rest else l
  end.

Fixpoint rtrim (l : list N) : list N :=
  match l with
  | [] => []
  | c :: rest =>
      match rtrim rest with
      | [] => if is_space c then [] else [c]
      | kept => c :: kept
      end
  end.

(** [s.strip()] on code points *)
Definition trim (l : list N) : list N := rtrim (ltrim l).

(** *** UTF-8 *)

(** A byte that belongs to no well-formed sequence stands for itself,
    above the code points. *)
Definition stray (b : N) : N := 1114112 + b.

Definition is_cont (b : N) : bool := (128 <=? b) && (b <? 192).

Fixpoint decode (s : string) : list N :=
  match s with
  | EmptyString => []
  | String a0 r0 =>
      let b0 := N_of_ascii a0 in
      if b0 <? 128 then b0 :: decode r0
      else
        match r0 with
        | String a1 r1 =>
            let b1 := N_of_ascii a1 in
            if (192 <=? b0) && (b0 <? 224) && is_cont b1
            then ((b0 - 192) * 64 + (b1 - 128)) :: decode r1
            else
              match r1 with
              | String a2 r2 =>
                  let b2 := N_of_ascii a2 in
                  if (224 <=? b0) && (b0 <? 240) && is_cont b1 && is_cont b2
                  then ((b0 - 224) * 4096 + (b1 - 128) * 64 + (b2 - 128)) :: decode r2
                  else
                    match r2 with
                    | String a3 r3 =>
                        let b3 := N_of_ascii a3 in
                        if (240 <=? b0) && (b0 <? 248)
                           && is_cont b1 && is_cont b2 && is_cont b3
                        then ((b0 - 240) * 262144 + (b1 - 128) * 4096
                              + (b2 - 128) * 64 + (b3 - 128)) :: decode r3
                        else stray b0 :: decode r0
                    | EmptyString => stray b0 :: decode r0
                    end
              | EmptyString => stray b0 :: decode r0
              end
        | EmptyString => stray b0 :: decode r0
        end
  end.

Definition byte (b : N) (rest : string) : string := String (ascii_of_N b) rest.

Definition encode_point (c : N) (rest : string) : string :=
  if c <? 128 then byte c rest
  else if c <? 2048 then byte (192 + c / 64) (byte (128 + c mod 64) rest)
  else if c <? 65536
  then byte (224 + c / 4096) (byte (128 + (c / 64) mod 64) (byte (128 + c mod 64) rest))
  else if c <? 1114112
  then byte (240 + c / 262144)
         (byte (128 + (c / 4096) mod 64)
            (byte (128 + (c / 64) mod 64) (byte (128 + c mod 64) rest)))
  else byte (c - 1114112) rest.

Fixpoint encode (l : list N) : string :=
  match l with
  | [] => EmptyString
  | c :: rest => encode_point c (encode rest)
  end.

End Unicode.

(* ================================================================= *)
(** ** Python strings *)

Module PyStr.

Definition nl : string := String (ascii_of_nat 10) EmptyString.

(** [s.strip()] *)
Definition strip (s : string) : string :=
  Unicode.encode (Unicode.trim (Unicode.decode s)).

(** [s.lower()] *)
Definition lower (s : string) : string :=
  Unicode.encode (Unicode.lower (Unicode.decode s)).

(** [sep.join(parts)] *)
Fixpoint join (sep : string) (parts : list string) : string :=
  match parts with
  | [] => EmptyString
  | [p] => p
  | p :: rest => p ++ sep ++ join sep rest
  end.

(** [str(n)] for an [int]. *)
Definition of_int (n : Z) : string := NilZero.string_of_int (Z.to_int n).

(** ["%0<w>d" % n] for a natural [n]. *)
Fixpoint zeros (k : nat) : string :=
  match k with
  | O => EmptyString
  | S k' => String "0" (zeros k')
  end.

Definition pad (w : nat) (n : Z) : string :=
  let s := of_int n in
  zeros (w - String.length s) ++ s.

(** Truth value of a [str]: the empty string is false. *)
Definition truthy (s : string) : bool :=
  match s with
  | EmptyString => false
  | _ => true
  end.

End PyStr.

(* ================================================================= *)
(** ** Dates and datetimes *)

Module PyDate.

Definition usPerDay : Z := 86400000000.

(** [dt.date()] *)
Definition date_of (dt : Z) : Z := dt / usPerDay.

(** [datetime.combine(d, datetime.min.time())] *)
Definition midnight (d : Z) : Z := d * usPerDay.

Definition is_leap (y : Z) : bool :=
  ((y mod 4 =? 0) && (negb (y mod 100 =? 0) || (y mod 400 =? 0)))%bool.

Definition month_lengths (leap : bool) : list Z :=
  [31; if leap then 29 else 28; 31; 30; 31; 30; 31; 31; 30; 31; 30; 31].

(** Walks the months of one year: [n] is the zero-based day of the year. *)
Fixpoint month_day (lens : list Z) (m n : Z) : Z * Z :=
  match lens with
  | [] => (m, n + 1)
  | len :: rest => if n <? len then (m, n + 1) else month_day rest (m + 1) (n - len)
  end.

(** The year, month and day of an ordinal, as [datetime] computes them. *)
Definition ymd (ordinal : Z) : Z * Z * Z :=
  let n := ordinal - 1 in
  let n400 := n / 146097 in
  let n := n mod 146097 in
  let n100 := n / 36524 in
  let n := n mod 36524 in
  let n4 := n / 1461 in
  let n := n mod 1461 in
  let n1 := n / 365 in
  let n := n mod 365 in
  let year := n400 * 400 + n100 * 100 + n4 * 4 + n1 + 1 in
  if ((n1 =? 4) || (n100 =? 4))%bool then (year - 1, 12, 31)
  else
    let '(m, d) := month_day (month_lengths (is_leap year)) 1 n in
    (year, m, d).

(** [d.isoformat()], which is also [str(d)]. *)
Definition isoformat (d : Z) : string :=
  let '(y, m, dd) := ymd d in
  PyStr.pad 4 y ++ "-" ++ PyStr.pad 2 m ++ "-" ++ PyStr.pad 2 dd.

(** [dt.isoformat()] *)
Definition datetime_isoformat (dt : Z) : string :=
  let us := dt mod usPerDay in
  let secs := us / 1000000 in
  let frac := us mod 1000000 in
  isoformat (date_of dt) ++ "T" ++ PyStr.pad 2 (secs / 3600) ++ ":"
    ++ PyStr.pad 2 ((secs / 60) mod 60) ++ ":" ++ PyStr.pad 2 (secs mod 60)
    ++ (if frac =? 0 then "" else "." ++ PyStr.pad 6 frac).

End PyDate.

(* ================================================================= *)
(** ** Python dictionaries

    A [dict] keeps its keys in insertion order; assigning to a key that is
    already present replaces the value in place. *)

Section Dict.

Context {K V : Type}.
Variable eqb : K -> K -> bool.

Definition dict := list (K * V).

(** [d.get(k)] *)
Fixpoint dict_get (d : dict) (k : K) : option V :=
  match d with
  | [] => None
  | (k', v) :: rest => if eqb k k' then Some v else dict_get rest k
  end.

(** [d[k] = v] *)
Fixpoint dict_set (d : dict) (k : K) (v : V) : dict :=
  match d with
  | [] => [(k, v)]
  | (k', v') :: rest =>
      if eqb k k' then (k', v) :: rest else (k', v') :: dict_set rest k v
  end.

Definition dict_keys (d : dict) : list K := map fst d.

(** [list(d.values())] *)
Definition dict_values (d : dict) : list V := map snd d.

(** [{key(x): x for x in xs}], and the loop [for x in xs: d[key(x)] = x]. *)
Definition dict_by (key : V -> K) (xs : list V) : dict :=
  fold_left (fun d x => dict_set d (key x) x) xs [].

End Dict.

Arguments dict : clear implicits.

(** [defaultdict(list)] filled by [d[key(x)].append(x)]. *)
Definition group_by {K V : Type} (eqb : K -> K -> bool) (key : V -> K)
    (xs : list V) : dict K (list V) :=
  fold_left
    (fun d x =>
       let old := match dict_get eqb d (key x) with Some l => l | None => [] end in
       dict_set eqb d (key x) (old ++ [x])%list)
    xs [].

(* ================================================================= *)
(** ** JSON values, as [json.dumps] receives them *)

#[warnings="-register-all"]
Inductive json : Type :=
| JNull
| JInt (n : Z)
| JStr (s : string)
| JList (items : list json)
| JDict (fields : list (string * json)).

Definition json_fields (j : json) : list (string * json) :=
  match j with
  | JDict fields => fields
  | _ => []
  end.

(** The field names of an object, in order. *)
Definition json_keys (j : json) : list string := map fst (json_fields j).

(** [j[k]] for an object [j]; [None] is a [KeyError] or a [TypeError]. *)
Definition json_item (j : json) (k : string) : option json :=
  match j with
  | JDict fields => dict_get String.eqb fields k
  | _ => None
  end.

Definition json_of_opt_str (o : option string) : json :=
  match o with
  | Some s => JStr s
  | None => JNull
  end.

(* ================================================================= *)
(** ** The tables of [models.py] and the session *)

Module Team.
Record t : Type := mk {
  id : option Z;
  name : string;
  lead_name : option string;
  created_at : Z
}.

Definition with_id (t0 : t) (k : Z) : t :=
  mk (Some k) (name t0) (lead_name t0) (created_at t0).
End Team.

Module Standup.
Record t : Type := mk {
  id : option Z;
  team_id : Z;
  user_name : string;
  yesterday : string;
  today : string;
  blockers : option string;
  created_at : Z
}.

Definition with_id (s : t) (k : Z) : t :=
  mk (Some k) (team_id s) (user_name s) (yesterday s) (today s) (blockers s)
     (created_at s).
End Standup.

(** The rows of both tables, in the order a scan returns them: SQLite
    keeps a table by its integer primary key and scans it in that order. *)
Record Session : Type := mkSession {
  teams : list Team.t;
  standups : list Standup.t
}.

(** [session.get(Team, pk)] *)
Definition session_get_team (session : Session) (pk : Z) : option Team.t :=
  find (fun t => match Team.id t with Some k => k =? pk | None => false end)
       (teams session).

Fixpoint insert_by {A : Type} (leb : A -> A -> bool) (x : A) (l : list A) : list A :=
  match l with
  | [] => [x]
  | y :: rest => if leb x y then x :: l else y :: insert_by leb x rest
  end.

Definition order_by {A : Type} (leb : A -> A -> bool) (l : list A) : list A :=
  fold_right (insert_by leb) [] l.

(** The primary keys of SQLite are signed 64-bit integers. *)
Definition max_key : Z := 9223372036854775807.
Definition min_key : Z := -9223372036854775808.

Definition fits_key (k : Z) : bool := (min_key <=? k) && (k <=? max_key).

(** The key that the store gives a row inserted without one: 1 in an empty
    table, else one more than the largest key.  At the largest key of all
    SQLite draws keys at random and raises when it finds none that is
    free; the model keeps the error. *)
Definition auto_key (keys : list Z) : option Z :=
  match keys with
  | [] => Some 1
  | k :: rest =>
      let top := fold_left Z.max rest k in
      if top <? max_key then Some (top + 1) else None
  end.

(** The key under which an [INSERT] stores a row whose [id] is [id], or
    [None] when the statement raises: a key beyond 64 bits
    ([OverflowError]) or one that a stored row holds
    ([sqlalchemy.exc.IntegrityError]). *)
Definition insert_key (keys : list Z) (id : option Z) : option Z :=
  match id with
  | Some k =>
      if fits_key k && negb (existsb (Z.eqb k) keys) then Some k else None
  | None => auto_key keys
  end.

Definition keys_of {A : Type} (id : A -> option Z) (rows : list A) : list Z :=
  flat_map (fun r => match id r with Some k => [k] | None => [] end) rows.

(** The order of the keys. *)
Definition key_leb {A : Type} (id : A -> option Z) (a b : A) : bool :=
  match id a, id b with
  | Some i, Some j => i <=? j
  | _, _ => false
  end.

(** [session.add(standup); session.commit(); session.refresh(standup)]:
    the refreshed row and the session that holds it at the place of its
    key, or [None] when the commit raises; the session of the request is
    then closed without a change to the tables. *)
Definition session_add_standup (session : Session) (standup : Standup.t)
    : option (Standup.t * Session) :=
  match insert_key (keys_of Standup.id (standups session)) (Standup.id standup) with
  | None => None
  | Some k =>
      let row := Standup.with_id standup k in
      Some (row,
            mkSession (teams session)
              (insert_by (key_leb Standup.id) row (standups session)))
  end.

(** [ORDER BY user_name, created_at] *)
Definition standup_leb (a b : Standup.t) : bool :=
  match String.compare (Standup.user_name a) (Standup.user_name b) with
  | Lt => true
  | Eq => Standup.created_at a <=? Standup.created_at b
  | Gt => false
  end.

(** The query of one calendar day:
    [team_id == t], [created_at >= today 00:00], [created_at < tomorrow 00:00]. *)
Definition select_today (session : Session) (team_id today : Z) : list Standup.t :=
  let tomorrow := today + 1 in
  filter
    (fun s =>
       (Standup.team_id s =? team_id)
       && (PyDate.midnight today <=? Standup.created_at s)
       && (Standup.created_at s <? PyDate.midnight tomorrow))
    (standups session).

(** The query of the recent window:
    [team_id == t], [created_at >= (today - 7) 00:00], ordered by user then time. *)
Definition select_recent (session : Session) (team_id today : Z) : list Standup.t :=
  order_by standup_leb
    (filter
       (fun s =>
          (Standup.team_id s =? team_id)
          && (PyDate.midnight (today - 7) <=? Standup.created_at s))
       (standups session)).

(** The order in which [GROUP BY user_name] sorts the rows. *)
Definition user_leb (a b : Standup.t) : bool :=
  match String.compare (Standup.user_name a) (Standup.user_name b) with
  | Gt => false
  | _ => true
  end.

(** [SELECT user_name, max(created_at) ... WHERE team_id == t GROUP BY user_name]:
    one row per user, in the order of the names. *)
Definition select_last_at (session : Session) (team_id : Z)
    : list (string * option Z) :=
  map
    (fun '(user, rows) =>
       (user,
        match map Standup.created_at rows with
        | [] => None
        | first :: others => Some (fold_left Z.max others first)
        end))
    (group_by String.eqb Standup.user_name
       (order_by user_leb
          (filter (fun s => Standup.team_id s =? team_id) (standups session)))).

(* ================================================================= *)
(** ** The summarizer *)

(** The Groq client, as far as [summarize_standups] uses it: one chat
    completion request (the sampling temperature is a constant of the call
    and is left out), which raises or answers with a list of choices, each
    with a message content that may be [None]. *)
Record ChatRequest : Type := mkChatRequest {
  chat_model : string;
  system_content : string;
  user_content : string
}.

Inductive ChatOutcome : Type :=
| ChatRaised
| ChatResponse (choices : list (option string)).

Definition Groq : Type := ChatRequest -> ChatOutcome.

(** [s or 'None'] for an optional string. *)
Definition or_None (o : option string) : string :=
  match o with
  | Some s => if PyStr.truthy s then s else "None"
  | None => "None"
  end.

(** [str(o)] inside an f-string, for an optional string. *)
Definition fmt_opt (o : option string) : string :=
  match o with
  | Some s => s
  | None => "None"
  end.

Definition raw_text (standups : list Standup.t) : string :=
  PyStr.join PyStr.nl
    (map
       (fun s =>
          "User: " ++ Standup.user_name s ++ PyStr.nl
          ++ "Yesterday: " ++ Standup.yesterday s ++ PyStr.nl
          ++ "Today: " ++ Standup.today s ++ PyStr.nl
          ++ "Blockers: " ++ or_None (Standup.blockers s))
       standups).

Definition prompt (standups : list Standup.t) : string :=
  PyStr.nl
  ++ "You are an assistant summarizing daily stand-up updates." ++ PyStr.nl
  ++ "For each user, provide concise bullet points summarizing their yesterday/today work."
  ++ PyStr.nl
  ++ "Include blockers if present." ++ PyStr.nl
  ++ "End with one concise overall team summary." ++ PyStr.nl
  ++ PyStr.nl
  ++ "Reports:" ++ PyStr.nl
  ++ raw_text standups ++ PyStr.nl.

(** The arguments of [client.chat.completions.create]. *)
Definition chat_request (standups : list Standup.t) : ChatRequest :=
  mkChatRequest "llama-3.1-8b-instant"
    "You are a helpful stand-up summary assistant." (prompt standups).

(** The body of the [try]: [Some] is the returned text, [None] an
    exception, which the handler catches. *)
Definition ai_summary (client : Groq) (standups : list Standup.t) : option string :=
  match client (chat_request standups) with
  | ChatRaised => None
  | ChatResponse [] => None
  | ChatResponse (None :: _) => None
  | ChatResponse (Some content :: _) => Some (PyStr.strip content)
  end.

(** One block of the rule-based summary. *)
Definition fallback_line (s : Standup.t) : string :=
  let line :=
    "**" ++ Standup.user_name s ++ "**" ++ PyStr.nl
    ++ "- Yesterday: " ++ Standup.yesterday s ++ PyStr.nl
    ++ "- Today: " ++ Standup.today s in
  match Standup.blockers s with
  | Some b =>
      if PyStr.truthy b && negb (String.eqb (PyStr.lower (PyStr.strip b)) "none")
      then line ++ PyStr.nl ++ "- Blocker: " ++ b
      else line
  | None => line
  end.

(** The rule-based summary, below the [try]. *)
Definition fallback_summary (standups : list Standup.t) : string :=
  let summaries := map fallback_line standups in
  let overall := PyStr.join (PyStr.nl ++ PyStr.nl) summaries in
  "**Daily Stand-up Summary**" ++ PyStr.nl ++ PyStr.nl
  ++ overall ++ PyStr.nl ++ PyStr.nl
  ++ "**Team Summary:** The team is progressing; check blockers above.".

Definition summarize_standups (client : option Groq) (standups : list Standup.t)
    : string :=
  match standups with
  | [] => "No stand-up updates found for today."
  | _ =>
      match client with
      | Some groq =>
          match ai_summary groq standups with
          | Some text => text
          | None => fallback_summary standups
          end
      | None => fallback_summary standups
      end
  end.

(* ================================================================= *)
(** ** Submitting a stand-up *)

(** How a call of [send_slack_report] ends, as its caller sees it. *)
Inductive SlackOutcome : Type :=
| SlackReturned
| SlackRaised.

Record SubmitBody : Type := mkSubmitBody {
  message : string;
  standup : Standup.t
}.

(** How the request ends: the answer of the handler, the error that it
    raises itself, or an error of the commit, which nothing in the handler
    catches and the framework answers with 500 Internal Server Error. *)
Inductive SubmitResult : Type :=
| Created (body : SubmitBody)
| HTTPException (status_code : Z) (detail : string)
| CommitRaised.

Section Submit.

(** The Slack delivery of this process: whatever it does, the handler
    only sees whether it returned or raised. *)
Variable send_slack_report : Z -> option string -> SlackOutcome.

Definition submit_standup (session : Session) (standup : Standup.t)
    : Session * SubmitResult :=
  match session_get_team session (Standup.team_id standup) with
  | None => (session, HTTPException 404 "Team not found")
  | Some _ =>
      match session_add_standup session standup with
      | None => (session, CommitRaised)
      | Some (row, session') =>
          match send_slack_report (Standup.team_id row) (Some (Standup.user_name row)) with
          | SlackReturned =>
              (session', Created (mkSubmitBody "Stand-up submitted successfully" row))
          | SlackRaised =>
              (session', Created (mkSubmitBody "Stand-up submitted successfully" row))
          end
      end
  end.

End Submit.

(* ================================================================= *)
(** ** The risk report *)

(** [{"user": ..., "type": ..., "description": ...}] *)
Definition risk (user type description : string) : json :=
  JDict [("user", JStr user); ("type", JStr type); ("description", JStr description)].

(** [(o or "").strip().lower()] *)
Definition block_text (o : option string) : string :=
  PyStr.lower (PyStr.strip (match o with Some s => s | None => "" end)).

Definition no_blocker_words : list string := ["none"; "no blockers"; "n/a"; "na"].

(** [t not in words] *)
Definition not_in (t : string) (words : list string) : bool :=
  negb (existsb (String.eqb t) words).

(** The body of the loop over [user_entries.items()] in [get_risk_report]. *)
Definition risk_report_user_risks (today yesterday : Z) (user : string)
    (entries : list Standup.t) : list json :=
  let by_date :=
    fold_left
      (fun d e => dict_set Z.eqb d (PyDate.date_of (Standup.created_at e)) e)
      entries [] in
  match dict_get Z.eqb by_date today, dict_get Z.eqb by_date yesterday with
  | Some today_entry, Some yesterday_entry =>
      let stale :=
        if String.eqb (PyStr.lower (PyStr.strip (Standup.today today_entry)))
                      (PyStr.lower (PyStr.strip (Standup.today yesterday_entry)))
        then [risk user "Stale Task"
                ("Task unchanged between " ++ PyDate.isoformat yesterday ++ " and "
                 ++ PyDate.isoformat today ++ ": '" ++ Standup.today today_entry ++ "'")]
        else [] in
      let t_block := block_text (Standup.blockers today_entry) in
      let y_block := block_text (Standup.blockers yesterday_entry) in
      let repeated :=
        if PyStr.truthy t_block && PyStr.truthy y_block && String.eqb t_block y_block
           && not_in t_block no_blocker_words
        then [risk user "Repeated Blocker"
                ("Same blocker reported on " ++ PyDate.isoformat yesterday ++ " and "
                 ++ PyDate.isoformat today ++ ": '"
                 ++ fmt_opt (Standup.blockers today_entry) ++ "'")]
        else [] in
      (stale ++ repeated)%list
  | _, _ => []
  end.

(** The body of the loop over the rows of the last-update query. *)
Definition risk_report_missing (today days_missing : Z) (row : string * option Z)
    : list json :=
  let '(user, last_at) := row in
  let missing :=
    match last_at with
    | None => true
    | Some t => PyDate.date_of t <? today - (days_missing - 1)
    end in
  if missing
  then [risk user "Missing Update"
          ("Last update was on "
           ++ match last_at with
              | Some t => PyDate.isoformat (PyDate.date_of t)
              | None => "never"
              end
           ++ " — no update in last " ++ PyStr.of_int days_missing ++ " days.")]
  else [].

(** The list [risks] that [get_risk_report] builds. *)
Definition risk_report_risks (session : Session) (team_id days_missing today : Z)
    : list json :=
  let yesterday := today - 1 in
  let recent := select_recent session team_id today in
  let user_entries := group_by String.eqb Standup.user_name recent in
  let risks :=
    flat_map (fun '(user, entries) => risk_report_user_risks today yesterday user entries)
             user_entries in
  let rows := select_last_at session team_id in
  (risks ++ flat_map (risk_report_missing today days_missing) rows)%list.

(** [GET /risk/today/{team_id}]: the object that is serialized. *)
Definition get_risk_report (session : Session) (team_id days_missing today : Z) : json :=
  JDict [("team_id", JInt team_id);
         ("date", JStr (PyDate.isoformat today));
         ("risks", JList (risk_report_risks session team_id days_missing today))].

(* ================================================================= *)
(** ** The dashboard *)

(** The body of the loop over [user_entries.items()] in [get_dashboard]. *)
Definition dashboard_user_risks (today yesterday : Z) (user : string)
    (entries : list Standup.t) : list json :=
  let by_date := dict_by Z.eqb (fun e => PyDate.date_of (Standup.created_at e)) entries in
  match dict_get Z.eqb by_date today, dict_get Z.eqb by_date yesterday with
  | Some today_entry, Some yesterday_entry =>
      let stale :=
        if String.eqb (PyStr.lower (PyStr.strip (Standup.today today_entry)))
                      (PyStr.lower (PyStr.strip (Standup.today yesterday_entry)))
        then [risk user "Stale Task"
                ("Task unchanged between " ++ PyDate.isoformat yesterday ++ " and "
                 ++ PyDate.isoformat today ++ ": '" ++ Standup.today today_entry ++ "'")]
        else [] in
      let t_block := block_text (Standup.blockers today_entry) in
      let y_block := block_text (Standup.blockers yesterday_entry) in
      let repeated :=
        if PyStr.truthy t_block && PyStr.truthy y_block && String.eqb t_block y_block
           && not_in t_block no_blocker_words
        then [risk user "Repeated Blocker"
                ("Same blocker reported on " ++ PyDate.isoformat yesterday ++ " and "
                 ++ PyDate.isoformat today ++ ": '"
                 ++ fmt_opt (Standup.blockers today_entry) ++ "'")]
        else [] in
      (stale ++ repeated)%list
  | _, _ => []
  end.

(** The list [risks] that [get_dashboard] builds. *)
Definition dashboard_risks (session : Session) (team_id today : Z) : list json :=
  let yesterday := today - 1 in
  let recent := select_recent session team_id today in
  let user_entries := group_by String.eqb Standup.user_name recent in
  flat_map (fun '(user, entries) => dashboard_user_risks today yesterday user entries)
           user_entries.

(** [{s.user_name: s for s in standups}] and [list(latest_entries.values())] *)
Definition latest_entries (standups : list Standup.t) : list Standup.t :=
  dict_values (dict_by String.eqb Standup.user_name standups).

(** One record of ["updates"]. *)
Definition update_record (s : Standup.t) : json :=
  JDict [("user", JStr (Standup.user_name s));
         ("yesterday", JStr (Standup.yesterday s));
         ("today", JStr (Standup.today s));
         ("blockers", json_of_opt_str (Standup.blockers s));
         ("created_at", JStr (PyDate.datetime_isoformat (Standup.created_at s)))].

(** [GET /dashboard/today/{team_id}]: the object that is serialized. *)
Definition get_dashboard (client : option Groq) (session : Session) (team_id today : Z)
    : json :=
  let standups := latest_entries (select_today session team_id today) in
  let summary := summarize_standups client standups in
  let risks := dashboard_risks session team_id today in
  JDict [("team_id", JInt team_id);
         ("date", JStr (PyDate.isoformat today));
         ("summary", JStr summary);
         ("risks", JList risks);
         ("updates", JList (map update_record standups))].

(* ================================================================= *)
(** ** What the Slack delivery reads from the dashboard *)

(** The dashboard that [send_slack_report] works on: the fetched object, or
    the stand-in when the loopback request raised. *)
Definition slack_dashboard (fetched : option json) : json :=
  match fetched with
  | Some dashboard => dashboard
  | None =>
      JDict [("summary", JStr "No summary available.");
             ("risks", JList []);
             ("updates", JList [])]
  end.

(** [dashboard.get(k, default)]; [None] when [dashboard] is no object. *)
Definition json_get (dashboard : json) (k : string) (default : json) : option json :=
  match dashboard with
  | JDict fields =>
      Some (match dict_get String.eqb fields k with Some v => v | None => default end)
  | _ => None
  end.

(** [dashboard.get("risks", [])] *)
Definition slack_risks (dashboard : json) : option json :=
  json_get dashboard "risks" (JList []).

(** Equality of dictionary keys, among the values that can be keys. *)
Definition json_key_eqb (a b : json) : bool :=
  match a, b with
  | JNull, JNull => true
  | JInt x, JInt y => x =? y
  | JStr x, JStr y => String.eqb x y
  | _, _ => false
  end.

Definition hashable (j : json) : bool :=
  match j with
  | JList _ | JDict _ => false
  | _ => true
  end.

(** [{u["user"]: u for u in updates}]; [None] when an item has no ["user"]
    or the key cannot be hashed. *)
Fixpoint unique_updates (updates : list json) (d : dict json json)
    : option (dict json json) :=
  match updates with
  | [] => Some d
  | u :: rest =>
      match json_item u "user" with
      | Some k => if hashable k then unique_updates rest (dict_set json_key_eqb d k u)
                  else None
      | None => None
      end
  end.

(** The [updates] of [send_slack_report] after its deduplication. *)
Definition slack_updates (dashboard : json) : option (list json) :=
  match json_get dashboard "updates" (JList []) with
  | Some (JList items) => option_map dict_values (unique_updates items [])
  | _ => None
  end.

(* ================================================================= *)
(** ** Vocabulary of the statements *)

(** Plain ASCII text, on which trimming and lower-casing are read off the
    bytes: the whitespace is TAB, LF, VT, FF, CR, the separators FS, GS,
    RS, US and the space, and the letters A to Z have the lowercase a to
    z. *)
Module AsciiText.

Fixpoint is_ascii (s : string) : bool :=
  match s with
  | EmptyString => true
  | String c r => (N_of_ascii c <? 128)%N && is_ascii r
  end.

Definition is_space (c : ascii) : bool :=
  let n := Z.of_nat (nat_of_ascii c) in
  ((9 <=? n) && (n <=? 13)) || ((28 <=? n) && (n <=? 32)).

Definition lower_char (c : ascii) : ascii :=
  let n := nat_of_ascii c in
  if (Nat.leb 65 n && Nat.leb n 90)%bool then ascii_of_nat (n + 32) else c.

Fixpoint lower (s : string) : string :=
  match s with
  | EmptyString => EmptyString
  | String c r => String (lower_char c) (lower r)
  end.

Fixpoint lstrip (s : string) : string :=
  match s with
  | EmptyString => EmptyString
  | String c r => if is_space c then lstrip r else s
  end.

Fixpoint rstrip (s : string) : string :=
  match s with
  | EmptyString => EmptyString
  | String c r =>
      match rstrip r with
      | EmptyString => if is_space c then EmptyString else String c EmptyString
      | r' => String c r'
      end
  end.

Definition strip (s : string) : string := rstrip (lstrip s).

End AsciiText.

(** Trimmed and case-folded text; an absent text counts as empty. *)
Definition normalize (text : string) : string := PyStr.lower (PyStr.strip text).

(** The whitespace of Unicode, as [str.isspace] knows it. *)
Definition unicode_whitespace : list N :=
  [9; 10; 11; 12; 13; 28; 29; 30; 31; 32; 133; 160; 5760;
   8192; 8193; 8194; 8195; 8196; 8197; 8198; 8199; 8200; 8201; 8202;
   8232; 8233; 8239; 8287; 12288]%N.

(** What [normalize] does to a text: on ASCII text it is the trimming and
    lower-casing read off the bytes; it drops the Unicode whitespace
    around any text; it folds letters beyond ASCII, with the sigma that
    ends a word. *)
Definition normalization_reads_text : Prop :=
  (forall text, AsciiText.is_ascii text = true ->
                normalize text = AsciiText.lower (AsciiText.strip text))
  /\ (forall left core right : list N,
        Forall (fun c => In c unicode_whitespace) left ->
        Forall (fun c => In c unicode_whitespace) right ->
        Forall (fun c => (c < 1114112)%N) core ->
        normalize (Unicode.encode (left ++ core ++ right)%list)
        = normalize (Unicode.encode core))
  /\ normalize "  Fix the BUG " = "fix the bug"
  /\ normalize (Unicode.encode [160; 78; 79; 78; 69; 12288]%N) = "none"
  /\ normalize "BLOQUÉ par le Déploiement" = "bloqué par le déploiement"
  /\ normalize "ΟΔΟΣ ΣΟΦΟΣ" = "οδος σοφος".

(** What [lower] does to a text: on ASCII text it is the lower-casing read
    off the bytes, and it folds letters beyond ASCII. *)
Definition case_folding_reads_text : Prop :=
  (forall text, AsciiText.is_ascii text = true ->
                PyStr.lower text = AsciiText.lower text)
  /\ PyStr.lower "Carol" = "carol"
  /\ PyStr.lower "ÉLODIE" = "élodie"
  /\ PyStr.lower "ΟΔΟΣ" = "οδος".

Definition normalize_opt (text : option string) : string :=
  normalize (match text with Some s => s | None => "" end).

(** The normalized blocker texts that mean that there is no blocker. *)
Definition no_blocker_class : list string := [""; "none"; "no blockers"; "n/a"; "na"].

Definition standup_le (a b : Standup.t) : Prop := standup_leb a b = true.

(** [e] is an entry of [user] in team [team_id] on calendar day [day]. *)
Definition on_day (team_id : Z) (user : string) (day : Z) (e : Standup.t) : Prop :=
  Standup.team_id e = team_id
  /\ Standup.user_name e = user
  /\ PyDate.date_of (Standup.created_at e) = day.

Definition has_entry (session : Session) (team_id : Z) (user : string) (day : Z) : Prop :=
  exists e, In e (standups session) /\ on_day team_id user day e.

(** [e] is an entry of [user] on [day] that no other entry of that user
    and day is later than. *)
Definition latest_on (session : Session) (team_id : Z) (user : string) (day : Z)
    (e : Standup.t) : Prop :=
  In e (standups session)
  /\ on_day team_id user day e
  /\ forall e', In e' (standups session) -> on_day team_id user day e' ->
                Standup.created_at e' <= Standup.created_at e.

(** [e] is an entry of [user] in team [team_id], on any day. *)
Definition in_history (team_id : Z) (user : string) (e : Standup.t) : Prop :=
  Standup.team_id e = team_id /\ Standup.user_name e = user.

(** [t] is the latest [created_at] of [user] over the whole history. *)
Definition last_seen (session : Session) (team_id : Z) (user : string) (t : Z) : Prop :=
  (exists e, In e (standups session) /\ in_history team_id user e
             /\ Standup.created_at e = t)
  /\ forall e, In e (standups session) -> in_history team_id user e ->
               Standup.created_at e <= t.

(** The entries of one user in the window, indexed by day as the loop
    does it. *)
Definition by_date_of (session : Session) (team_id today : Z) (user : string)
    : dict Z Standup.t :=
  dict_by Z.eqb (fun e => PyDate.date_of (Standup.created_at e))
    (filter (fun x => String.eqb user (Standup.user_name x))
       (select_recent session team_id today)).

(** A finding of [user] with the type label [type]. *)
Definition risk_is (user type : string) (r : json) : bool :=
  match json_item r "user", json_item r "type" with
  | Some (JStr u), Some (JStr t) => String.eqb u user && String.eqb t type
  | _, _ => false
  end.

Definition count_risks (user type : string) (risks : list json) : nat :=
  List.length (filter (risk_is user type) risks).

(** The findings of a payload. *)
Definition payload_risks (payload : json) : list json :=
  match json_item payload "risks" with
  | Some (JList risks) => risks
  | _ => []
  end.

(** The key of a finding in the set of findings. *)
Definition finding_key (r : json) : option json * option json :=
  (json_item r "user", json_item r "type").

Definition team_exists (session : Session) (team_id : Z) : Prop :=
  exists t, In t (teams session) /\ Team.id t = Some team_id.

(** A stored stand-up holds the key [k]. *)
Definition key_taken (session : Session) (k : Z) : Prop :=
  exists r, In r (standups session) /\ Standup.id r = Some k.

(** The keys of the stored stand-ups leave room for one more. *)
Definition key_room (session : Session) : Prop :=
  forall r k, In r (standups session) -> Standup.id r = Some k -> k < max_key.

(** The store takes the entry: it carries a key of 64 bits that no stored
    stand-up holds, or it carries none and the keys leave room. *)
Definition id_free (session : Session) (standup : Standup.t) : Prop :=
  match Standup.id standup with
  | Some k => min_key <= k <= max_key /\ ~ key_taken session k
  | None => key_room session
  end.


(** [row] is [standup] under a key, its own if it carries one. *)
Definition stored_as (standup row : Standup.t) : Prop :=
  exists k, row = Standup.with_id standup k
            /\ forall k', Standup.id standup = Some k' -> k' = k.

(** The keys of the stored teams leave room for one more. *)
Definition team_key_room (session : Session) : Prop :=
  forall t k, In t (teams session) -> Team.id t = Some k -> k < max_key.

(** The updates of a payload. *)
Definition payload_updates (payload : json) : list json :=
  match json_item payload "updates" with
  | Some (JList updates) => updates
  | _ => []
  end.

(** Two lists of findings hold the same keys. *)
Definition same_findings (a b : list json) : Prop :=
  forall key, In key (map finding_key a) <-> In key (map finding_key b).

Definition is_missing_update (r : json) : bool :=
  match json_item r "type" with
  | Some (JStr t) => String.eqb t "Missing Update"
  | _ => false
  end.

(** A payload with the given field names, update field names and finding
    types. *)
Definition meets_contract (fields update_fields types : list string) (payload : json)
    : Prop :=
  json_keys payload = fields
  /\ Forall (fun u => json_keys u = update_fields) (payload_updates payload)
  /\ Forall (fun r => exists t, In t types /\ json_item r "type" = Some (JStr t))
       (payload_risks payload).

(** The names as the specification spells them. *)
Definition spec_report_fields : list string :=
  ["teamId"; "date"; "summary"; "risks"; "updates"].
Definition spec_update_fields : list string :=
  ["user"; "yesterday"; "today"; "blockers"; "createdAt"].
Definition spec_risk_types : list string :=
  ["StaleTask"; "RepeatedBlocker"; "MissingUpdate"].

(** The names as the handlers spell them. *)
Definition dashboard_fields : list string :=
  ["team_id"; "date"; "summary"; "risks"; "updates"].
Definition risk_report_fields : list string := ["team_id"; "date"; "risks"].
Definition update_fields : list string :=
  ["user"; "yesterday"; "today"; "blockers"; "created_at"].
Definition risk_fields : list string := ["user"; "type"; "description"].
Definition risk_types : list string :=
  ["Stale Task"; "Repeated Blocker"; "Missing Update"].

(** The ways in which the generation call fails. *)
Inductive generation_fails : ChatOutcome -> Prop :=
| fails_raised : generation_fails ChatRaised
| fails_no_choice : generation_fails (ChatResponse [])
| fails_no_content rest : generation_fails (ChatResponse (None :: rest)).

(** The parts of the rule-based summary. *)
Definition blank_line : string := PyStr.nl ++ PyStr.nl.
Definition summary_header : string := "**Daily Stand-up Summary**".
Definition summary_closing : string :=
  "**Team Summary:** The team is progressing; check blockers above.".

Definition block_head (s : Standup.t) : string :=
  "**" ++ Standup.user_name s ++ "**" ++ PyStr.nl
  ++ "- Yesterday: " ++ Standup.yesterday s ++ PyStr.nl
  ++ "- Today: " ++ Standup.today s.

Definition blocker_line (b : string) : string := PyStr.nl ++ "- Blocker: " ++ b.

(** [block] is the block of [s], with the blocker line exactly when the
    blocker text is present and [real]. *)
Definition block_of (real : string -> Prop) (s : Standup.t) (block : string) : Prop :=
  (forall b, Standup.blockers s = Some b -> real b ->
             block = block_head s ++ blocker_line b)
  /\ ((Standup.blockers s = None
       \/ exists b, Standup.blockers s = Some b /\ ~ real b) ->
      block = block_head s).

(** [summary] is the header, the blocks of the entries separated by blank
    lines, and the closing line. *)
Definition rule_based (real : string -> Prop) (standups : list Standup.t)
    (summary : string) : Prop :=
  exists blocks,
    Forall2 (block_of real) standups blocks
    /\ summary = summary_header ++ blank_line
                 ++ PyStr.join blank_line blocks
                 ++ blank_line ++ summary_closing.

(** A blocker text outside the no-blocker class, as the specification
    words it. *)
Definition spec_real_blocker (b : string) : Prop := ~ In (normalize b) no_blocker_class.

(** A blocker text that the summary shows: not empty, and not "none" once
    normalized. *)
Definition shown_blocker (b : string) : Prop := b <> "" /\ normalize b <> "none".

(* ================================================================= *)
(** ** Sample data *)

Module Sample.

(** 2026-11-04 *)
Definition day : Z := 739924.

Definition at_hour (d h : Z) : Z := PyDate.midnight d + h * 3600000000.

Definition core : Team.t := Team.mk (Some 1) "core" None (at_hour (day - 30) 8).

Definition entry (pk : Z) (user text : string) (blockers : option string) (t : Z)
    : Standup.t :=
  Standup.mk (Some pk) 1 user "Planning" text blockers t.

(** Carol repeats a blocker, Dave has been silent for three days. *)
Definition carol_1 : Standup.t :=
  entry 1 "carol" "Write tests" (Some "Waiting on API access") (at_hour (day - 1) 9).
Definition carol_2 : Standup.t :=
  entry 2 "carol" "Review" (Some "waiting on API ACCESS ") (at_hour day 9).
Definition dave_1 : Standup.t := entry 3 "dave" "Deploy" None (at_hour (day - 3) 9).

Definition session : Session := mkSession [core] [carol_1; carol_2; dave_1].

(** Alice posts twice on one day; the row scanned last carries the
    earlier [created_at]. *)
Definition alice_late : Standup.t :=
  entry 1 "alice" "Second draft" None (at_hour day 10).
Definition alice_early : Standup.t :=
  entry 2 "alice" "First draft" None (at_hour day 9).

Definition unordered : Session := mkSession [core] [alice_late; alice_early].

(** An entry whose blocker text is "n/a". *)
Definition erin : Standup.t := entry 1 "erin" "Docs" (Some "n/a") (at_hour day 9).

(** A client whose request always raises. *)
Definition failing : Groq := fun _ => ChatRaised.


(** Alice keeps her task for two days with the blocker "None"; Bob posts on
    the second day only. *)
Definition alice_0 : Standup.t :=
  entry 1 "alice" "Fix bug" (Some "None") (at_hour (day - 1) 9).
Definition alice_1 : Standup.t :=
  entry 2 "alice" " fix BUG " (Some "none") (at_hour day 9).
Definition bob_1 : Standup.t :=
  entry 3 "bob" "Write docs" (Some "Waiting on review") (at_hour day 10).

Definition scenario : Session := mkSession [core] [alice_0; alice_1; bob_1].

(** Text beyond ASCII: Gina keeps her task, padded on the second day with
    a no-break space and an ideographic space, and repeats a blocker in
    another case; Hugo writes "none" behind a no-break space. *)
Definition gina_0 : Standup.t :=
  entry 1 "gina" "Déployer" (Some "BLOQUÉ par le réseau") (at_hour (day - 1) 9).
Definition gina_1 : Standup.t :=
  entry 2 "gina" (Unicode.encode [160%N] ++ "DÉPLOYER" ++ Unicode.encode [12288%N])
    (Some "bloqué par le réseau") (at_hour day 9).
Definition hugo_1 : Standup.t :=
  entry 3 "hugo" "Docs" (Some (Unicode.encode [160%N] ++ "None")) (at_hour day 10).

Definition accents : Session := mkSession [core] [gina_0; gina_1; hugo_1].

End Sample.

(* ================================================================= *)
(** ** The remaining handlers *)

(** [POST /teams]: [session.add(team); session.commit(); session.refresh(team)],
    the refreshed team and the session that holds it, or [None] when the
    commit raises. *)
Definition create_team (session : Session) (team : Team.t) : option (Team.t * Session) :=
  match insert_key (keys_of Team.id (teams session)) (Team.id team) with
  | None => None
  | Some k =>
      let row := Team.with_id team k in
      Some (row,
            mkSession (insert_by (key_leb Team.id) row (teams session))
              (standups session))
  end.

(** [GET /teams] *)
Definition get_teams (session : Session) : list Team.t := teams session.

(** [GET /standup] *)
Definition get_all_standups (session : Session) : list Standup.t := standups session.

(** [GET /report/today/{team_id}]: the object that is returned. *)
Definition get_today_report (client : option Groq) (session : Session)
    (team_id today : Z) : json :=
  let results := select_today session team_id today in
  let report_text := summarize_standups client results in
  JDict [("team_id", JInt team_id);
         ("date", JStr (PyDate.isoformat today));
         ("report", JStr report_text)].

(** *** The scheduler *)

(** A cron job that sends the full report of a team at a time of day. *)
Record Job : Type := mkJob {
  job_team_id : Z;
  job_hour : Z;
  job_minute : Z
}.

Record Scheduler : Type := mkScheduler {
  running : bool;
  jobs : list Job
}.

(** [start_scheduler()], on the global [_scheduler]. *)
Definition start_scheduler (_scheduler : option Scheduler) : option Scheduler :=
  match _scheduler with
  | Some s =>
      if running s then _scheduler else Some (mkScheduler true [mkJob 1 10 0])
  | None => Some (mkScheduler true [mkJob 1 10 0])
  end.

(** *** The Slack delivery

    The fetched dashboard is any JSON value of the kinds that the
    handlers of this server produce: null, integers, strings, lists and
    objects. *)

(** A comprehension whose body may raise: the first failure ends it. *)
Fixpoint map_opt {A B : Type} (f : A -> option B) (l : list A) : option (list B) :=
  match l with
  | [] => Some []
  | x :: rest =>
      match f x with
      | Some y =>
          match map_opt f rest with
          | Some ys => Some (y :: ys)
          | None => None
          end
      | None => None
      end
  end.

(** What the process around [send_slack_report] supplies: the answer of
    the loopback request for the dashboard of a team ([None] when the
    request or its decoding raises), the configured webhook, and the
    answer of the webhook to a posted message ([None] when the request
    raises, else the status code). *)
Record SlackEnv : Type := mkSlackEnv {
  fetch_dashboard : Z -> option json;
  slack_webhook : option string;
  post : string -> json -> option Z
}.

(** How one run of [send_slack_report] ends. *)
Inductive SlackRun : Type :=
| NoUpdateForUser
| NoWebhook (message : json)
| Posted (message : json) (status_code : Z)
| PostRaised (message : json)
| BuildRaised.

Definition outcome_of (run : SlackRun) : SlackOutcome :=
  match run with
  | NoUpdateForUser | NoWebhook _ | Posted _ _ => SlackReturned
  | PostRaised _ | BuildRaised => SlackRaised
  end.

(** What the message is built from, or that there is nothing to post. *)
Inductive Draft : Type :=
| NothingToPost
| DraftMessage (message : json).

(** [bool(v)] *)
Definition json_truthy (v : json) : bool :=
  match v with
  | JNull => false
  | JInt n => negb (n =? 0)
  | JStr s => PyStr.truthy s
  | JList items => match items with [] => false | _ => true end
  | JDict fields => match fields with [] => false | _ => true end
  end.

(** [for x in v]: the items of a list, the keys of an object, the
    characters of a string, one per code point (every loop of the delivery
    subscripts its items, which raises on a string); [None] when [v] is
    not iterable. *)
Definition py_iter (v : json) : option (list json) :=
  match v with
  | JList items => Some items
  | JDict fields => Some (map (fun kv => JStr (fst kv)) fields)
  | JStr s => Some (map (fun c => JStr (Unicode.encode [c])) (Unicode.decode s))
  | _ => None
  end.

(** [[u for u in updates if u["user"].lower() == user_name.lower()]];
    an item whose ["user"] is missing or is no string raises. *)
Fixpoint filter_user (user_name : string) (updates : list json) : option (list json) :=
  match updates with
  | [] => Some []
  | u :: rest =>
      match json_item u "user" with
      | Some (JStr name) =>
          match filter_user user_name rest with
          | Some kept =>
              Some (if String.eqb (PyStr.lower name) (PyStr.lower user_name)
                    then u :: kept else kept)
          | None => None
          end
      | _ => None
      end
  end.

Definition mrkdwn_section (text : string) : json :=
  JDict [("type", JStr "section");
         ("text", JDict [("type", JStr "mrkdwn"); ("text", JStr text)])].

Definition divider : json := JDict [("type", JStr "divider")].

Section Slack.

(** [repr] of a list or of an object, which [str] falls back on. *)
Variable py_repr : json -> string.

(** [str(v)], as an f-string renders a value. *)
Definition py_str (v : json) : string :=
  match v with
  | JNull => "None"
  | JInt n => PyStr.of_int n
  | JStr s => s
  | _ => py_repr v
  end.

(** The summary of a single update. *)
Definition single_summary (u : json) : option string :=
  match json_item u "user", json_item u "yesterday",
        json_item u "today", json_item u "blockers" with
  | Some user, Some y, Some t, Some b =>
      Some ("🧍 *" ++ py_str user ++ "*'s latest stand-up:" ++ PyStr.nl
            ++ "- Yesterday: " ++ py_str y ++ PyStr.nl
            ++ "- Today: " ++ py_str t ++ PyStr.nl
            ++ "- Blockers: " ++ py_str (if json_truthy b then b else JStr "None"))
  | _, _, _, _ => None
  end.

(** One line of the risk text. *)
Definition risk_line (r : json) : option string :=
  match json_item r "user", json_item r "type", json_item r "description" with
  | Some user, Some type, Some description =>
      Some ("• *" ++ py_str user ++ "* — " ++ py_str type ++ ": " ++ py_str description)
  | _, _, _ => None
  end.

(** One entry of the updates text. *)
Definition update_line (u : json) : option string :=
  match json_item u "user", json_item u "yesterday",
        json_item u "today", json_item u "blockers" with
  | Some user, Some y, Some t, Some b =>
      Some ("• *" ++ py_str user ++ "*" ++ PyStr.nl
            ++ "   • Yesterday: " ++ py_str y ++ PyStr.nl
            ++ "   • Today: " ++ py_str t ++ PyStr.nl
            ++ "   • Blockers: " ++ py_str b)
  | _, _, _, _ => None
  end.

(** The risk text of a full report. *)
Definition risk_text_of (risks : json) : option string :=
  if negb (json_truthy risks)
  then Some ":white_check_mark: No major risks detected."
  else
    match py_iter risks with
    | Some rs => option_map (PyStr.join PyStr.nl) (map_opt risk_line rs)
    | None => None
    end.

(** The updates text. *)
Definition updates_text_of (updates : list json) : option string :=
  match updates with
  | [] => Some "_No stand-up updates found for today._"
  | _ => option_map (PyStr.join PyStr.nl) (map_opt update_line updates)
  end.

(** The blocks of the message. *)
Definition slack_message (today team_id : Z) (user_name : option string)
    (summary risk_text updates_text : string) : json :=
  let title :=
    match user_name with
    | None => "📅 Daily Stand-up Report — " ++ PyDate.isoformat today
    | Some name => "🧍 Stand-up Update — " ++ name
    end in
  JDict [("blocks", JList (
    [JDict [("type", JStr "header");
            ("text", JDict [("type", JStr "plain_text"); ("text", JStr title)])];
     mrkdwn_section ("*Team ID:* " ++ PyStr.of_int team_id);
     divider;
     mrkdwn_section ("*🧠 Summary:*" ++ PyStr.nl ++ summary)]
    ++ match user_name with
       | None => [divider; mrkdwn_section ("*⚠️ Risks:*" ++ PyStr.nl ++ risk_text)]
       | Some _ => []
       end
    ++ [divider;
        mrkdwn_section ("*🧾 Updates:*" ++ PyStr.nl ++ updates_text);
        JDict [("type", JStr "context");
               ("elements",
                JList [JDict [("type", JStr "mrkdwn");
                              ("text", JStr "_Generated automatically by Smart Daily Stand-up Reporter 🤖_")]])]])%list)].

(** The body of [send_slack_report] up to the webhook: [None] is an
    exception.  A [user_name] that is [None] or empty asks for the full
    report. *)
Definition slack_draft (today team_id : Z) (user_name : option string)
    (dashboard : json) : option Draft :=
  match json_get dashboard "summary" (JStr "No summary available."),
        json_get dashboard "risks" (JList []),
        json_get dashboard "updates" (JList []) with
  | Some summary, Some risks, Some updates =>
      match py_iter updates with
      | None => None
      | Some items =>
          match unique_updates items [] with
          | None => None
          | Some unique =>
              let updates := dict_values unique in
              let full :=
                match risk_text_of risks, updates_text_of updates with
                | Some risk_text, Some updates_text =>
                    Some (DraftMessage
                            (slack_message today team_id user_name
                               (py_str summary) risk_text updates_text))
                | _, _ => None
                end in
              match user_name with
              | None => full
              | Some name =>
                  if PyStr.truthy name
                  then
                    match filter_user name updates with
                    | None => None
                    | Some [] => Some NothingToPost
                    | Some (u :: others) =>
                        match single_summary u, updates_text_of (u :: others) with
                        | Some summary, Some updates_text =>
                            Some (DraftMessage
                                    (slack_message today team_id user_name summary
                                       "_(No team risk summary for individual updates)_"
                                       updates_text))
                        | _, _ => None
                        end
                    end
                  else full
              end
          end
      end
  | _, _, _ => None
  end.

(** [send_slack_report(team_id, user_name)] *)
Definition send_slack_report (env : SlackEnv) (today team_id : Z)
    (user_name : option string) : SlackRun :=
  match slack_draft today team_id user_name
          (slack_dashboard (fetch_dashboard env team_id)) with
  | None => BuildRaised
  | Some NothingToPost => NoUpdateForUser
  | Some (DraftMessage message) =>
      match slack_webhook env with
      | Some url =>
          if PyStr.truthy url
          then match post env url message with
               | Some status_code => Posted message status_code
               | None => PostRaised message
               end
          else NoWebhook message
      | None => NoWebhook message
      end
  end.

(** [POST /notify/slack/{team_id}]: [None] is the exception of the
    delivery, which this handler does not catch. *)
Definition notify_slack (env : SlackEnv) (today team_id : Z) : option json :=
  match outcome_of (send_slack_report env today team_id None) with
  | SlackReturned => Some (JDict [("message", JStr "Report successfully queued for Slack.")])
  | SlackRaised => None
  end.

End Slack.

(* ================================================================= *)
(** ** More sample data *)

Module Demo.

(** A row of another team. *)
Definition other_team_row : Standup.t :=
  Standup.mk (Some 9) 2 "zoe" "Planning" "Audit" None (Sample.at_hour Sample.day 8).

Definition two_teams : Session :=
  mkSession [Sample.core] (standups Sample.session ++ [other_team_row])%list.

(** A team as a client posts it, without a key. *)
Definition new_team : Team.t := Team.mk None "platform" None (Sample.at_hour Sample.day 7).

(** An entry as a client posts it, without a key. *)
Definition new_entry : Standup.t :=
  Standup.mk None 1 "frank" "Planning" "Ship" None (Sample.at_hour Sample.day 11).

(** A process whose loopback request and webhook both answer. *)
Definition env (client : option Groq) (session : Session) (today : Z) : SlackEnv :=
  mkSlackEnv (fun team_id => Some (get_dashboard client session team_id today))
    (Some "https://hooks.slack.test/services/T0")
    (fun _ _ => Some 200).

(** A stand-in for [repr] on lists and objects. *)
Definition repr (v : json) : string := "[...]".

(** A process whose loopback request fails. *)
Definition offline : SlackEnv :=
  mkSlackEnv (fun _ => None) (Some "https://hooks.slack.test/services/T0")
    (fun _ _ => Some 200).

End Demo.

(* ================================================================= *)
(** * Properties *)

(** ** Lists *)

Lemma find_app_split {A : Type} (p : A -> bool) (l1 l2 : list A) :
  find p (l1 ++ l2)%list
  = match find p l1 with Some x => Some x | None => find p l2 end.
Proof.
  induction l1 as [|a l1 IH]; simpl; [reflexivity|].
  destruct (p a); [reflexivity | exact IH].
Qed.

(** The last element of [l] that satisfies [p] splits the list. *)
Lemma find_rev_last {A : Type} (p : A -> bool) (l : list A) (x : A) :
  find p (rev l) = Some x ->
  exists l1 l2, l = (l1 ++ x :: l2)%list /\ p x = true /\ forallb (fun y => negb (p y)) l2 = true.
Proof.
  induction l as [|a l IH]; simpl; [discriminate|].
  rewrite find_app_split. destruct (find p (rev l)) as [y|] eqn:E.
  - intros H. injection H as ->. destruct (IH eq_refl) as (l1 & l2 & -> & Hp & Hl2).
    exists (a :: l1), l2. auto.
  - simpl. destruct (p a) eqn:Pa; [|discriminate].
    intros H. injection H as ->. exists [], l. repeat split; auto.
    rewrite forallb_forall. intros y Hy.
    rewrite (find_none _ _ E y); [reflexivity | now apply -> in_rev].
Qed.

Lemma find_rev_none {A : Type} (p : A -> bool) (l : list A) :
  find p (rev l) = None -> forall y, In y l -> p y = false.
Proof.
  intros H y Hy. apply (find_none _ _ H). now apply -> in_rev.
Qed.

Lemma find_rev_is_some {A : Type} (p : A -> bool) (l : list A) (y : A) :
  In y l -> p y = true -> exists x, find p (rev l) = Some x.
Proof.
  intros Hy Py. destruct (find p (rev l)) as [x|] eqn:E; [eauto|].
  rewrite (find_rev_none _ _ E y Hy) in Py. discriminate.
Qed.

Lemma StronglySorted_app_inv {A : Type} (R : A -> A -> Prop) (l1 l2 : list A) (x : A) :
  StronglySorted R (l1 ++ x :: l2)%list -> forall y, In y l1 -> R y x.
Proof.
  induction l1 as [|a l1 IH]; simpl; intros S y Hy; [contradiction|].
  apply StronglySorted_inv in S. destruct S as [S F].
  destruct Hy as [<-|Hy]; [|now apply IH].
  rewrite Forall_forall in F. apply F, in_or_app. right. now left.
Qed.

Lemma StronglySorted_filter {A : Type} (R : A -> A -> Prop) (p : A -> bool) (l : list A) :
  StronglySorted R l -> StronglySorted R (filter p l).
Proof.
  induction 1 as [|a l S IH F]; simpl; [constructor|].
  destruct (p a); [|exact IH].
  constructor; [exact IH|].
  rewrite Forall_forall in *. intros y Hy. apply filter_In in Hy. now apply F.
Qed.

(** ** Dictionaries *)

Section DictFacts.

Context {K V : Type}.
Variable eqb : K -> K -> bool.
Hypothesis eqb_eq : forall a b, eqb a b = true <-> a = b.

Lemma eqb_same (k : K) : eqb k k = true.
Proof. now apply eqb_eq. Qed.

Lemma eqb_diff (a b : K) : a <> b -> eqb a b = false.
Proof.
  intros N. destruct (eqb a b) eqn:E; [|reflexivity].
  apply eqb_eq in E. contradiction.
Qed.

Lemma dict_get_set_same (d : dict K V) k v :
  dict_get eqb (dict_set eqb d k v) k = Some v.
Proof.
  induction d as [|[k' v'] d IH]; simpl.
  - now rewrite eqb_same.
  - destruct (eqb k k') eqn:E; simpl; rewrite E; [reflexivity | exact IH].
Qed.

Lemma dict_get_set_other (d : dict K V) k k' v :
  k' <> k -> dict_get eqb (dict_set eqb d k v) k' = dict_get eqb d k'.
Proof.
  intros N. induction d as [|[k0 v0] d IH]; simpl.
  - now rewrite (eqb_diff _ _ N).
  - destruct (eqb k k0) eqn:E; simpl.
    + apply eqb_eq in E. subst k0. now rewrite (eqb_diff _ _ N).
    + now rewrite IH.
Qed.

Lemma dict_keys_set (d : dict K V) k v k' :
  In k' (dict_keys (dict_set eqb d k v)) <-> k' = k \/ In k' (dict_keys d).
Proof.
  induction d as [|[k0 v0] d IH]; simpl.
  - intuition.
  - destruct (eqb k k0) eqn:E; simpl.
    + apply eqb_eq in E. subst k0. intuition.
    + rewrite IH. intuition.
Qed.

Lemma dict_set_NoDup (d : dict K V) k v :
  NoDup (dict_keys d) -> NoDup (dict_keys (dict_set eqb d k v)).
Proof.
  induction d as [|[k0 v0] d IH]; simpl; intros N.
  - constructor; [intros []|constructor].
  - inversion N as [|? ? Hk0 Nd]; subst.
    destruct (eqb k k0) eqn:E; simpl; [now constructor|].
    constructor; [|now apply IH].
    intros H. apply dict_keys_set in H. destruct H as [->|H]; [|contradiction].
    now rewrite eqb_same in E.
Qed.

Lemma dict_get_In (d : dict K V) k v :
  dict_get eqb d k = Some v -> In (k, v) d.
Proof.
  induction d as [|[k0 v0] d IH]; simpl; [discriminate|].
  destruct (eqb k k0) eqn:E.
  - intros H. injection H as ->. apply eqb_eq in E. subst. now left.
  - intros H. right. now apply IH.
Qed.

Lemma dict_In_get (d : dict K V) k v :
  NoDup (dict_keys d) -> In (k, v) d -> dict_get eqb d k = Some v.
Proof.
  induction d as [|[k0 v0] d IH]; simpl; intros N H; [contradiction|].
  inversion N as [|? ? Hk0 Nd]; subst.
  destruct H as [H|H].
  - injection H as -> ->. now rewrite eqb_same.
  - destruct (eqb k k0) eqn:E; [|now apply IH].
    apply eqb_eq in E. subst k0. exfalso. apply Hk0.
    change k with (fst (k, v)). now apply in_map.
Qed.

Lemma dict_get_None (d : dict K V) k :
  dict_get eqb d k = None <-> ~ In k (dict_keys d).
Proof.
  induction d as [|[k0 v0] d IH]; simpl; [intuition|].
  destruct (eqb k k0) eqn:E.
  - apply eqb_eq in E. subst. split; [discriminate | intros H; exfalso; auto].
  - rewrite IH. split; [|tauto].
    intros H [->|H']; [now rewrite eqb_same in E | auto].
Qed.

(** *** Dictionaries built by a loop of assignments *)

Variable key : V -> K.

Let assign (d : dict K V) (x : V) : dict K V := dict_set eqb d (key x) x.

Lemma fold_assign_get (xs : list V) (d : dict K V) k :
  dict_get eqb (fold_left assign xs d) k
  = match find (fun x => eqb k (key x)) (rev xs) with
    | Some x => Some x
    | None => dict_get eqb d k
    end.
Proof.
  revert d. induction xs as [|x xs IH]; intros d; simpl; [reflexivity|].
  rewrite IH, find_app_split.
  destruct (find (fun x0 => eqb k (key x0)) (rev xs)); [reflexivity|].
  simpl. unfold assign. destruct (eqb k (key x)) eqn:E.
  - apply eqb_eq in E. subst k. apply dict_get_set_same.
  - apply dict_get_set_other. intros ->. now rewrite eqb_same in E.
Qed.

Lemma fold_assign_NoDup (xs : list V) (d : dict K V) :
  NoDup (dict_keys d) -> NoDup (dict_keys (fold_left assign xs d)).
Proof.
  revert d. induction xs as [|x xs IH]; intros d N; simpl; [exact N|].
  apply IH. now apply dict_set_NoDup.
Qed.

Lemma fold_assign_keys (xs : list V) (d : dict K V) k :
  In k (dict_keys (fold_left assign xs d)) <-> In k (dict_keys d) \/ In k (map key xs).
Proof.
  revert d. induction xs as [|x xs IH]; intros d; simpl; [tauto|].
  rewrite IH. unfold assign. rewrite dict_keys_set. intuition.
Qed.

Lemma dict_by_get (xs : list V) k :
  dict_get eqb (dict_by eqb key xs) k = find (fun x => eqb k (key x)) (rev xs).
Proof.
  unfold dict_by. fold assign. rewrite fold_assign_get.
  now destruct (find _ _).
Qed.

Lemma dict_by_NoDup (xs : list V) : NoDup (dict_keys (dict_by eqb key xs)).
Proof. apply fold_assign_NoDup. constructor. Qed.

Lemma dict_by_keys (xs : list V) k :
  In k (dict_keys (dict_by eqb key xs)) <-> In k (map key xs).
Proof. unfold dict_by. fold assign. rewrite fold_assign_keys. simpl. tauto. Qed.

End DictFacts.

(** ** Dictionaries of lists built by a loop of appends *)

Section GroupFacts.

Context {K A : Type}.
Variable eqb : K -> K -> bool.
Hypothesis eqb_eq : forall a b, eqb a b = true <-> a = b.
Variable akey : A -> K.

Let append (d : dict K (list A)) (x : A) : dict K (list A) :=
  dict_set eqb d (akey x)
    (match dict_get eqb d (akey x) with Some l => l | None => [] end ++ [x])%list.

Lemma fold_append_get (xs : list A) (d : dict K (list A)) k :
  dict_get eqb (fold_left append xs d) k
  = match filter (fun x => eqb k (akey x)) xs with
    | [] => dict_get eqb d k
    | found =>
        Some (match dict_get eqb d k with Some l => l | None => [] end ++ found)%list
    end.
Proof.
  revert d. induction xs as [|x xs IH]; intros d; simpl; [reflexivity|].
  rewrite IH. unfold append.
  destruct (eqb k (akey x)) eqn:E.
  - apply eqb_eq in E. subst k. rewrite (dict_get_set_same eqb eqb_eq).
    destruct (filter _ xs); [reflexivity|]. now rewrite <- app_assoc.
  - rewrite (dict_get_set_other eqb eqb_eq); [reflexivity|].
    intros ->. now rewrite (eqb_same eqb eqb_eq) in E.
Qed.

Lemma fold_append_NoDup (xs : list A) (d : dict K (list A)) :
  NoDup (dict_keys d) -> NoDup (dict_keys (fold_left append xs d)).
Proof.
  revert d. induction xs as [|x xs IH]; intros d N; simpl; [exact N|].
  apply IH. now apply (dict_set_NoDup eqb eqb_eq).
Qed.

Lemma group_by_get (xs : list A) k :
  dict_get eqb (group_by eqb akey xs) k
  = match filter (fun x => eqb k (akey x)) xs with
    | [] => None
    | found => Some found
    end.
Proof. unfold group_by. fold append. now rewrite fold_append_get. Qed.

Lemma group_by_NoDup (xs : list A) : NoDup (dict_keys (group_by eqb akey xs)).
Proof. apply fold_append_NoDup. constructor. Qed.

Lemma group_by_In (xs : list A) k l :
  In (k, l) (group_by eqb akey xs) ->
  l = filter (fun x => eqb k (akey x)) xs /\ l <> [].
Proof.
  intros H. apply (dict_In_get eqb eqb_eq _ _ _ (group_by_NoDup xs)) in H.
  rewrite group_by_get in H.
  destruct (filter _ xs) eqn:E; [discriminate|].
  injection H as <-. split; [reflexivity | discriminate].
Qed.

End GroupFacts.

(** ** The order of [ORDER BY user_name, created_at] *)

Lemma ascii_compare_refl (c : ascii) : Ascii.compare c c = Eq.
Proof. unfold Ascii.compare. apply N.compare_refl. Qed.

Lemma string_compare_refl (s : string) : String.compare s s = Eq.
Proof.
  induction s as [|c s IH]; simpl; [reflexivity|].
  now rewrite ascii_compare_refl.
Qed.

Lemma string_compare_Eq (a b : string) : String.compare a b = Eq <-> a = b.
Proof.
  split; [apply String.compare_eq_iff | intros ->; apply string_compare_refl].
Qed.

Lemma string_compare_Lt_trans (a b c : string) :
  String.compare a b = Lt -> String.compare b c = Lt -> String.compare a c = Lt.
Proof.
  revert b c. induction a as [|x a IH]; intros [|y b] [|z c]; simpl;
    try discriminate; try reflexivity.
  unfold Ascii.compare.
  destruct (N.compare_spec (N_of_ascii x) (N_of_ascii y)) as [Exy|Lxy|Gxy];
    try discriminate;
    destruct (N.compare_spec (N_of_ascii y) (N_of_ascii z)) as [Eyz|Lyz|Gyz];
    try discriminate; intros H1 H2.
  - rewrite Exy, Eyz, N.compare_refl. now apply IH with b.
  - rewrite Exy. now apply N.compare_lt_iff in Lyz as ->.
  - rewrite <- Eyz. now apply N.compare_lt_iff in Lxy as ->.
  - assert (L : (N_of_ascii x < N_of_ascii z)%N) by lia.
    now apply N.compare_lt_iff in L as ->.
Qed.

Lemma standup_le_total (a b : Standup.t) : standup_le a b \/ standup_le b a.
Proof.
  unfold standup_le, standup_leb.
  rewrite (String.compare_antisym (Standup.user_name b)).
  destruct (String.compare (Standup.user_name a) (Standup.user_name b)); simpl; auto.
  destruct (Z.leb_spec (Standup.created_at a) (Standup.created_at b)); [now left|].
  right. apply Z.leb_le. lia.
Qed.

Lemma standup_le_trans (a b c : Standup.t) :
  standup_le a b -> standup_le b c -> standup_le a c.
Proof.
  unfold standup_le, standup_leb.
  destruct (String.compare (Standup.user_name a) (Standup.user_name b)) eqn:Eab;
    try discriminate;
    destruct (String.compare (Standup.user_name b) (Standup.user_name c)) eqn:Ebc;
    try discriminate; intros H1 H2.
  - apply string_compare_Eq in Eab, Ebc. rewrite Eab, Ebc, string_compare_refl.
    apply Z.leb_le. apply Z.leb_le in H1, H2. lia.
  - apply string_compare_Eq in Eab. now rewrite Eab, Ebc.
  - apply string_compare_Eq in Ebc. now rewrite <- Ebc, Eab.
  - now rewrite (string_compare_Lt_trans _ _ _ Eab Ebc).
Qed.

Lemma standup_le_same_user (a b : Standup.t) :
  standup_le a b -> Standup.user_name a = Standup.user_name b ->
  Standup.created_at a <= Standup.created_at b.
Proof.
  unfold standup_le, standup_leb. intros H E.
  rewrite E, string_compare_refl in H. now apply Z.leb_le.
Qed.

(** ** Insertion sort *)

Section SortFacts.

Context {A : Type}.
Variable leb : A -> A -> bool.
Let le (a b : A) : Prop := leb a b = true.
Hypothesis le_total : forall a b, le a b \/ le b a.
Hypothesis le_trans : forall a b c, le a b -> le b c -> le a c.

Lemma insert_by_perm (x : A) (l : list A) : Permutation (x :: l) (insert_by leb x l).
Proof.
  induction l as [|y l IH]; simpl; [reflexivity|].
  destruct (leb x y); [reflexivity|].
  rewrite perm_swap. now constructor.
Qed.

Lemma order_by_perm (l : list A) : Permutation l (order_by leb l).
Proof.
  induction l as [|x l IH]; simpl; [reflexivity|].
  rewrite <- insert_by_perm. now constructor.
Qed.

Lemma insert_by_sorted (x : A) (l : list A) :
  StronglySorted le l -> StronglySorted le (insert_by leb x l).
Proof.
  induction 1 as [|y l S IH F]; simpl.
  - constructor; constructor.
  - destruct (leb x y) eqn:E.
    + constructor; [now constructor|].
      constructor; [exact E|].
      rewrite Forall_forall in *. intros z Hz. apply le_trans with y; auto.
    + constructor; [exact IH|].
      rewrite Forall_forall in *. intros z Hz.
      apply (Permutation_in _ (Permutation_sym (insert_by_perm x l))) in Hz.
      destruct Hz as [<-|Hz]; [|now apply F].
      destruct (le_total x y) as [L|L]; [|exact L].
      unfold le in L. congruence.
Qed.

Lemma order_by_sorted (l : list A) : StronglySorted le (order_by leb l).
Proof.
  induction l as [|x l IH]; simpl; [constructor | now apply insert_by_sorted].
Qed.

Lemma order_by_In (l : list A) (x : A) : In x (order_by leb l) <-> In x l.
Proof.
  split; apply Permutation_in; [symmetry|]; apply order_by_perm.
Qed.

End SortFacts.

(** ** Calendar days *)

Lemma date_of_bounds (c d : Z) :
  PyDate.date_of c = d <-> PyDate.midnight d <= c < PyDate.midnight (d + 1).
Proof.
  unfold PyDate.date_of, PyDate.midnight, PyDate.usPerDay.
  pose proof (Z.div_mod c 86400000000 ltac:(lia)) as D.
  pose proof (Z.mod_pos_bound c 86400000000 ltac:(lia)) as M.
  split; [intros <-; lia|].
  intros [L U]. nia.
Qed.

Lemma date_of_mono (a b : Z) : a <= b -> PyDate.date_of a <= PyDate.date_of b.
Proof.
  intros H. unfold PyDate.date_of, PyDate.usPerDay.
  apply Z.div_le_mono; lia.
Qed.

(** ** Text: the code points against the bytes of ASCII *)

Lemma ascii_space (a : ascii) :
  (N_of_ascii a <? 128)%N = true ->
  Unicode.is_space (N_of_ascii a) = AsciiText.is_space a.
Proof.
  destruct a as [[] [] [] [] [] [] [] []]; intros H;
    try discriminate H; vm_compute; reflexivity.
Qed.

Lemma ascii_to_lower (a : ascii) :
  (N_of_ascii a <? 128)%N = true ->
  Unicode.to_lower (N_of_ascii a) = [N_of_ascii (AsciiText.lower_char a)]
  /\ (N_of_ascii (AsciiText.lower_char a) <? 128)%N = true
  /\ (N_of_ascii a =? 931)%N = false.
Proof.
  destruct a as [[] [] [] [] [] [] [] []]; intros H;
    try discriminate H; vm_compute; repeat split; reflexivity.
Qed.

Lemma decode_ascii_cons (a : ascii) (r : string) :
  (N_of_ascii a <? 128)%N = true ->
  Unicode.decode (String a r) = N_of_ascii a :: Unicode.decode r.
Proof. intros H. simpl. now rewrite H. Qed.

Lemma encode_ascii_cons (a : ascii) (l : list N) :
  (N_of_ascii a <? 128)%N = true ->
  Unicode.encode (N_of_ascii a :: l) = String a (Unicode.encode l).
Proof.
  intros H. simpl. unfold Unicode.encode_point, Unicode.byte.
  now rewrite H, ascii_N_embedding.
Qed.

Lemma encode_cons_not_empty (c : N) (l : list N) :
  exists b t, Unicode.encode (c :: l) = String b t.
Proof.
  simpl. unfold Unicode.encode_point, Unicode.byte.
  repeat destruct (_ <? _)%N; eauto.
Qed.

Lemma lower_from_ascii (s : string) (before : list N) :
  AsciiText.is_ascii s = true ->
  Unicode.encode (Unicode.lower_from before (Unicode.decode s)) = AsciiText.lower s.
Proof.
  revert before. induction s as [|a r IH]; intros before H; [reflexivity|].
  simpl in H. apply andb_true_iff in H. destruct H as [Ha Hr].
  rewrite (decode_ascii_cons a r Ha). cbn [Unicode.lower_from].
  destruct (ascii_to_lower a Ha) as (L & La & Ns). rewrite Ns, L.
  cbn [app]. rewrite (encode_ascii_cons _ _ La). simpl AsciiText.lower.
  now rewrite IH.
Qed.

Lemma lower_ascii (s : string) :
  AsciiText.is_ascii s = true -> PyStr.lower s = AsciiText.lower s.
Proof. apply lower_from_ascii. Qed.

Lemma ltrim_ascii (s : string) :
  AsciiText.is_ascii s = true ->
  Unicode.ltrim (Unicode.decode s) = Unicode.decode (AsciiText.lstrip s).
Proof.
  induction s as [|a r IH]; intros H; [reflexivity|].
  simpl in H. apply andb_true_iff in H. destruct H as [Ha Hr].
  rewrite (decode_ascii_cons a r Ha). cbn [Unicode.ltrim AsciiText.lstrip].
  rewrite (ascii_space a Ha). destruct (AsciiText.is_space a); [now apply IH|].
  now rewrite (decode_ascii_cons a r Ha).
Qed.

Lemma lstrip_keeps_ascii (s : string) :
  AsciiText.is_ascii s = true -> AsciiText.is_ascii (AsciiText.lstrip s) = true.
Proof.
  induction s as [|a r IH]; intros H; [reflexivity|].
  simpl. destruct (AsciiText.is_space a); [|exact H].
  simpl in H. apply andb_true_iff in H. now apply IH.
Qed.

Lemma rstrip_keeps_ascii (s : string) :
  AsciiText.is_ascii s = true -> AsciiText.is_ascii (AsciiText.rstrip s) = true.
Proof.
  induction s as [|a r IH]; intros H; [reflexivity|].
  simpl in H. apply andb_true_iff in H. destruct H as [Ha Hr].
  specialize (IH Hr). simpl.
  destruct (AsciiText.rstrip r) as [|c t].
  - destruct (AsciiText.is_space a); [reflexivity | simpl; now rewrite Ha].
  - simpl in *. now rewrite Ha.
Qed.

Lemma rtrim_ascii (s : string) :
  AsciiText.is_ascii s = true ->
  Unicode.encode (Unicode.rtrim (Unicode.decode s)) = AsciiText.rstrip s.
Proof.
  induction s as [|a r IH]; intros H; [reflexivity|].
  simpl in H. apply andb_true_iff in H. destruct H as [Ha Hr].
  specialize (IH Hr).
  rewrite (decode_ascii_cons a r Ha). cbn [Unicode.rtrim AsciiText.rstrip].
  rewrite (ascii_space a Ha).
  destruct (Unicode.rtrim (Unicode.decode r)) as [|c kept].
  - simpl in IH. rewrite <- IH.
    destruct (AsciiText.is_space a); [reflexivity|].
    now rewrite (encode_ascii_cons a [] Ha).
  - rewrite (encode_ascii_cons a (c :: kept) Ha), IH.
    destruct (encode_cons_not_empty c kept) as (b & t & E).
    rewrite E in IH. now rewrite <- IH.
Qed.

Lemma strip_ascii (s : string) :
  AsciiText.is_ascii s = true -> PyStr.strip s = AsciiText.strip s.
Proof.
  intros H. unfold PyStr.strip, Unicode.trim, AsciiText.strip.
  rewrite (ltrim_ascii s H). apply rtrim_ascii. now apply lstrip_keeps_ascii.
Qed.

Lemma normalize_ascii (text : string) :
  AsciiText.is_ascii text = true ->
  normalize text = AsciiText.lower (AsciiText.strip text).
Proof.
  intros H. unfold normalize. rewrite (strip_ascii text H).
  apply lower_ascii. unfold AsciiText.strip.
  now apply rstrip_keeps_ascii, lstrip_keeps_ascii.
Qed.

(** ** Text: the code points of well-formed UTF-8 *)

Lemma decode_one (b0 : N) (rest : string) :
  (b0 < 128)%N ->
  Unicode.decode (Unicode.byte b0 rest) = b0 :: Unicode.decode rest.
Proof.
  intros H. unfold Unicode.byte. cbn [Unicode.decode].
  rewrite N_ascii_embedding by lia.
  now apply N.ltb_lt in H as ->.
Qed.

Lemma decode_two (b0 b1 : N) (rest : string) :
  (192 <= b0 < 224)%N -> (128 <= b1 < 192)%N ->
  Unicode.decode (Unicode.byte b0 (Unicode.byte b1 rest))
  = ((b0 - 192) * 64 + (b1 - 128))%N :: Unicode.decode rest.
Proof.
  intros H0 H1. unfold Unicode.byte. cbn [Unicode.decode].
  rewrite !N_ascii_embedding by lia. unfold Unicode.is_cont.
  replace (b0 <? 128)%N with false by (symmetry; apply N.ltb_ge; lia).
  replace (192 <=? b0)%N with true by (symmetry; apply N.leb_le; lia).
  replace (b0 <? 224)%N with true by (symmetry; apply N.ltb_lt; lia).
  replace (128 <=? b1)%N with true by (symmetry; apply N.leb_le; lia).
  replace (b1 <? 192)%N with true by (symmetry; apply N.ltb_lt; lia).
  reflexivity.
Qed.

Lemma decode_three (b0 b1 b2 : N) (rest : string) :
  (224 <= b0 < 240)%N -> (128 <= b1 < 192)%N -> (128 <= b2 < 192)%N ->
  Unicode.decode (Unicode.byte b0 (Unicode.byte b1 (Unicode.byte b2 rest)))
  = ((b0 - 224) * 4096 + (b1 - 128) * 64 + (b2 - 128))%N :: Unicode.decode rest.
Proof.
  intros H0 H1 H2. unfold Unicode.byte. cbn [Unicode.decode].
  rewrite !N_ascii_embedding by lia. unfold Unicode.is_cont.
  replace (b0 <? 128)%N with false by (symmetry; apply N.ltb_ge; lia).
  replace (b0 <? 224)%N with false by (symmetry; apply N.ltb_ge; lia).
  replace (224 <=? b0)%N with true by (symmetry; apply N.leb_le; lia).
  replace (b0 <? 240)%N with true by (symmetry; apply N.ltb_lt; lia).
  replace (128 <=? b1)%N with true by (symmetry; apply N.leb_le; lia).
  replace (b1 <? 192)%N with true by (symmetry; apply N.ltb_lt; lia).
  replace (128 <=? b2)%N with true by (symmetry; apply N.leb_le; lia).
  replace (b2 <? 192)%N with true by (symmetry; apply N.ltb_lt; lia).
  rewrite andb_false_r. reflexivity.
Qed.

Lemma decode_four (b0 b1 b2 b3 : N) (rest : string) :
  (240 <= b0 < 248)%N -> (128 <= b1 < 192)%N -> (128 <= b2 < 192)%N ->
  (128 <= b3 < 192)%N ->
  Unicode.decode
    (Unicode.byte b0 (Unicode.byte b1 (Unicode.byte b2 (Unicode.byte b3 rest))))
  = ((b0 - 240) * 262144 + (b1 - 128) * 4096 + (b2 - 128) * 64 + (b3 - 128))%N
    :: Unicode.decode rest.
Proof.
  intros H0 H1 H2 H3. unfold Unicode.byte. cbn [Unicode.decode].
  rewrite !N_ascii_embedding by lia. unfold Unicode.is_cont.
  replace (b0 <? 128)%N with false by (symmetry; apply N.ltb_ge; lia).
  replace (b0 <? 224)%N with false by (symmetry; apply N.ltb_ge; lia).
  replace (b0 <? 240)%N with false by (symmetry; apply N.ltb_ge; lia).
  replace (240 <=? b0)%N with true by (symmetry; apply N.leb_le; lia).
  replace (b0 <? 248)%N with true by (symmetry; apply N.ltb_lt; lia).
  replace (128 <=? b1)%N with true by (symmetry; apply N.leb_le; lia).
  replace (b1 <? 192)%N with true by (symmetry; apply N.ltb_lt; lia).
  replace (128 <=? b2)%N with true by (symmetry; apply N.leb_le; lia).
  replace (b2 <? 192)%N with true by (symmetry; apply N.ltb_lt; lia).
  replace (128 <=? b3)%N with true by (symmetry; apply N.leb_le; lia).
  replace (b3 <? 192)%N with true by (symmetry; apply N.ltb_lt; lia).
  rewrite !andb_false_r. reflexivity.
Qed.

Lemma decode_encode_point (c : N) (rest : string) :
  (c < 1114112)%N ->
  Unicode.decode (Unicode.encode_point c rest) = c :: Unicode.decode rest.
Proof.
  intros H. unfold Unicode.encode_point.
  pose proof (N.div_mod c 64 ltac:(lia)) as D1.
  pose proof (N.mod_lt c 64 ltac:(lia)) as M1.
  pose proof (N.div_mod (c / 64) 64 ltac:(lia)) as D2.
  pose proof (N.mod_lt (c / 64) 64 ltac:(lia)) as M2.
  pose proof (N.div_mod (c / 64 / 64) 64 ltac:(lia)) as D3.
  pose proof (N.mod_lt (c / 64 / 64) 64 ltac:(lia)) as M3.
  assert (E2 : (c / 4096 = c / 64 / 64)%N) by (now rewrite N.Div0.div_div).
  assert (E3 : (c / 262144 = c / 64 / 64 / 64)%N) by (now rewrite !N.Div0.div_div).
  destruct (N.ltb_spec c 128); [now apply decode_one|].
  rewrite E2, E3. clear E2 E3.
  set (q1 := (c / 64)%N) in *. set (m1 := (c mod 64)%N) in *.
  set (q2 := (q1 / 64)%N) in *. set (m2 := (q1 mod 64)%N) in *.
  set (q3 := (q2 / 64)%N) in *. set (m3 := (q2 mod 64)%N) in *.
  clearbody m3 q3 m2 q2 m1 q1.
  destruct (N.ltb_spec c 2048).
  { rewrite decode_two by lia. f_equal. lia. }
  destruct (N.ltb_spec c 65536).
  { rewrite decode_three by lia. f_equal. lia. }
  apply N.ltb_lt in H as H'. rewrite H'.
  rewrite decode_four by lia. f_equal. lia.
Qed.

Lemma decode_encode (l : list N) :
  Forall (fun c => (c < 1114112)%N) l -> Unicode.decode (Unicode.encode l) = l.
Proof.
  induction 1 as [|c l Hc Hl IH]; [reflexivity|].
  simpl. now rewrite decode_encode_point, IH.
Qed.

(** ** Text: whitespace around a text *)

Lemma whitespace_is_space (c : N) : In c unicode_whitespace -> Unicode.is_space c = true.
Proof.
  unfold unicode_whitespace. simpl.
  intros H; repeat (destruct H as [<-|H]; [vm_compute; reflexivity|]); destruct H.
Qed.

Lemma whitespace_is_code_point (c : N) : In c unicode_whitespace -> (c < 1114112)%N.
Proof.
  unfold unicode_whitespace. simpl.
  intros H; repeat (destruct H as [<-|H]; [reflexivity|]); destruct H.
Qed.

Lemma ltrim_spaces_app (w x : list N) :
  Forall (fun c => Unicode.is_space c = true) w ->
  Unicode.ltrim (w ++ x) = Unicode.ltrim x.
Proof.
  induction 1 as [|c w Hc Hw IH]; [reflexivity|]. simpl. now rewrite Hc.
Qed.

Lemma ltrim_text_app (x w : list N) :
  Unicode.ltrim x <> [] -> Unicode.ltrim (x ++ w) = (Unicode.ltrim x ++ w)%list.
Proof.
  induction x as [|c x IH]; simpl; [contradiction|].
  destruct (Unicode.is_space c); [exact IH | reflexivity].
Qed.

Lemma rtrim_spaces (w : list N) :
  Forall (fun c => Unicode.is_space c = true) w -> Unicode.rtrim w = [].
Proof.
  induction 1 as [|c w Hc Hw IH]; [reflexivity|]. simpl. now rewrite IH, Hc.
Qed.

Lemma rtrim_app_spaces (x w : list N) :
  Forall (fun c => Unicode.is_space c = true) w ->
  Unicode.rtrim (x ++ w) = Unicode.rtrim x.
Proof.
  intros H. induction x as [|c x IH]; simpl; [now apply rtrim_spaces|].
  now rewrite IH.
Qed.

Lemma trim_padding (left core right : list N) :
  Forall (fun c => Unicode.is_space c = true) left ->
  Forall (fun c => Unicode.is_space c = true) right ->
  Unicode.trim (left ++ core ++ right) = Unicode.trim core.
Proof.
  intros L R. unfold Unicode.trim. rewrite (ltrim_spaces_app left _ L).
  destruct (Unicode.ltrim core) as [|c kept] eqn:E.
  - assert (S : Unicode.ltrim (core ++ right) = Unicode.ltrim right).
    { clear L. induction core as [|x core IH]; [reflexivity|].
      simpl in *. destruct (Unicode.is_space x); [now apply IH | discriminate E]. }
    rewrite S.
    assert (T : Unicode.ltrim right = []).
    { clear S. induction R as [|x right Hx Hr IH]; [reflexivity|].
      simpl. now rewrite Hx. }
    now rewrite T.
  - rewrite ltrim_text_app by (rewrite E; discriminate).
    rewrite E. now apply rtrim_app_spaces.
Qed.

Lemma strip_encode (l : list N) :
  Forall (fun c => (c < 1114112)%N) l ->
  PyStr.strip (Unicode.encode l) = Unicode.encode (Unicode.trim l).
Proof. intros H. unfold PyStr.strip. now rewrite decode_encode. Qed.

(** The normalization that the statements name is the trimming and
    lower-casing of the text. *)
Lemma normalization_is_read : normalization_reads_text.
Proof.
  split; [exact normalize_ascii|].
  split; [|repeat split; vm_compute; reflexivity].
  intros left core right L R C.
  assert (Ls : Forall (fun c => Unicode.is_space c = true) left).
  { eapply Forall_impl; [|exact L]. apply whitespace_is_space. }
  assert (Rs : Forall (fun c => Unicode.is_space c = true) right).
  { eapply Forall_impl; [|exact R]. apply whitespace_is_space. }
  assert (V : Forall (fun c => (c < 1114112)%N) (left ++ core ++ right)).
  { rewrite !Forall_app. repeat split; [|exact C|].
    - eapply Forall_impl; [|exact L]. apply whitespace_is_code_point.
    - eapply Forall_impl; [|exact R]. apply whitespace_is_code_point. }
  unfold normalize. rewrite (strip_encode _ V), (strip_encode _ C).
  now rewrite trim_padding.
Qed.

Lemma case_folding_is_read : case_folding_reads_text.
Proof. split; [exact lower_ascii|]. repeat split; vm_compute; reflexivity. Qed.

(** ** The recent window *)

Lemma select_recent_In (session : Session) (team_id today : Z) (e : Standup.t) :
  In e (select_recent session team_id today)
  <-> In e (standups session)
      /\ Standup.team_id e = team_id
      /\ PyDate.midnight (today - 7) <= Standup.created_at e.
Proof.
  unfold select_recent. rewrite order_by_In, filter_In, andb_true_iff.
  rewrite Z.eqb_eq, Z.leb_le. tauto.
Qed.

Lemma select_recent_sorted (session : Session) (team_id today : Z) :
  StronglySorted standup_le (select_recent session team_id today).
Proof.
  apply order_by_sorted; [apply standup_le_total | apply standup_le_trans].
Qed.

Lemma on_day_recent (session : Session) (team_id today : Z) user day e :
  today - 7 <= day -> In e (standups session) -> on_day team_id user day e ->
  In e (filter (fun x => String.eqb user (Standup.user_name x))
          (select_recent session team_id today)).
Proof.
  intros W I (Ht & Hu & Hd). apply filter_In. split.
  - apply select_recent_In. repeat split; auto.
    apply date_of_bounds in Hd. unfold PyDate.midnight, PyDate.usPerDay in *. lia.
  - now apply String.eqb_eq.
Qed.

Lemma by_date_latest (session : Session) (team_id today : Z) user day e :
  today - 7 <= day ->
  dict_get Z.eqb (by_date_of session team_id today user) day = Some e ->
  latest_on session team_id user day e.
Proof.
  intros W G. unfold by_date_of in G. rewrite (dict_by_get _ Z.eqb_eq) in G.
  destruct (find_rev_last _ _ _ G) as (l1 & l2 & Hl & Hp & Hl2).
  assert (Ie : In e (filter (fun x => String.eqb user (Standup.user_name x))
                       (select_recent session team_id today))).
  { rewrite Hl. apply in_or_app. right. now left. }
  apply filter_In in Ie. destruct Ie as [Ie Ue].
  apply select_recent_In in Ie. destruct Ie as (Is & Te & _).
  apply String.eqb_eq in Ue. apply Z.eqb_eq in Hp.
  split; [exact Is|]. split; [repeat split; auto|].
  intros e' Is' D'. pose proof (on_day_recent _ _ today _ _ _ W Is' D') as I'.
  rewrite Hl in I'. apply in_app_or in I'. destruct I' as [I'|[<-|I']].
  - apply standup_le_same_user.
    + apply (StronglySorted_app_inv standup_le l1 l2 e); [|exact I'].
      rewrite <- Hl. apply StronglySorted_filter, select_recent_sorted.
    + destruct D' as (_ & -> & _). exact Ue.
  - lia.
  - rewrite forallb_forall in Hl2. apply Hl2 in I'.
    destruct D' as (_ & _ & D'). rewrite D', Z.eqb_refl in I'. discriminate.
Qed.

Lemma by_date_found (session : Session) (team_id today : Z) user day :
  today - 7 <= day -> has_entry session team_id user day ->
  exists e, dict_get Z.eqb (by_date_of session team_id today user) day = Some e.
Proof.
  intros W (e & Is & D). unfold by_date_of. rewrite (dict_by_get _ Z.eqb_eq).
  apply find_rev_is_some with e.
  - now apply on_day_recent with (day := day).
  - destruct D as (_ & _ & ->). apply Z.eqb_refl.
Qed.

Lemma latest_has_entry (session : Session) (team_id : Z) user day e :
  latest_on session team_id user day e -> has_entry session team_id user day.
Proof. intros (I & D & _). now exists e. Qed.

(** ** Counting findings *)

Lemma risk_is_risk (u ty u' ty' d : string) :
  risk_is u ty (risk u' ty' d) = String.eqb u' u && String.eqb ty' ty.
Proof. reflexivity. Qed.

Lemma count_risks_app (u ty : string) (l1 l2 : list json) :
  count_risks u ty (l1 ++ l2)%list = (count_risks u ty l1 + count_risks u ty l2)%nat.
Proof. unfold count_risks. now rewrite filter_app, length_app. Qed.

Lemma count_risks_none (u ty : string) (l : list json) :
  (forall r, In r l -> risk_is u ty r = false) -> count_risks u ty l = 0%nat.
Proof.
  unfold count_risks. induction l as [|r l IH]; intros H; simpl; [reflexivity|].
  rewrite (H r (or_introl eq_refl)). apply IH. intros r' Hr'. apply H. now right.
Qed.

Lemma risk_is_other_user (u ty k : string) (r : json) :
  json_item r "user" = Some (JStr k) -> k <> u -> risk_is u ty r = false.
Proof.
  intros H N. unfold risk_is. rewrite H.
  destruct (json_item r "type") as [[]|]; try reflexivity.
  apply String.eqb_neq in N. now rewrite N.
Qed.

Lemma risk_is_other_type (u ty t : string) (r : json) :
  json_item r "type" = Some (JStr t) -> t <> ty -> risk_is u ty r = false.
Proof.
  intros H N. unfold risk_is. rewrite H.
  destruct (json_item r "user") as [[]|]; try reflexivity.
  apply String.eqb_neq in N. rewrite N. apply andb_false_r.
Qed.

Lemma flat_map_map_compose {A B C : Type} (f : B -> list C) (g : A -> B) (l : list A) :
  flat_map f (map g l) = flat_map (fun x => f (g x)) l.
Proof.
  induction l as [|a l IH]; simpl; [reflexivity | now rewrite IH].
Qed.

Section FindingsOfDict.

Context {X : Type}.
Variable G : string * X -> list json.
Hypothesis G_user :
  forall k v r, In r (G (k, v)) -> json_item r "user" = Some (JStr k).

Lemma flat_map_dict_user (d : dict string X) (r : json) :
  In r (flat_map G d) ->
  exists k, In k (dict_keys d) /\ json_item r "user" = Some (JStr k).
Proof.
  intros H. apply in_flat_map in H. destruct H as ([k v] & Hd & Hr).
  exists k. split; [|now apply G_user with v].
  change k with (fst (k, v)). now apply in_map.
Qed.

Lemma count_flat_map_dict (d : dict string X) (u ty : string) :
  NoDup (dict_keys d) ->
  count_risks u ty (flat_map G d)
  = match dict_get String.eqb d u with
    | Some v => count_risks u ty (G (u, v))
    | None => 0%nat
    end.
Proof.
  induction d as [|[k v] d IH]; simpl; intros N; [reflexivity|].
  inversion N as [|? ? Hk Nd]; subst.
  rewrite count_risks_app, (IH Nd).
  destruct (String.eqb u k) eqn:E.
  - apply String.eqb_eq in E. subst k.
    apply (dict_get_None String.eqb String.eqb_eq) in Hk. rewrite Hk. lia.
  - rewrite count_risks_none; [reflexivity|].
    intros r Hr. apply risk_is_other_user with k; [now apply G_user with v|].
    intros ->. now rewrite String.eqb_refl in E.
Qed.

Hypothesis G_NoDup : forall k v, NoDup (map finding_key (G (k, v))).

Lemma NoDup_flat_map_dict (d : dict string X) :
  NoDup (dict_keys d) -> NoDup (map finding_key (flat_map G d)).
Proof.
  induction d as [|[k v] d IH]; simpl; intros N; [constructor|].
  inversion N as [|? ? Hk Nd]; subst.
  rewrite map_app. apply NoDup_app; [apply G_NoDup | now apply IH|].
  intros key H1 H2.
  apply in_map_iff in H1. destruct H1 as (r1 & <- & H1).
  apply in_map_iff in H2. destruct H2 as (r2 & E & H2).
  apply G_user in H1. apply flat_map_dict_user in H2. destruct H2 as (k2 & Hk2 & U2).
  unfold finding_key in E. rewrite H1, U2 in E.
  injection E as E _. subst k2. contradiction.
Qed.

End FindingsOfDict.

(** ** The findings of the risk report *)

Lemma user_risks_shape (today yesterday : Z) (user : string) (entries : list Standup.t)
    (r : json) :
  In r (risk_report_user_risks today yesterday user entries) ->
  exists ty d, r = risk user ty d /\ (ty = "Stale Task" \/ ty = "Repeated Blocker").
Proof.
  unfold risk_report_user_risks.
  destruct (dict_get _ _ today) as [te|]; [|intros []].
  destruct (dict_get _ _ yesterday) as [ye|]; [|intros []].
  intros H. apply in_app_or in H. destruct H as [H|H].
  - destruct (String.eqb _ _); [|destruct H].
    destruct H as [<-|[]]. eauto.
  - destruct (_ && _); [|destruct H].
    destruct H as [<-|[]]. eauto.
Qed.

Lemma missing_shape (today days_missing : Z) (user : string) (last_at : option Z)
    (r : json) :
  In r (risk_report_missing today days_missing (user, last_at)) ->
  exists d, r = risk user "Missing Update" d.
Proof.
  unfold risk_report_missing.
  destruct (match last_at with Some _ => _ | None => _ end); [|intros []].
  intros [<-|[]]. eauto.
Qed.

Lemma user_risks_NoDup (today yesterday : Z) (user : string) (entries : list Standup.t) :
  NoDup (map finding_key (risk_report_user_risks today yesterday user entries)).
Proof.
  unfold risk_report_user_risks.
  destruct (dict_get _ _ today) as [te|]; [|constructor].
  destruct (dict_get _ _ yesterday) as [ye|]; [|constructor].
  destruct (String.eqb _ _); destruct (_ && _); simpl;
    repeat constructor; simpl; try tauto.
  intros [H|[]]. discriminate H.
Qed.

Lemma missing_NoDup (today days_missing : Z) (row : string * option Z) :
  NoDup (map finding_key (risk_report_missing today days_missing row)).
Proof.
  destruct row as [user last_at]. unfold risk_report_missing.
  destruct (match last_at with Some _ => _ | None => _ end); simpl;
    repeat constructor. tauto.
Qed.

(** The rows of the last-update query, as a dictionary over the groups. *)
Lemma select_last_at_rows (session : Session) (team_id today days_missing : Z) :
  flat_map (risk_report_missing today days_missing) (select_last_at session team_id)
  = flat_map
      (fun g : string * list Standup.t =>
         risk_report_missing today days_missing
           (fst g,
            match map Standup.created_at (snd g) with
            | [] => None
            | first :: others => Some (fold_left Z.max others first)
            end))
      (group_by String.eqb Standup.user_name
         (order_by user_leb
            (filter (fun s => Standup.team_id s =? team_id) (standups session)))).
Proof.
  unfold select_last_at. rewrite flat_map_map_compose.
  apply flat_map_ext. now intros [user rows].
Qed.

(** Sorting by user keeps the rows of each user as they were. *)
Lemma filter_user_insert (u : string) (a : Standup.t) (l : list Standup.t) :
  filter (fun x => String.eqb u (Standup.user_name x)) (insert_by user_leb a l)
  = if String.eqb u (Standup.user_name a)
    then a :: filter (fun x => String.eqb u (Standup.user_name x)) l
    else filter (fun x => String.eqb u (Standup.user_name x)) l.
Proof.
  induction l as [|y l IH]; simpl; [reflexivity|].
  destruct (user_leb a y) eqn:L; simpl; [reflexivity|].
  rewrite IH.
  destruct (String.eqb u (Standup.user_name a)) eqn:Ea; [|reflexivity].
  destruct (String.eqb u (Standup.user_name y)) eqn:Ey; [|reflexivity].
  apply String.eqb_eq in Ea. apply String.eqb_eq in Ey.
  unfold user_leb in L. rewrite <- Ea, <- Ey, string_compare_refl in L. discriminate L.
Qed.

Lemma filter_user_order_by (u : string) (l : list Standup.t) :
  filter (fun x => String.eqb u (Standup.user_name x)) (order_by user_leb l)
  = filter (fun x => String.eqb u (Standup.user_name x)) l.
Proof.
  induction l as [|a l IH]; simpl; [reflexivity|].
  rewrite filter_user_insert, IH. reflexivity.
Qed.

Lemma fold_max_spec (l : list Z) (a : Z) :
  let m := fold_left Z.max l a in
  (m = a \/ In m l) /\ a <= m /\ Forall (fun x => x <= m) l.
Proof.
  revert a. induction l as [|x l IH]; intros a; simpl.
  - repeat split; auto; lia.
  - destruct (IH (Z.max a x)) as (Hin & Hle & Hall).
    repeat split.
    + destruct Hin as [E|Hin]; [|right; now right].
      destruct (Z.max_spec a x) as [[_ M]|[_ M]]; rewrite M in E |- *;
        [right; left; now symmetry | now left].
    + lia.
    + constructor; [lia | exact Hall].
Qed.

Lemma pairs_count (session : Session) (team_id today : Z) (u ty : string) :
  count_risks u ty
    (flat_map
       (fun '(user, entries) => risk_report_user_risks today (today - 1) user entries)
       (group_by String.eqb Standup.user_name (select_recent session team_id today)))
  = count_risks u ty
      (risk_report_user_risks today (today - 1) u
         (filter (fun x => String.eqb u (Standup.user_name x))
            (select_recent session team_id today))).
Proof.
  rewrite count_flat_map_dict.
  - rewrite (group_by_get _ String.eqb_eq).
    now destruct (filter _ (select_recent session team_id today)).
  - intros k v r H. apply user_risks_shape in H.
    now destruct H as (ty' & d & -> & _).
  - apply (group_by_NoDup _ String.eqb_eq).
Qed.

Lemma missing_count (session : Session) (team_id today days_missing : Z) (u ty : string) :
  count_risks u ty
    (flat_map (risk_report_missing today days_missing) (select_last_at session team_id))
  = match
      map Standup.created_at
        (filter (fun x => String.eqb u (Standup.user_name x))
           (filter (fun s => Standup.team_id s =? team_id) (standups session)))
    with
    | [] => 0%nat
    | first :: others =>
        count_risks u ty
          (risk_report_missing today days_missing
             (u, Some (fold_left Z.max others first)))
    end.
Proof.
  rewrite select_last_at_rows, count_flat_map_dict.
  - rewrite (group_by_get _ String.eqb_eq), filter_user_order_by.
    now destruct (filter _ (filter _ (standups session))).
  - intros k v r H. apply missing_shape in H. now destruct H as (d & ->).
  - apply (group_by_NoDup _ String.eqb_eq).
Qed.

Lemma report_count (session : Session) (team_id days_missing today : Z) (u ty : string) :
  count_risks u ty (payload_risks (get_risk_report session team_id days_missing today))
  = (count_risks u ty
       (risk_report_user_risks today (today - 1) u
          (filter (fun x => String.eqb u (Standup.user_name x))
             (select_recent session team_id today)))
     + count_risks u ty
         (flat_map (risk_report_missing today days_missing)
            (select_last_at session team_id)))%nat.
Proof.
  change (payload_risks (get_risk_report session team_id days_missing today))
    with (risk_report_risks session team_id days_missing today).
  unfold risk_report_risks. now rewrite count_risks_app, pairs_count.
Qed.

Lemma missing_not_counted (today days_missing : Z) (rows : list (string * option Z))
    (u ty : string) :
  ty <> "Missing Update" ->
  count_risks u ty (flat_map (risk_report_missing today days_missing) rows) = 0%nat.
Proof.
  intros N. apply count_risks_none. intros r H.
  apply in_flat_map in H. destruct H as ([user last_at] & _ & H).
  apply missing_shape in H. destruct H as (d & ->).
  apply risk_is_other_type with "Missing Update"; [reflexivity | congruence].
Qed.

Lemma pairs_not_counted (today yesterday : Z) (user : string) (entries : list Standup.t)
    (u : string) :
  count_risks u "Missing Update" (risk_report_user_risks today yesterday user entries)
  = 0%nat.
Proof.
  apply count_risks_none. intros r H.
  apply user_risks_shape in H. destruct H as (ty & d & -> & [-> | ->]);
    rewrite risk_is_risk; apply andb_false_r.
Qed.

(** The two entries that the loop compares for one user: both are found,
    and each is a latest entry of its day, or one is not found, and then
    the user has no entry on that day. *)
Lemma by_date_cases (session : Session) (team_id today : Z) (user : string) :
  (exists te ye,
      dict_get Z.eqb (by_date_of session team_id today user) today = Some te
      /\ dict_get Z.eqb (by_date_of session team_id today user) (today - 1) = Some ye
      /\ latest_on session team_id user today te
      /\ latest_on session team_id user (today - 1) ye)
  \/ ((dict_get Z.eqb (by_date_of session team_id today user) today = None
       \/ dict_get Z.eqb (by_date_of session team_id today user) (today - 1) = None)
      /\ ~ (has_entry session team_id user today
            /\ has_entry session team_id user (today - 1))).
Proof.
  destruct (dict_get Z.eqb (by_date_of session team_id today user) today) as [te|] eqn:Et.
  - destruct (dict_get Z.eqb (by_date_of session team_id today user) (today - 1))
      as [ye|] eqn:Ey.
    + left. exists te, ye. repeat split; auto;
        eapply by_date_latest; eauto; lia.
    + right. split; [now right|]. intros [_ H].
      apply (by_date_found _ _ today) in H; [|lia].
      destruct H as (e & H). congruence.
  - right. split; [now left|]. intros [H _].
    apply (by_date_found _ _ today) in H; [|lia].
    destruct H as (e & H). congruence.
Qed.

Lemma user_risks_unfold (session : Session) (team_id today : Z) (user : string) :
  risk_report_user_risks today (today - 1) user
    (filter (fun x => String.eqb user (Standup.user_name x))
       (select_recent session team_id today))
  = match dict_get Z.eqb (by_date_of session team_id today user) today,
          dict_get Z.eqb (by_date_of session team_id today user) (today - 1) with
    | Some today_entry, Some yesterday_entry =>
        ((if String.eqb (normalize (Standup.today today_entry))
                        (normalize (Standup.today yesterday_entry))
          then [risk user "Stale Task"
                  ("Task unchanged between " ++ PyDate.isoformat (today - 1) ++ " and "
                   ++ PyDate.isoformat today ++ ": '" ++ Standup.today today_entry ++ "'")]
          else [])
         ++
         (if PyStr.truthy (normalize_opt (Standup.blockers today_entry))
             && PyStr.truthy (normalize_opt (Standup.blockers yesterday_entry))
             && String.eqb (normalize_opt (Standup.blockers today_entry))
                           (normalize_opt (Standup.blockers yesterday_entry))
             && not_in (normalize_opt (Standup.blockers today_entry)) no_blocker_words
          then [risk user "Repeated Blocker"
                  ("Same blocker reported on " ++ PyDate.isoformat (today - 1) ++ " and "
                   ++ PyDate.isoformat today ++ ": '"
                   ++ fmt_opt (Standup.blockers today_entry) ++ "'")]
          else []))%list
    | _, _ => []
    end.
Proof. reflexivity. Qed.

Lemma count_risks_one (u ty d : string) : count_risks u ty [risk u ty d] = 1%nat.
Proof.
  unfold count_risks. cbn [filter]. now rewrite risk_is_risk, !String.eqb_refl.
Qed.

Lemma count_risks_one_other (u ty u' ty' d : string) :
  ty' <> ty -> count_risks u ty [risk u' ty' d] = 0%nat.
Proof.
  intros N. unfold count_risks. cbn [filter]. rewrite risk_is_risk.
  apply String.eqb_neq in N. now rewrite N, andb_false_r.
Qed.

Lemma count_risks_if_other (u ty u' ty' d : string) (b : bool) :
  ty' <> ty -> count_risks u ty (if b then [risk u' ty' d] else []) = 0%nat.
Proof.
  intros N. destruct b; [now apply count_risks_one_other | reflexivity].
Qed.

(** The code's test for a repeated blocker, read as a proposition. *)
Lemma repeated_test_spec (t y : string) :
  PyStr.truthy t && PyStr.truthy y && String.eqb t y && not_in t no_blocker_words = true
  <-> t = y /\ ~ In t no_blocker_class.
Proof.
  unfold not_in, no_blocker_words, no_blocker_class.
  rewrite !andb_true_iff, negb_true_iff, String.eqb_eq. split.
  - intros [[[Tt _] E] N]. split; [exact E|].
    intros [<-|H]; [discriminate Tt|].
    assert (X : existsb (String.eqb t) ["none"; "no blockers"; "n/a"; "na"] = true).
    { apply existsb_exists. exists t. split; [exact H | apply String.eqb_refl]. }
    congruence.
  - intros [E N]. subst y.
    assert (Tt : PyStr.truthy t = true).
    { destruct t; [|reflexivity]. exfalso. apply N. now left. }
    repeat split; auto.
    destruct (existsb _ _) eqn:X; [|reflexivity].
    apply existsb_exists in X. destruct X as (w & Hw & Ew).
    apply String.eqb_eq in Ew. subst w. exfalso. apply N. now right.
Qed.

(** ** The handlers on the sample data *)

Example scenario_report :
  payload_risks (get_risk_report Sample.scenario 1 2 Sample.day)
  = [risk "alice" "Stale Task"
       "Task unchanged between 2026-11-03 and 2026-11-04: ' fix BUG '"].
Proof. vm_compute. reflexivity. Qed.

Example scenario_dashboard :
  payload_risks (get_dashboard None Sample.scenario 1 Sample.day)
  = payload_risks (get_risk_report Sample.scenario 1 2 Sample.day)
  /\ payload_updates (get_dashboard None Sample.scenario 1 Sample.day)
     = [update_record Sample.alice_1; update_record Sample.bob_1].
Proof. split; vm_compute; reflexivity. Qed.

Example sample_report :
  map finding_key (payload_risks (get_risk_report Sample.session 1 2 Sample.day))
  = [(Some (JStr "carol"), Some (JStr "Repeated Blocker"));
     (Some (JStr "dave"), Some (JStr "Missing Update"))].
Proof. vm_compute. reflexivity. Qed.

Example dave_posted_yesterday :
  payload_risks
    (get_risk_report
       (mkSession [Sample.core]
          [Sample.entry 1 "dave" "Deploy" None (Sample.at_hour (Sample.day - 1) 23)])
       1 2 Sample.day)
  = [].
Proof. vm_compute. reflexivity. Qed.

Example accents_report :
  map finding_key (payload_risks (get_risk_report Sample.accents 1 2 Sample.day))
  = [(Some (JStr "gina"), Some (JStr "Stale Task"));
     (Some (JStr "gina"), Some (JStr "Repeated Blocker"))]
  /\ summarize_standups None [Sample.hugo_1]
     = summary_header ++ blank_line ++ block_head Sample.hugo_1
       ++ blank_line ++ summary_closing.
Proof. split; vm_compute; reflexivity. Qed.

Example isoformat_sample :
  PyDate.isoformat Sample.day = "2026-11-04"
  /\ PyDate.datetime_isoformat (Sample.at_hour Sample.day 9) = "2026-11-04T09:00:00".
Proof. split; vm_compute; reflexivity. Qed.

(* ================================================================= *)
(** * The claims *)

(** C4. In the risk report, a user who has an entry on the as-of date and
    on the day before gets exactly one stale-task finding when the
    trimmed, lower-cased [today] texts of the two days are equal and none
    when they differ, where the entry compared for a day is one with the
    latest [created_at] of that day; a user who lacks an entry on either
    day gets no stale-task finding.  The finding is the one that the code
    labels ["Stale Task"].  The normalization is the trimming and
    lower-casing of the text: read off the bytes on ASCII text, blind to
    the Unicode whitespace around a text, and folding the letters beyond
    ASCII. *)
Theorem stale_task_detection
    (session : Session) (team_id days_missing today : Z) (user : string) :
  let risks := payload_risks (get_risk_report session team_id days_missing today) in
  ((has_entry session team_id user today /\ has_entry session team_id user (today - 1) ->
    exists te ye,
      latest_on session team_id user today te
      /\ latest_on session team_id user (today - 1) ye
      /\ (normalize (Standup.today te) = normalize (Standup.today ye) ->
          count_risks user "Stale Task" risks = 1%nat)
      /\ (normalize (Standup.today te) <> normalize (Standup.today ye) ->
          count_risks user "Stale Task" risks = 0%nat))
   /\ (~ (has_entry session team_id user today
          /\ has_entry session team_id user (today - 1)) ->
       count_risks user "Stale Task" risks = 0%nat))
  /\ normalization_reads_text.
Proof.
  intros risks. split; [|exact normalization_is_read].
  assert (C : count_risks user "Stale Task" risks
              = count_risks user "Stale Task"
                  (risk_report_user_risks today (today - 1) user
                     (filter (fun x => String.eqb user (Standup.user_name x))
                        (select_recent session team_id today)))).
  { unfold risks. rewrite report_count, missing_not_counted by discriminate. lia. }
  rewrite user_risks_unfold in C.
  destruct (by_date_cases session team_id today user)
    as [(te & ye & Et & Ey & Lt & Ly) | [Hnone Hno]].
  - split; [|intros H; exfalso; apply H; split; eapply latest_has_entry; eauto].
    intros _. exists te, ye. rewrite Et, Ey, count_risks_app in C.
    rewrite (count_risks_if_other _ _ _ "Repeated Blocker") in C by discriminate.
    split; [exact Lt|]. split; [exact Ly|]. split.
    + intros E. rewrite C. apply String.eqb_eq in E. rewrite E.
      now rewrite count_risks_one.
    + intros N. rewrite C. apply String.eqb_neq in N. now rewrite N.
  - split; [intros H; contradiction|]. intros _. rewrite C.
    destruct Hnone as [-> | ->]; [reflexivity|].
    now destruct (dict_get _ _ today).
Qed.

(** C5. In the risk report, for a user with entries on the as-of date and
    on the day before, exactly one repeated-blocker finding is emitted
    when the two normalized blocker texts are equal and outside the
    no-blocker class, and none otherwise; so two days whose blockers are
    absent, empty or "none" in any case give none.  The finding is the
    one that the code labels ["Repeated Blocker"].  The normalization is
    the trimming and lower-casing of the text: read off the bytes on ASCII
    text, blind to the Unicode whitespace around a text, and folding the
    letters beyond ASCII. *)
Theorem repeated_blocker_detection
    (session : Session) (team_id days_missing today : Z) (user : string) :
  let risks := payload_risks (get_risk_report session team_id days_missing today) in
  has_entry session team_id user today ->
  has_entry session team_id user (today - 1) ->
  (exists te ye,
     latest_on session team_id user today te
     /\ latest_on session team_id user (today - 1) ye
     /\ (normalize_opt (Standup.blockers te) = normalize_opt (Standup.blockers ye)
         /\ ~ In (normalize_opt (Standup.blockers te)) no_blocker_class ->
         count_risks user "Repeated Blocker" risks = 1%nat)
     /\ (~ (normalize_opt (Standup.blockers te) = normalize_opt (Standup.blockers ye)
            /\ ~ In (normalize_opt (Standup.blockers te)) no_blocker_class) ->
         count_risks user "Repeated Blocker" risks = 0%nat))
  /\ normalization_reads_text.
Proof.
  intros risks Ht Hy. split; [|exact normalization_is_read].
  assert (C : count_risks user "Repeated Blocker" risks
              = count_risks user "Repeated Blocker"
                  (risk_report_user_risks today (today - 1) user
                     (filter (fun x => String.eqb user (Standup.user_name x))
                        (select_recent session team_id today)))).
  { unfold risks. rewrite report_count, missing_not_counted by discriminate. lia. }
  rewrite user_risks_unfold in C.
  destruct (by_date_cases session team_id today user)
    as [(te & ye & Et & Ey & Lt & Ly) | [_ Hno]]; [|exfalso; auto].
  exists te, ye. rewrite Et, Ey, count_risks_app in C.
  rewrite (count_risks_if_other _ _ _ "Stale Task") in C by discriminate.
  split; [exact Lt|]. split; [exact Ly|]. split.
  - intros H. apply repeated_test_spec in H. rewrite C, H. apply count_risks_one.
  - intros H. rewrite C.
    destruct (_ && _) eqn:T; [|reflexivity].
    apply repeated_test_spec in T. contradiction.
Qed.

(** C6. In the risk report, a user who appears in the history of the team
    gets exactly one missing-update finding when the calendar date of the
    latest [created_at] of that user over the whole history is earlier
    than the as-of date minus (threshold - 1) days, and none otherwise;
    with the default threshold 2, a last entry three days back is flagged
    and one of the day before is not.  The finding is the one that the
    code labels ["Missing Update"]. *)
Theorem missing_update_detection
    (session : Session) (team_id days_missing today : Z) (user : string) :
  let risks := payload_risks (get_risk_report session team_id days_missing today) in
  (exists e, In e (standups session) /\ in_history team_id user e) ->
  exists t,
    last_seen session team_id user t
    /\ (PyDate.date_of t < today - (days_missing - 1) ->
        count_risks user "Missing Update" risks = 1%nat)
    /\ (~ PyDate.date_of t < today - (days_missing - 1) ->
        count_risks user "Missing Update" risks = 0%nat)
    /\ (days_missing = 2 -> PyDate.date_of t = today - 3 ->
        count_risks user "Missing Update" risks = 1%nat)
    /\ (days_missing = 2 -> PyDate.date_of t = today - 1 ->
        count_risks user "Missing Update" risks = 0%nat).
Proof.
  intros risks (e0 & I0 & T0 & U0).
  assert (F : forall e, In e (standups session) /\ in_history team_id user e
                <-> In e (filter (fun x => String.eqb user (Standup.user_name x))
                            (filter (fun s => Standup.team_id s =? team_id)
                               (standups session)))).
  { intros e. rewrite !filter_In, String.eqb_eq, Z.eqb_eq. unfold in_history.
    intuition congruence. }
  assert (C : count_risks user "Missing Update" risks
              = match
                  map Standup.created_at
                    (filter (fun x => String.eqb user (Standup.user_name x))
                       (filter (fun s => Standup.team_id s =? team_id)
                          (standups session)))
                with
                | [] => 0%nat
                | first :: others =>
                    count_risks user "Missing Update"
                      (risk_report_missing today days_missing
                         (user, Some (fold_left Z.max others first)))
                end).
  { unfold risks. now rewrite report_count, pairs_not_counted, missing_count. }
  assert (M : In (Standup.created_at e0)
                (map Standup.created_at
                   (filter (fun x => String.eqb user (Standup.user_name x))
                      (filter (fun s => Standup.team_id s =? team_id)
                         (standups session))))).
  { apply in_map, F. now repeat split. }
  destruct (map Standup.created_at _) as [|first others] eqn:E; [destruct M|].
  destruct (fold_max_spec others first) as (Hin & Hfirst & Hall).
  set (t := fold_left Z.max others first) in *.
  assert (L : last_seen session team_id user t).
  { split.
    - assert (It : In t (first :: others)) by (destruct Hin as [->|H]; [now left | now right]).
      rewrite <- E in It. apply in_map_iff in It. destruct It as (e & Et & Ie).
      apply F in Ie. exists e. tauto.
    - intros e Ie He.
      assert (Ic : In (Standup.created_at e) (first :: others)).
      { rewrite <- E. apply in_map, F. now split. }
      destruct Ic as [<-|Ic]; [exact Hfirst|].
      rewrite Forall_forall in Hall. now apply Hall. }
  assert (Yes : PyDate.date_of t < today - (days_missing - 1) ->
                count_risks user "Missing Update" risks = 1%nat).
  { intros H. rewrite C. unfold risk_report_missing.
    apply Z.ltb_lt in H. rewrite H. apply count_risks_one. }
  assert (No : ~ PyDate.date_of t < today - (days_missing - 1) ->
               count_risks user "Missing Update" risks = 0%nat).
  { intros H. rewrite C. unfold risk_report_missing.
    apply Z.ltb_nlt in H. now rewrite H. }
  exists t. repeat split; try apply L; auto.
  - intros -> D. apply Yes. lia.
  - intros -> D. apply No. lia.
Qed.

Lemma filter_at_most_one {A B : Type} (f : A -> B) (p : A -> bool) (k : B) (l : list A) :
  NoDup (map f l) -> (forall x, p x = true -> f x = k) ->
  (List.length (filter p l) <= 1)%nat.
Proof.
  intros N K. induction l as [|a l IH]; simpl; [lia|].
  inversion N as [|? ? Ha Nl]; subst. specialize (IH Nl).
  destruct (p a) eqn:Pa; [|exact IH]. simpl.
  destruct (filter p l) as [|b rest] eqn:E; [simpl; lia|].
  exfalso. apply Ha.
  assert (Ib : In b (filter p l)) by (rewrite E; now left).
  apply filter_In in Ib. destruct Ib as [Ib Pb].
  rewrite (K a Pa), <- (K b Pb). now apply in_map.
Qed.

Lemma risk_is_key (u ty : string) (r : json) :
  risk_is u ty r = true -> finding_key r = (Some (JStr u), Some (JStr ty)).
Proof.
  unfold risk_is, finding_key.
  destruct (json_item r "user") as [[| |a| |]|]; try discriminate.
  destruct (json_item r "type") as [[| |b| |]|]; try discriminate.
  rewrite andb_true_iff, !String.eqb_eq. now intros [-> ->].
Qed.

(** C10. In one risk report no two findings share their user and their
    type: the keys (user, type) of the list are pairwise distinct, so each
    user has at most one finding of each type. *)
Theorem findings_unique_per_user_and_type
    (session : Session) (team_id days_missing today : Z) :
  let risks := payload_risks (get_risk_report session team_id days_missing today) in
  NoDup (map finding_key risks)
  /\ forall user type, (count_risks user type risks <= 1)%nat.
Proof.
  intros risks.
  assert (N : NoDup (map finding_key risks)).
  { unfold risks.
    change (payload_risks (get_risk_report session team_id days_missing today))
      with (risk_report_risks session team_id days_missing today).
    unfold risk_report_risks. rewrite map_app, select_last_at_rows.
    apply NoDup_app.
    - apply NoDup_flat_map_dict.
      + intros k v r H. apply user_risks_shape in H.
        now destruct H as (ty & d & -> & _).
      + intros k v. apply user_risks_NoDup.
      + apply (group_by_NoDup _ String.eqb_eq).
    - apply NoDup_flat_map_dict.
      + intros k v r H. apply missing_shape in H. now destruct H as (d & ->).
      + intros k v. apply missing_NoDup.
      + apply (group_by_NoDup _ String.eqb_eq).
    - intros key H1 H2.
      apply in_map_iff in H1. destruct H1 as (r1 & <- & H1).
      apply in_map_iff in H2. destruct H2 as (r2 & E & H2).
      apply in_flat_map in H1. destruct H1 as ([u1 es] & _ & H1).
      apply in_flat_map in H2. destruct H2 as ([u2 rows] & _ & H2).
      apply user_risks_shape in H1. destruct H1 as (ty & d1 & -> & Hty).
      apply missing_shape in H2. destruct H2 as (d2 & ->).
      destruct Hty as [-> | ->]; discriminate E. }
  split; [exact N|].
  intros user type. unfold count_risks.
  apply filter_at_most_one
    with (f := finding_key) (k := (Some (JStr user), Some (JStr type))); [exact N|].
  apply risk_is_key.
Qed.

(** ** The dashboard and the report side by side *)

Lemma dashboard_risks_unfold (session : Session) (team_id today : Z) :
  dashboard_risks session team_id today
  = flat_map
      (fun '(user, entries) => risk_report_user_risks today (today - 1) user entries)
      (group_by String.eqb Standup.user_name (select_recent session team_id today)).
Proof. reflexivity. Qed.

Lemma filter_keep_all {A : Type} (p : A -> bool) (l : list A) :
  (forall x, In x l -> p x = true) -> filter p l = l.
Proof.
  induction l as [|a l IH]; intros H; simpl; [reflexivity|].
  rewrite (H a (or_introl eq_refl)), IH; [reflexivity|].
  intros x Hx. apply H. now right.
Qed.

Lemma filter_drop_all {A : Type} (p : A -> bool) (l : list A) :
  (forall x, In x l -> p x = false) -> filter p l = [].
Proof.
  induction l as [|a l IH]; intros H; simpl; [reflexivity|].
  rewrite (H a (or_introl eq_refl)). apply IH.
  intros x Hx. apply H. now right.
Qed.

Lemma dashboard_risks_shape (session : Session) (team_id today : Z) (r : json) :
  In r (dashboard_risks session team_id today) ->
  exists user ty d, r = risk user ty d /\ (ty = "Stale Task" \/ ty = "Repeated Blocker").
Proof.
  rewrite dashboard_risks_unfold. intros H.
  apply in_flat_map in H. destruct H as ([user entries] & _ & H).
  apply user_risks_shape in H. destruct H as (ty & d & E & T). eauto.
Qed.

Lemma report_risks_shape (session : Session) (team_id days_missing today : Z) (r : json) :
  In r (risk_report_risks session team_id days_missing today) ->
  exists user ty d, r = risk user ty d /\ In ty risk_types.
Proof.
  unfold risk_report_risks. intros H. apply in_app_or in H. destruct H as [H|H].
  - apply (dashboard_risks_shape session team_id today) in H.
    destruct H as (user & ty & d & E & [-> | ->]); exists user; eexists; exists d;
      (split; [exact E | simpl; tauto]).
  - apply in_flat_map in H. destruct H as ([user last_at] & _ & H).
    apply missing_shape in H. destruct H as (d & ->).
    exists user, "Missing Update", d. split; [reflexivity | simpl; tauto].
Qed.

(** C1, as the specification words it, fails: on the sample session the
    dashboard payload carries none of the specified names.  Its first
    field is ["team_id"], its update records end with ["created_at"], and
    its finding is typed ["Repeated Blocker"]. *)
Lemma spec_names_not_emitted :
  ~ meets_contract spec_report_fields spec_update_fields spec_risk_types
      (get_dashboard None Sample.session 1 Sample.day)
  /\ json_keys (get_dashboard None Sample.session 1 Sample.day) <> spec_report_fields
  /\ ~ Forall (fun u => json_keys u = spec_update_fields)
         (payload_updates (get_dashboard None Sample.session 1 Sample.day))
  /\ ~ Forall (fun r => exists t, In t spec_risk_types
                                  /\ json_item r "type" = Some (JStr t))
         (payload_risks (get_dashboard None Sample.session 1 Sample.day)).
Proof.
  assert (K : json_keys (get_dashboard None Sample.session 1 Sample.day)
              <> spec_report_fields).
  { intros E. vm_compute in E. discriminate E. }
  split; [intros [E _]; now apply K|]. split; [exact K|]. split.
  - intros F. vm_compute in F. inversion F as [|u us E _]. discriminate E.
  - intros F. vm_compute in F. inversion F as [|r rs (t & I & E) _].
    destruct I as [<-|[<-|[<-|[]]]]; discriminate E.
Qed.

(** C1, amended.  The dashboard payload has exactly the fields team_id,
    date, summary, risks, updates, each update record the fields user,
    yesterday, today, blockers, created_at; the risk report payload has
    the fields team_id, date, risks; every finding of either payload has
    the fields user, type, description, and its type is one of
    "Stale Task", "Repeated Blocker", "Missing Update". *)
Theorem payload_field_names
    (client : option Groq) (session : Session) (team_id days_missing today : Z) :
  meets_contract dashboard_fields update_fields risk_types
    (get_dashboard client session team_id today)
  /\ Forall (fun r => json_keys r = risk_fields)
       (payload_risks (get_dashboard client session team_id today))
  /\ json_keys (get_risk_report session team_id days_missing today) = risk_report_fields
  /\ Forall (fun r => json_keys r = risk_fields
                      /\ exists t, In t risk_types /\ json_item r "type" = Some (JStr t))
       (payload_risks (get_risk_report session team_id days_missing today)).
Proof.
  change (payload_risks (get_dashboard client session team_id today))
    with (dashboard_risks session team_id today).
  change (payload_risks (get_risk_report session team_id days_missing today))
    with (risk_report_risks session team_id days_missing today).
  split; [split; [reflexivity | split]|split; [|split; [reflexivity|]]].
  - change (payload_updates (get_dashboard client session team_id today))
      with (map update_record (latest_entries (select_today session team_id today))).
    apply Forall_forall. intros u Hu. apply in_map_iff in Hu.
    now destruct Hu as (s & <- & _).
  - apply Forall_forall. intros r Hr.
    apply dashboard_risks_shape in Hr. destruct Hr as (user & ty & d & -> & T).
    exists ty. split; [|reflexivity].
    destruct T as [-> | ->]; simpl; tauto.
  - apply Forall_forall. intros r Hr.
    apply dashboard_risks_shape in Hr. now destruct Hr as (user & ty & d & -> & _).
  - apply Forall_forall. intros r Hr.
    apply report_risks_shape in Hr. destruct Hr as (user & ty & d & -> & T).
    split; [reflexivity|]. now exists ty.
Qed.

(** C2, as the specification words it, fails: on the sample session the
    risk report flags Dave with a missing update and the dashboard, which
    has no such detector, does not. *)
Lemma dashboard_lacks_missing_update :
  ~ same_findings
      (payload_risks (get_dashboard None Sample.session 1 Sample.day))
      (payload_risks (get_risk_report Sample.session 1 2 Sample.day)).
Proof.
  intros H.
  destruct (H (Some (JStr "dave"), Some (JStr "Missing Update"))) as [_ B].
  assert (I : In (Some (JStr "dave"), Some (JStr "Missing Update"))
                (map finding_key
                   (payload_risks (get_risk_report Sample.session 1 2 Sample.day)))).
  { vm_compute. right. now left. }
  apply B in I. vm_compute in I. destruct I as [E|[]]. discriminate E.
Qed.

(** C2, amended.  The findings of the dashboard payload, which the Slack
    delivery reads from it, are the findings of the risk report for the
    same team and date, whatever the threshold, without those of type
    "Missing Update", and in the same order. *)
Theorem dashboard_risks_are_report_pairs
    (client : option Groq) (session : Session) (team_id days_missing today : Z) :
  payload_risks (get_dashboard client session team_id today)
  = filter (fun r => negb (is_missing_update r))
      (payload_risks (get_risk_report session team_id days_missing today))
  /\ same_findings
       (payload_risks (get_dashboard client session team_id today))
       (filter (fun r => negb (is_missing_update r))
          (payload_risks (get_risk_report session team_id days_missing today)))
  /\ slack_risks (slack_dashboard (Some (get_dashboard client session team_id today)))
     = Some (JList (payload_risks (get_dashboard client session team_id today))).
Proof.
  assert (E : payload_risks (get_dashboard client session team_id today)
              = filter (fun r => negb (is_missing_update r))
                  (payload_risks (get_risk_report session team_id days_missing today))).
  { change (payload_risks (get_dashboard client session team_id today))
      with (dashboard_risks session team_id today).
    change (payload_risks (get_risk_report session team_id days_missing today))
      with (dashboard_risks session team_id today
            ++ flat_map (risk_report_missing today days_missing)
                 (select_last_at session team_id))%list.
    rewrite filter_app, filter_keep_all, filter_drop_all.
    - now rewrite app_nil_r.
    - intros r H. apply in_flat_map in H. destruct H as ([user last_at] & _ & H).
      apply missing_shape in H. now destruct H as (d & ->).
    - intros r H. apply dashboard_risks_shape in H.
      now destruct H as (user & ty & d & -> & [-> | ->]). }
  split; [exact E|]. split; [|reflexivity].
  rewrite <- E. intros key. tauto.
Qed.

(** ** Deduplication *)

Lemma dict_by_key_of {K V : Type} (eqb : K -> K -> bool)
    (eqb_eq : forall a b, eqb a b = true <-> a = b) (key : V -> K)
    (xs : list V) (k : K) (v : V) :
  In (k, v) (dict_by eqb key xs) -> key v = k /\ In v xs.
Proof.
  intros H. apply (dict_In_get eqb eqb_eq _ _ _ (dict_by_NoDup eqb eqb_eq key xs)) in H.
  rewrite (dict_by_get eqb eqb_eq) in H. apply find_some in H.
  destruct H as [I E]. apply eqb_eq in E. split; [now symmetry | now apply in_rev].
Qed.

(** The rows that the dashboard keeps are, for every user of the list, the
    row of that user that the scan returned last. *)
Lemma latest_entries_last_row (rows : list Standup.t) (s : Standup.t) :
  In s (latest_entries rows)
  <-> find (fun x => String.eqb (Standup.user_name s) (Standup.user_name x)) (rev rows)
      = Some s.
Proof.
  unfold latest_entries, dict_values. split.
  - intros H. apply in_map_iff in H. destruct H as ([k v] & E & H). simpl in E. subst v.
    pose proof (dict_by_key_of _ String.eqb_eq _ _ _ _ H) as [K _]. subst k.
    apply (dict_In_get _ String.eqb_eq _ _ _
             (dict_by_NoDup _ String.eqb_eq Standup.user_name rows)) in H.
    now rewrite (dict_by_get _ String.eqb_eq) in H.
  - intros H. rewrite <- (dict_by_get _ String.eqb_eq) in H.
    apply (dict_get_In _ String.eqb_eq) in H.
    change s with (snd (Standup.user_name s, s)). now apply in_map.
Qed.

Lemma latest_entries_one_per_user (rows : list Standup.t) :
  NoDup (map Standup.user_name (latest_entries rows))
  /\ forall u, In u (map Standup.user_name (latest_entries rows))
               <-> In u (map Standup.user_name rows).
Proof.
  assert (E : map Standup.user_name (latest_entries rows)
              = dict_keys (dict_by String.eqb Standup.user_name rows)).
  { unfold latest_entries, dict_values, dict_keys. rewrite map_map.
    apply map_ext_in. intros [k v] H. simpl.
    now apply (dict_by_key_of _ String.eqb_eq) in H. }
  rewrite E. split.
  - apply (dict_by_NoDup _ String.eqb_eq).
  - intros u. apply (dict_by_keys _ String.eqb_eq).
Qed.

(** When the scan returns the rows in the order of [created_at], the row
    kept for a user is a latest one. *)
Lemma latest_entries_of_ordered_rows (rows : list Standup.t) (s : Standup.t) :
  StronglySorted (fun a b => Standup.created_at a <= Standup.created_at b) rows ->
  In s (latest_entries rows) ->
  forall s', In s' rows -> Standup.user_name s' = Standup.user_name s ->
             Standup.created_at s' <= Standup.created_at s.
Proof.
  intros S H s' I' U'. apply latest_entries_last_row in H.
  destruct (find_rev_last _ _ _ H) as (l1 & l2 & -> & _ & Hl2).
  apply in_app_or in I'. destruct I' as [I'|[<-|I']].
  - now apply (StronglySorted_app_inv _ l1 l2 s S).
  - lia.
  - rewrite forallb_forall in Hl2. apply Hl2 in I'.
    rewrite U', String.eqb_refl in I'. discriminate I'.
Qed.

(** C3 on the code.  The failing input: two rows of Alice for one day, the
    row scanned last carrying the earlier [created_at].  The dashboard
    keeps the row scanned last, which is the earlier entry, not the one
    with the maximum [created_at]. *)
Theorem dashboard_keeps_last_scanned_row :
  Standup.created_at Sample.alice_early < Standup.created_at Sample.alice_late
  /\ select_today Sample.unordered 1 Sample.day = [Sample.alice_late; Sample.alice_early]
  /\ latest_entries [Sample.alice_late; Sample.alice_early] = [Sample.alice_early]
  /\ payload_updates (get_dashboard None Sample.unordered 1 Sample.day)
     = [update_record Sample.alice_early]
  /\ slack_updates (slack_dashboard (Some (get_dashboard None Sample.unordered 1 Sample.day)))
     = Some [update_record Sample.alice_early].
Proof. repeat split; vm_compute; reflexivity. Qed.

(** ** The summary *)

Lemma summarize_without_client (standups : list Standup.t) :
  standups <> [] -> summarize_standups None standups = fallback_summary standups.
Proof. destruct standups; [contradiction | reflexivity]. Qed.

(** C7. For a non-empty list of entries, a configured generation call
    that fails (it raises, or answers without a choice or without a
    content) gives the summary that no configured client gives: both are
    the rule-based summary, which is a plain string. *)
Theorem summary_fallback_equivalence (groq : Groq) (standups : list Standup.t) :
  standups <> [] ->
  generation_fails (groq (chat_request standups)) ->
  summarize_standups (Some groq) standups = summarize_standups None standups
  /\ summarize_standups None standups = fallback_summary standups.
Proof.
  intros N F. split; [|now apply summarize_without_client].
  destruct standups as [|s rest]; [contradiction|].
  unfold summarize_standups, ai_summary. now destruct F.
Qed.

Lemma summary_fallback_equivalence_witness :
  [Sample.erin] <> []
  /\ generation_fails (Sample.failing (chat_request [Sample.erin]))
  /\ summarize_standups (Some Sample.failing) [Sample.erin]
     = summarize_standups None [Sample.erin]
  /\ summarize_standups None [Sample.erin] = fallback_summary [Sample.erin].
Proof.
  split; [discriminate|]. split; [constructor|].
  apply (summary_fallback_equivalence Sample.failing [Sample.erin]);
    [discriminate | constructor].
Defined.

Lemma fallback_line_block (s : Standup.t) : block_of shown_blocker s (fallback_line s).
Proof.
  unfold block_of, fallback_line, shown_blocker, normalize.
  destruct (Standup.blockers s) as [b|]; split.
  - intros b0 E [Ne Nn]. injection E as <-.
    assert (T : PyStr.truthy b = true) by (destruct b; [contradiction | reflexivity]).
    apply String.eqb_neq in Nn. now rewrite T, Nn.
  - intros [E|(b0 & E & N)]; [discriminate E|]. injection E as <-.
    destruct b as [|c b]; [reflexivity|]. simpl PyStr.truthy.
    destruct (String.eqb _ "none") eqn:Q; [reflexivity|].
    exfalso. apply N. split; [discriminate|]. now apply String.eqb_neq.
  - intros b0 E. discriminate E.
  - reflexivity.
Qed.

Lemma fallback_summary_rule_based (standups : list Standup.t) :
  rule_based shown_blocker standups (fallback_summary standups).
Proof.
  exists (map fallback_line standups). split; [|reflexivity].
  induction standups as [|s rest IH]; simpl; constructor;
    [apply fallback_line_block | exact IH].
Qed.

(** C8, as the specification words it, fails: the blocker text "n/a" is in
    the no-blocker class, and the rule-based summary still prints its
    blocker line. *)
Lemma summary_prints_na_blocker :
  ~ rule_based spec_real_blocker [Sample.erin] (summarize_standups None [Sample.erin]).
Proof.
  intros (blocks & F & E).
  inversion F as [|s b ss bs [_ Hb] Hrest]; subst.
  inversion Hrest; subst.
  rewrite Hb in E.
  - vm_compute in E. discriminate E.
  - right. exists "n/a". split; [reflexivity|].
    intros N. apply N. vm_compute. tauto.
Qed.

(** C8, amended.  For a non-empty list of entries the rule-based summary
    is the header, one block per entry listing yesterday and today, the
    blocks separated by blank lines, and the closing line; the block of an
    entry has the blocker line exactly when the blocker text is present,
    is not the empty string, and is not "none" once normalized.  The
    normalization is the trimming and lower-casing of the text: read off
    the bytes on ASCII text, blind to the Unicode whitespace around a
    text, and folding the letters beyond ASCII. *)
Theorem fallback_summary_layout (standups : list Standup.t) :
  standups <> [] ->
  rule_based shown_blocker standups (summarize_standups None standups)
  /\ normalization_reads_text.
Proof.
  intros N. split; [|exact normalization_is_read].
  rewrite summarize_without_client by exact N.
  apply fallback_summary_rule_based.
Qed.

Lemma fallback_summary_layout_witness :
  [Sample.erin] <> []
  /\ rule_based shown_blocker [Sample.erin] (summarize_standups None [Sample.erin])
  /\ normalization_reads_text.
Proof.
  split; [discriminate|].
  apply (fallback_summary_layout [Sample.erin]). discriminate.
Defined.

(** ** Submission *)

Lemma session_get_team_spec (session : Session) (team_id : Z) :
  (exists t, session_get_team session team_id = Some t) <-> team_exists session team_id.
Proof.
  unfold session_get_team, team_exists. split.
  - intros (t & H). apply find_some in H. destruct H as [I E].
    exists t. split; [exact I|].
    destruct (Team.id t) as [k|]; [|discriminate E].
    apply Z.eqb_eq in E. now subst k.
  - intros (t & I & E).
    destruct (find _ (teams session)) as [t'|] eqn:F; [now exists t'|].
    apply (find_none _ _ F) in I. rewrite E, Z.eqb_refl in I. discriminate I.
Qed.

(** *** The store *)

Lemma keys_of_In {A : Type} (id : A -> option Z) (rows : list A) (k : Z) :
  In k (keys_of id rows) <-> exists r, In r rows /\ id r = Some k.
Proof.
  unfold keys_of. rewrite in_flat_map. split.
  - intros (r & I & H). exists r. split; [exact I|].
    destruct (id r) as [j|]; [|destruct H]. destruct H as [<-|[]]. reflexivity.
  - intros (r & I & E). exists r. split; [exact I|]. rewrite E. now left.
Qed.

Lemma auto_key_above (keys : list Z) (k : Z) :
  auto_key keys = Some k -> Forall (fun j => j < k) keys.
Proof.
  destruct keys as [|k0 rest]; simpl; [constructor|].
  destruct (fold_max_spec rest k0) as (_ & H0 & Hall).
  destruct (_ <? max_key); [|discriminate]. intros E. injection E as <-.
  constructor; [lia|]. eapply Forall_impl; [|exact Hall]. simpl. intros j Hj. lia.
Qed.

Lemma auto_key_room (keys : list Z) :
  Forall (fun j => j < max_key) keys -> exists k, auto_key keys = Some k.
Proof.
  destruct keys as [|k0 rest]; simpl; [now eexists|]. intros H.
  destruct (fold_max_spec rest k0) as ([E|I] & _ & _).
  - rewrite E. inversion H as [|? ? H0 _]; subst.
    apply Z.ltb_lt in H0. rewrite H0. now eexists.
  - inversion H as [|? ? _ Hr]; subst. rewrite Forall_forall in Hr.
    apply Hr in I. apply Z.ltb_lt in I. rewrite I. now eexists.
Qed.

Lemma insert_by_last {A : Type} (leb : A -> A -> bool) (x : A) (l : list A) :
  (forall y, In y l -> leb x y = false) -> insert_by leb x l = (l ++ [x])%list.
Proof.
  induction l as [|y l IH]; intros H; simpl; [reflexivity|].
  rewrite (H y) by now left. f_equal. apply IH. intros z Hz. apply H. now right.
Qed.

(** A row under a key above the stored keys is stored last. *)
Lemma insert_above_keys {A : Type} (id : A -> option Z) (row : A) (rows : list A) (k : Z) :
  id row = Some k -> Forall (fun j => j < k) (keys_of id rows) ->
  insert_by (key_leb id) row rows = (rows ++ [row])%list.
Proof.
  intros E H. apply insert_by_last. intros y Iy. unfold key_leb. rewrite E.
  destruct (id y) as [j|] eqn:Ey; [|reflexivity].
  apply Z.leb_gt. rewrite Forall_forall in H. apply H. apply keys_of_In. now exists y.
Qed.

Lemma insert_key_free (keys : list Z) (k : Z) :
  min_key <= k <= max_key -> ~ In k keys -> insert_key keys (Some k) = Some k.
Proof.
  intros F N. unfold insert_key, fits_key.
  replace (min_key <=? k) with true by (symmetry; apply Z.leb_le; lia).
  replace (k <=? max_key) with true by (symmetry; apply Z.leb_le; lia).
  destruct (existsb (Z.eqb k) keys) eqn:Q; [|reflexivity].
  apply existsb_exists in Q. destruct Q as (j & Ij & Ej).
  apply Z.eqb_eq in Ej. subst j. contradiction.
Qed.


Lemma session_add_standup_free (session : Session) (standup : Standup.t) :
  id_free session standup ->
  exists row session',
    session_add_standup session standup = Some (row, session')
    /\ stored_as standup row
    /\ Permutation (row :: standups session) (standups session')
    /\ (Standup.id standup = None ->
        standups session' = (standups session ++ [row])%list)
    /\ teams session' = teams session.
Proof.
  unfold id_free, session_add_standup.
  destruct (Standup.id standup) as [k|] eqn:E.
  - intros [F N]. rewrite insert_key_free; [|exact F|].
    + eexists. eexists. split; [reflexivity|]. split.
      * exists k. split; [reflexivity|]. intros k' H. congruence.
      * split; [apply insert_by_perm|]. split; [discriminate | reflexivity].
    + intros I. apply N. now apply keys_of_In.
  - intros R.
    assert (H : Forall (fun j => j < max_key) (keys_of Standup.id (standups session))).
    { apply Forall_forall. intros j Ij. apply keys_of_In in Ij.
      destruct Ij as (r & Ir & Er). exact (R r j Ir Er). }
    destruct (auto_key_room _ H) as (k & K). simpl insert_key. rewrite K.
    assert (L : insert_by (key_leb Standup.id) (Standup.with_id standup k)
                  (standups session)
                = (standups session ++ [Standup.with_id standup k])%list).
    { apply (insert_above_keys Standup.id _ _ k); [reflexivity|].
      now apply auto_key_above. }
    eexists. eexists. split; [reflexivity|]. split.
    + exists k. split; [reflexivity | congruence].
    + simpl standups. rewrite L. split; [apply Permutation_cons_append|].
      split; reflexivity.
Qed.





(** ** Instances *)

Lemma repeated_blocker_detection_witness :
  has_entry Sample.session 1 "carol" Sample.day
  /\ has_entry Sample.session 1 "carol" (Sample.day - 1)
  /\ latest_on Sample.session 1 "carol" Sample.day Sample.carol_2
  /\ latest_on Sample.session 1 "carol" (Sample.day - 1) Sample.carol_1
  /\ normalize_opt (Standup.blockers Sample.carol_2)
     = normalize_opt (Standup.blockers Sample.carol_1)
  /\ ~ In (normalize_opt (Standup.blockers Sample.carol_2)) no_blocker_class
  /\ count_risks "carol" "Repeated Blocker"
       (payload_risks (get_risk_report Sample.session 1 2 Sample.day)) = 1%nat
  /\ normalization_reads_text.
Proof.
  assert (H1 : has_entry Sample.session 1 "carol" Sample.day).
  { exists Sample.carol_2. split; [simpl; tauto | repeat split]. }
  assert (H2 : has_entry Sample.session 1 "carol" (Sample.day - 1)).
  { exists Sample.carol_1. split; [simpl; tauto | repeat split]. }
  destruct (repeated_blocker_detection Sample.session 1 2 Sample.day "carol" H1 H2)
    as [(te & ye & Lt & Ly & Found & _) Pin].
  assert (Et : te = Sample.carol_2).
  { destruct Lt as (I & (_ & U & D) & _).
    destruct I as [<-|[<-|[<-|[]]]];
      [vm_compute in D; discriminate D | reflexivity | discriminate U]. }
  assert (Ey : ye = Sample.carol_1).
  { destruct Ly as (I & (_ & U & D) & _).
    destruct I as [<-|[<-|[<-|[]]]];
      [reflexivity | vm_compute in D; discriminate D | discriminate U]. }
  subst te ye.
  assert (Same : normalize_opt (Standup.blockers Sample.carol_2)
                 = normalize_opt (Standup.blockers Sample.carol_1))
    by (vm_compute; reflexivity).
  assert (Real : ~ In (normalize_opt (Standup.blockers Sample.carol_2)) no_blocker_class).
  { vm_compute. intros [E|[E|[E|[E|[E|[]]]]]]; discriminate E. }
  split; [exact H1|]. split; [exact H2|]. split; [exact Lt|]. split; [exact Ly|].
  split; [exact Same|]. split; [exact Real|]. split; [|exact Pin].
  apply Found. split; [exact Same | exact Real].
Defined.

Lemma missing_update_detection_witness :
  (exists e, In e (standups Sample.session) /\ in_history 1 "dave" e)
  /\ exists t,
       last_seen Sample.session 1 "dave" t
       /\ (PyDate.date_of t < Sample.day - (2 - 1) ->
           count_risks "dave" "Missing Update"
             (payload_risks (get_risk_report Sample.session 1 2 Sample.day)) = 1%nat)
       /\ (~ PyDate.date_of t < Sample.day - (2 - 1) ->
           count_risks "dave" "Missing Update"
             (payload_risks (get_risk_report Sample.session 1 2 Sample.day)) = 0%nat)
       /\ (2 = 2 -> PyDate.date_of t = Sample.day - 3 ->
           count_risks "dave" "Missing Update"
             (payload_risks (get_risk_report Sample.session 1 2 Sample.day)) = 1%nat)
       /\ (2 = 2 -> PyDate.date_of t = Sample.day - 1 ->
           count_risks "dave" "Missing Update"
             (payload_risks (get_risk_report Sample.session 1 2 Sample.day)) = 0%nat).
Proof.
  assert (H : exists e, In e (standups Sample.session) /\ in_history 1 "dave" e).
  { exists Sample.dave_1. split; [simpl; tauto | split; reflexivity]. }
  split; [exact H|].
  exact (missing_update_detection Sample.session 1 2 Sample.day "dave" H).
Defined.


(* ================================================================= *)
(** * Further properties of the handlers *)

(** ** The queries see one team *)

Lemma filter_and {A : Type} (p q : A -> bool) (l : list A) :
  filter (fun x => p x && q x) l = filter q (filter p l).
Proof.
  induction l as [|a l IH]; simpl; [reflexivity|].
  destruct (p a); simpl; [destruct (q a); now rewrite IH | exact IH].
Qed.

Lemma select_recent_team (session : Session) (team_id today : Z) :
  select_recent session team_id today
  = order_by standup_leb
      (filter (fun s => PyDate.midnight (today - 7) <=? Standup.created_at s)
         (filter (fun s => Standup.team_id s =? team_id) (standups session))).
Proof. unfold select_recent. now rewrite filter_and. Qed.

Lemma select_today_team (session : Session) (team_id today : Z) :
  select_today session team_id today
  = filter
      (fun s => (PyDate.midnight today <=? Standup.created_at s)
                && (Standup.created_at s <? PyDate.midnight (today + 1)))
      (filter (fun s => Standup.team_id s =? team_id) (standups session)).
Proof.
  unfold select_today. rewrite <- filter_and. apply filter_ext.
  intros s. now rewrite andb_assoc.
Qed.

Lemma select_today_In (session : Session) (team_id today : Z) (e : Standup.t) :
  In e (select_today session team_id today)
  <-> In e (standups session)
      /\ Standup.team_id e = team_id
      /\ PyDate.date_of (Standup.created_at e) = today.
Proof.
  unfold select_today. rewrite filter_In, !andb_true_iff, Z.eqb_eq, Z.leb_le, Z.ltb_lt.
  rewrite date_of_bounds. tauto.
Qed.

(** X1. The risk report, the dashboard and the daily report of a team
    depend on the rows of that team only: two sessions with the same rows
    for the team give the same three payloads. *)
Theorem handlers_see_one_team
    (client : option Groq) (s1 s2 : Session) (team_id days_missing today : Z) :
  filter (fun s => Standup.team_id s =? team_id) (standups s1)
  = filter (fun s => Standup.team_id s =? team_id) (standups s2) ->
  get_risk_report s1 team_id days_missing today
  = get_risk_report s2 team_id days_missing today
  /\ get_dashboard client s1 team_id today = get_dashboard client s2 team_id today
  /\ get_today_report client s1 team_id today = get_today_report client s2 team_id today.
Proof.
  intros E.
  assert (R : select_recent s1 team_id today = select_recent s2 team_id today)
    by now rewrite !select_recent_team, E.
  assert (T : select_today s1 team_id today = select_today s2 team_id today)
    by now rewrite !select_today_team, E.
  assert (L : select_last_at s1 team_id = select_last_at s2 team_id)
    by (unfold select_last_at; now rewrite E).
  unfold get_risk_report, risk_report_risks, get_dashboard, dashboard_risks,
    get_today_report.
  now rewrite R, T, L.
Qed.

Lemma handlers_see_one_team_witness :
  filter (fun s => Standup.team_id s =? 1) (standups Sample.session)
  = filter (fun s => Standup.team_id s =? 1) (standups Demo.two_teams)
  /\ get_risk_report Sample.session 1 2 Sample.day
     = get_risk_report Demo.two_teams 1 2 Sample.day
  /\ get_dashboard None Sample.session 1 Sample.day
     = get_dashboard None Demo.two_teams 1 Sample.day
  /\ get_today_report None Sample.session 1 Sample.day
     = get_today_report None Demo.two_teams 1 Sample.day.
Proof.
  split; [reflexivity|].
  apply (handlers_see_one_team None Sample.session Demo.two_teams 1 2 Sample.day).
  reflexivity.
Defined.

(** X2. No handler of a report checks that the team exists.  For a team
    without rows, known or not, the risk report has no finding, the
    dashboard has no finding and no update, and the dashboard summary and
    the daily report are the fixed sentence for an empty day, whatever
    client is configured. *)
Theorem team_without_rows
    (client : option Groq) (session : Session) (team_id days_missing today : Z) :
  (forall e, In e (standups session) -> Standup.team_id e <> team_id) ->
  payload_risks (get_risk_report session team_id days_missing today) = []
  /\ payload_risks (get_dashboard client session team_id today) = []
  /\ payload_updates (get_dashboard client session team_id today) = []
  /\ json_item (get_dashboard client session team_id today) "summary"
     = Some (JStr "No stand-up updates found for today.")
  /\ json_item (get_today_report client session team_id today) "report"
     = Some (JStr "No stand-up updates found for today.").
Proof.
  intros H.
  assert (E : filter (fun s => Standup.team_id s =? team_id) (standups session) = []).
  { apply filter_drop_all. intros e He. apply Z.eqb_neq. now apply H. }
  assert (R : select_recent session team_id today = [])
    by now rewrite select_recent_team, E.
  assert (T : select_today session team_id today = [])
    by now rewrite select_today_team, E.
  assert (L : select_last_at session team_id = [])
    by (unfold select_last_at; now rewrite E).
  change (payload_risks (get_risk_report session team_id days_missing today))
    with (risk_report_risks session team_id days_missing today).
  change (payload_risks (get_dashboard client session team_id today))
    with (dashboard_risks session team_id today).
  change (payload_updates (get_dashboard client session team_id today))
    with (map update_record (latest_entries (select_today session team_id today))).
  change (json_item (get_dashboard client session team_id today) "summary")
    with (Some (JStr (summarize_standups client
                        (latest_entries (select_today session team_id today))))).
  change (json_item (get_today_report client session team_id today) "report")
    with (Some (JStr (summarize_standups client (select_today session team_id today)))).
  unfold risk_report_risks, dashboard_risks. rewrite R, T, L.
  repeat split; reflexivity.
Qed.

Lemma team_without_rows_witness :
  (forall e, In e (standups Sample.session) -> Standup.team_id e <> 7)
  /\ payload_risks (get_risk_report Sample.session 7 2 Sample.day) = []
  /\ payload_risks (get_dashboard (Some Sample.failing) Sample.session 7 Sample.day) = []
  /\ payload_updates (get_dashboard (Some Sample.failing) Sample.session 7 Sample.day) = []
  /\ json_item (get_dashboard (Some Sample.failing) Sample.session 7 Sample.day) "summary"
     = Some (JStr "No stand-up updates found for today.")
  /\ json_item (get_today_report (Some Sample.failing) Sample.session 7 Sample.day) "report"
     = Some (JStr "No stand-up updates found for today.").
Proof.
  assert (H : forall e, In e (standups Sample.session) -> Standup.team_id e <> 7).
  { intros e [<-|[<-|[<-|[]]]]; discriminate. }
  split; [exact H|].
  exact (team_without_rows (Some Sample.failing) Sample.session 7 2 Sample.day H).
Defined.

(** ** Dictionaries over distinct keys *)

Section DictFresh.

Context {K V : Type}.
Variable eqb : K -> K -> bool.
Hypothesis eqb_eq : forall a b, eqb a b = true <-> a = b.
Variable key : V -> K.

Lemma dict_set_fresh (d : dict K V) k v :
  ~ In k (dict_keys d) -> dict_set eqb d k v = (d ++ [(k, v)])%list.
Proof.
  induction d as [|[k0 v0] d IH]; simpl; intros N; [reflexivity|].
  destruct (eqb k k0) eqn:E.
  - apply eqb_eq in E. subst k0. exfalso. apply N. now left.
  - rewrite IH; [reflexivity|]. intros H. apply N. now right.
Qed.

Lemma fold_assign_fresh (xs : list V) (d : dict K V) :
  NoDup (map key xs) ->
  (forall x, In x xs -> ~ In (key x) (dict_keys d)) ->
  fold_left (fun d x => dict_set eqb d (key x) x) xs d
  = (d ++ map (fun x => (key x, x)) xs)%list.
Proof.
  revert d. induction xs as [|x xs IH]; intros d N F; simpl.
  - now rewrite app_nil_r.
  - inversion N as [|? ? Hx Nxs]; subst.
    rewrite dict_set_fresh by (apply F; now left).
    rewrite IH; [now rewrite <- app_assoc | exact Nxs |].
    intros y Hy. unfold dict_keys. rewrite map_app, in_app_iff. simpl.
    intros [H|[H|[]]].
    + apply (F y); [now right | exact H].
    + apply Hx. rewrite H. now apply in_map.
Qed.

Lemma dict_by_distinct (xs : list V) :
  NoDup (map key xs) -> dict_values (dict_by eqb key xs) = xs.
Proof.
  intros N. unfold dict_by. rewrite fold_assign_fresh; [|exact N|intros x _ []].
  unfold dict_values. simpl. rewrite map_map. simpl. apply map_id.
Qed.

End DictFresh.

Lemma latest_entries_distinct (rows : list Standup.t) :
  NoDup (map Standup.user_name rows) -> latest_entries rows = rows.
Proof. apply (dict_by_distinct _ String.eqb_eq). Qed.

(** ** The dashboard *)

(** X3. The updates of the dashboard are the records of rows of the team
    and the day, one for every user who has an entry of that day and none
    for anyone else. *)
Theorem dashboard_updates_one_per_user
    (client : option Groq) (session : Session) (team_id today : Z) :
  exists rows,
    payload_updates (get_dashboard client session team_id today)
    = map update_record rows
    /\ NoDup (map Standup.user_name rows)
    /\ (forall e, In e rows ->
                  In e (standups session)
                  /\ on_day team_id (Standup.user_name e) today e)
    /\ (forall user, In user (map Standup.user_name rows)
                     <-> has_entry session team_id user today).
Proof.
  exists (latest_entries (select_today session team_id today)).
  destruct (latest_entries_one_per_user (select_today session team_id today)) as [N U].
  split; [reflexivity|]. split; [exact N|]. split.
  - intros e He. apply latest_entries_last_row in He. apply find_some in He.
    destruct He as [He _]. apply in_rev in He. apply select_today_In in He.
    unfold on_day. tauto.
  - intros user. rewrite U, in_map_iff. unfold has_entry, on_day. split.
    + intros (e & <- & He). apply select_today_In in He. exists e. tauto.
    + intros (e & He & Ht & Hu & Hd). exists e. split; [exact Hu|].
      apply select_today_In. tauto.
Qed.

(** X4. The daily report summarizes every row of the day and the
    dashboard only the kept ones; when no user has two rows on that day
    the report text and the dashboard summary are the same text. *)
Theorem daily_report_is_dashboard_summary
    (client : option Groq) (session : Session) (team_id today : Z) :
  NoDup (map Standup.user_name (select_today session team_id today)) ->
  json_item (get_today_report client session team_id today) "report"
  = json_item (get_dashboard client session team_id today) "summary".
Proof.
  intros N.
  change (json_item (get_dashboard client session team_id today) "summary")
    with (Some (JStr (summarize_standups client
                        (latest_entries (select_today session team_id today))))).
  now rewrite latest_entries_distinct.
Qed.

Lemma daily_report_is_dashboard_summary_witness :
  NoDup (map Standup.user_name (select_today Sample.scenario 1 Sample.day))
  /\ json_item (get_today_report None Sample.scenario 1 Sample.day) "report"
     = json_item (get_dashboard None Sample.scenario 1 Sample.day) "summary".
Proof.
  assert (N : NoDup (map Standup.user_name (select_today Sample.scenario 1 Sample.day))).
  { vm_compute. constructor; [intros [E|[]]; discriminate E|].
    constructor; [intros []|constructor]. }
  split; [exact N|].
  exact (daily_report_is_dashboard_summary None Sample.scenario 1 Sample.day N).
Defined.

(** ** Submitting, then reading *)

(** An entry posted without a key is stored last. *)
Lemma submit_standup_last
    (send_slack_report : Z -> option string -> SlackOutcome)
    (session : Session) (standup : Standup.t) :
  team_exists session (Standup.team_id standup) ->
  Standup.id standup = None ->
  key_room session ->
  exists row,
    submit_standup send_slack_report session standup
    = (mkSession (teams session) (standups session ++ [row])%list,
       Created (mkSubmitBody "Stand-up submitted successfully" row))
    /\ Standup.team_id row = Standup.team_id standup
    /\ Standup.user_name row = Standup.user_name standup
    /\ Standup.created_at row = Standup.created_at standup.
Proof.
  intros X E R.
  assert (F : id_free session standup) by (unfold id_free; now rewrite E).
  destruct (session_add_standup_free session standup F)
    as (row & session' & A & (k & -> & _) & _ & L & T).
  exists (Standup.with_id standup k). split; [|repeat split].
  unfold submit_standup. apply session_get_team_spec in X. destruct X as (t & ->).
  rewrite A. destruct session' as [ts rows]. simpl in L, T. rewrite (L E), T.
  now destruct (send_slack_report _ _).
Qed.

(** X5. After the submission, for an existing team, of an entry that
    carries no key and whose [created_at] lies on the as-of day, the
    dashboard of the team shows the submitted row as the update of its
    user, and no other update of that user. *)
Theorem submitted_entry_on_dashboard
    (send_slack_report : Z -> option string -> SlackOutcome)
    (client : option Groq) (session : Session) (standup : Standup.t) (today : Z) :
  team_exists session (Standup.team_id standup) ->
  Standup.id standup = None ->
  key_room session ->
  PyDate.date_of (Standup.created_at standup) = today ->
  exists row,
    snd (submit_standup send_slack_report session standup)
    = Created (mkSubmitBody "Stand-up submitted successfully" row)
    /\ In (update_record row)
         (payload_updates
            (get_dashboard client (fst (submit_standup send_slack_report session standup))
               (Standup.team_id standup) today))
    /\ forall u,
         In u (payload_updates
                 (get_dashboard client
                    (fst (submit_standup send_slack_report session standup))
                    (Standup.team_id standup) today)) ->
         json_item u "user" = Some (JStr (Standup.user_name standup)) ->
         u = update_record row.
Proof.
  intros X E K D.
  destruct (submit_standup_last send_slack_report session standup X E K)
    as (row & S & Ht & Hu & Hc).
  set (session' := mkSession (teams session) (standups session ++ [row])%list) in *.
  rewrite S. simpl fst. simpl snd. exists row. split; [reflexivity|].
  set (rows := select_today session' (Standup.team_id standup) today).
  assert (R : rows = (select_today session (Standup.team_id standup) today ++ [row])%list).
  { unfold rows, select_today, session'. simpl standups. rewrite filter_app. f_equal. simpl.
    rewrite Ht, Z.eqb_refl, Hc. apply date_of_bounds in D. destruct D as [D1 D2].
    apply Z.leb_le in D1. apply Z.ltb_lt in D2. now rewrite D1, D2. }
  assert (F : find (fun x => String.eqb (Standup.user_name row) (Standup.user_name x))
                (rev rows) = Some row).
  { rewrite R, rev_app_distr. simpl. now rewrite String.eqb_refl. }
  change (payload_updates (get_dashboard client session' (Standup.team_id standup) today))
    with (map update_record (latest_entries rows)).
  split.
  - apply in_map. now apply latest_entries_last_row.
  - intros u Hu' Hn. apply in_map_iff in Hu'. destruct Hu' as (e & <- & He).
    apply latest_entries_last_row in He.
    simpl in Hn. injection Hn as Hn. rewrite Hn, <- Hu, F in He.
    now injection He as <-.
Qed.

Lemma submitted_entry_on_dashboard_witness :
  team_exists Sample.session (Standup.team_id Demo.new_entry)
  /\ Standup.id Demo.new_entry = None
  /\ key_room Sample.session
  /\ PyDate.date_of (Standup.created_at Demo.new_entry) = Sample.day
  /\ exists row,
       snd (submit_standup (fun _ _ => SlackRaised) Sample.session Demo.new_entry)
       = Created (mkSubmitBody "Stand-up submitted successfully" row)
       /\ In (update_record row)
            (payload_updates
               (get_dashboard None
                  (fst (submit_standup (fun _ _ => SlackRaised) Sample.session
                          Demo.new_entry))
                  (Standup.team_id Demo.new_entry) Sample.day))
       /\ forall u,
            In u (payload_updates
                    (get_dashboard None
                       (fst (submit_standup (fun _ _ => SlackRaised) Sample.session
                               Demo.new_entry))
                       (Standup.team_id Demo.new_entry) Sample.day)) ->
            json_item u "user" = Some (JStr (Standup.user_name Demo.new_entry)) ->
            u = update_record row.
Proof.
  assert (X : team_exists Sample.session (Standup.team_id Demo.new_entry)).
  { exists Sample.core. split; [now left | reflexivity]. }
  assert (K : key_room Sample.session).
  { intros r k [<-|[<-|[<-|[]]]] E; injection E as <-; reflexivity. }
  split; [exact X|]. split; [reflexivity|]. split; [exact K|]. split; [reflexivity|].
  exact (submitted_entry_on_dashboard (fun _ _ => SlackRaised) None Sample.session
           Demo.new_entry Sample.day X eq_refl K eq_refl).
Defined.

(** ** Teams *)

(** X6. A team posted without a key, while the keys leave room, is stored
    last under a key that no stored team has; looking that key up returns
    the stored team, the lookups that succeeded before return what they
    returned, the stand-up table is untouched, and a stand-up for the new
    key that the store takes is answered with success. *)
Theorem create_team_then_lookup (session : Session) (team : Team.t) :
  Team.id team = None ->
  team_key_room session ->
  exists k row session',
    create_team session team = Some (row, session')
    /\ row = Team.with_id team k
    /\ ~ team_exists session k
    /\ session_get_team session' k = Some row
    /\ (forall k' t, session_get_team session k' = Some t ->
                     session_get_team session' k' = Some t)
    /\ get_teams session' = (get_teams session ++ [row])%list
    /\ get_all_standups session' = get_all_standups session
    /\ forall send_slack_report standup,
         Standup.team_id standup = k ->
         id_free session' standup ->
         exists row',
           snd (submit_standup send_slack_report session' standup)
           = Created (mkSubmitBody "Stand-up submitted successfully" row').
Proof.
  intros E R. unfold create_team. rewrite E. simpl insert_key.
  assert (H : Forall (fun j => j < max_key) (keys_of Team.id (teams session))).
  { apply Forall_forall. intros j Ij. apply keys_of_In in Ij.
    destruct Ij as (t & It & Et). exact (R t j It Et). }
  destruct (auto_key_room _ H) as (k & K). rewrite K.
  pose proof (auto_key_above _ _ K) as Above.
  set (row := Team.with_id team k).
  rewrite (insert_above_keys Team.id row (teams session) k eq_refl Above).
  set (session' := mkSession (teams session ++ [row])%list (standups session)).
  assert (Fresh : ~ team_exists session k).
  { intros (t & I & Et). rewrite Forall_forall in Above.
    assert (Lt : k < k) by (apply Above; apply keys_of_In; now exists t). lia. }
  assert (Get : session_get_team session' k = Some row).
  { unfold session_get_team, session'. simpl teams. rewrite find_app_split.
    destruct (find _ (teams session)) as [t|] eqn:F.
    - exfalso. apply Fresh. apply session_get_team_spec. now exists t.
    - simpl. now rewrite Z.eqb_refl. }
  exists k, row, session'. repeat split; auto.
  - intros k' t G. unfold session_get_team, session' in *. simpl teams.
    now rewrite find_app_split, G.
  - intros send standup Hk F. unfold submit_standup. rewrite Hk, Get.
    destruct (session_add_standup_free session' standup F) as (r & s' & -> & _).
    exists r. now destruct (send _ _).
Qed.

Lemma create_team_then_lookup_witness :
  Team.id Demo.new_team = None
  /\ team_key_room Sample.session
  /\ create_team Sample.session Demo.new_team
     = Some (Team.with_id Demo.new_team 2,
             mkSession [Sample.core; Team.with_id Demo.new_team 2]
               (standups Sample.session))
  /\ exists k row session',
       create_team Sample.session Demo.new_team = Some (row, session')
       /\ row = Team.with_id Demo.new_team k
       /\ ~ team_exists Sample.session k
       /\ session_get_team session' k = Some row
       /\ (forall k' t, session_get_team Sample.session k' = Some t ->
                        session_get_team session' k' = Some t)
       /\ get_teams session' = (get_teams Sample.session ++ [row])%list
       /\ get_all_standups session' = get_all_standups Sample.session
       /\ forall send_slack_report standup,
            Standup.team_id standup = k ->
            id_free session' standup ->
            exists row',
              snd (submit_standup send_slack_report session' standup)
              = Created (mkSubmitBody "Stand-up submitted successfully" row').
Proof.
  assert (R : team_key_room Sample.session).
  { intros t k [<-|[]] E; injection E as <-; reflexivity. }
  split; [reflexivity|]. split; [exact R|]. split; [reflexivity|].
  exact (create_team_then_lookup Sample.session Demo.new_team eq_refl R).
Defined.

(** ** The scheduler *)

(** X7. Starting the scheduler is idempotent: it always leaves a running
    scheduler, a scheduler that already runs is left as it is, with its
    jobs, and a second start changes nothing, so a reload never adds a
    second daily job. *)
Theorem start_scheduler_idempotent (_scheduler : option Scheduler) :
  start_scheduler (start_scheduler _scheduler) = start_scheduler _scheduler
  /\ (exists s, start_scheduler _scheduler = Some s /\ running s = true)
  /\ (forall s, _scheduler = Some s -> running s = true ->
                start_scheduler _scheduler = _scheduler)
  /\ (forall s, start_scheduler _scheduler = Some s ->
                _scheduler = Some s \/ jobs s = [mkJob 1 10 0]).
Proof.
  destruct _scheduler as [[[] js]|]; simpl; repeat split; eauto;
    try (intros s H; injection H as <-; auto); try discriminate.
Qed.

(** ** More on the findings of the risk report *)

(** The missing-update count of a user: none for a user without history,
    else decided by the date of the latest [created_at]. *)
Lemma missing_count_cases
    (session : Session) (team_id days_missing today : Z) (user : string) :
  ((forall e, In e (standups session) -> ~ in_history team_id user e)
   /\ count_risks user "Missing Update"
        (payload_risks (get_risk_report session team_id days_missing today)) = 0%nat)
  \/ exists t,
       last_seen session team_id user t
       /\ count_risks user "Missing Update"
            (payload_risks (get_risk_report session team_id days_missing today))
          = if PyDate.date_of t <? today - (days_missing - 1) then 1%nat else 0%nat.
Proof.
  assert (F : forall e, In e (standups session) /\ in_history team_id user e
                <-> In e (filter (fun x => String.eqb user (Standup.user_name x))
                            (filter (fun s => Standup.team_id s =? team_id)
                               (standups session)))).
  { intros e. rewrite !filter_In, String.eqb_eq, Z.eqb_eq. unfold in_history.
    intuition congruence. }
  rewrite report_count, pairs_not_counted, missing_count. simpl Nat.add.
  destruct (filter (fun x => String.eqb user (Standup.user_name x)) _)
    as [|e0 es] eqn:E.
  - left. split; [|reflexivity]. intros e I H. now apply (proj1 (F e) (conj I H)).
  - right. simpl map.
    destruct (fold_max_spec (map Standup.created_at es) (Standup.created_at e0))
      as (Hin & Hfirst & Hall).
    set (t := fold_left Z.max (map Standup.created_at es) (Standup.created_at e0)) in *.
    exists t. split.
    + split.
      * assert (It : In t (map Standup.created_at (e0 :: es)))
          by (destruct Hin as [->|H]; [now left | now right]).
        apply in_map_iff in It. destruct It as (e & Et & Ie).
        apply F in Ie. exists e. tauto.
      * intros e Ie He.
        assert (Ic : In e (e0 :: es)) by (apply F; now split).
        destruct Ic as [<-|Ic]; [exact Hfirst|].
        rewrite Forall_forall in Hall. apply Hall. now apply in_map.
    + unfold risk_report_missing.
      destruct (PyDate.date_of t <? today - (days_missing - 1));
        [apply count_risks_one | reflexivity].
Qed.

(** X8. Raising the threshold never adds a missing-update finding: a user
    flagged at a threshold is flagged at every smaller one. *)
Theorem missing_update_threshold_monotone
    (session : Session) (team_id low high today : Z) (user : string) :
  low <= high ->
  (count_risks user "Missing Update"
     (payload_risks (get_risk_report session team_id high today))
   <= count_risks user "Missing Update"
        (payload_risks (get_risk_report session team_id low today)))%nat.
Proof.
  intros H.
  destruct (missing_count_cases session team_id high today user)
    as [[_ ->]|(t & L & ->)]; [lia|].
  destruct (missing_count_cases session team_id low today user)
    as [[N _]|(t' & L' & ->)].
  - destruct L as [(e & I & Hh & _) _]. now apply N in Hh.
  - assert (t = t').
    { destruct L as [(e & I & Hh & Ee) B], L' as [(e' & I' & Hh' & Ee') B'].
      apply B' in Hh; [|exact I]. apply B in Hh'; [|exact I']. lia. }
    subst t'.
    destruct (Z.ltb_spec (PyDate.date_of t) (today - (high - 1)));
      destruct (Z.ltb_spec (PyDate.date_of t) (today - (low - 1))); lia.
Qed.

Lemma missing_update_threshold_monotone_witness :
  2 <= 5
  /\ (count_risks "dave" "Missing Update"
        (payload_risks (get_risk_report Sample.session 1 5 Sample.day))
      <= count_risks "dave" "Missing Update"
           (payload_risks (get_risk_report Sample.session 1 2 Sample.day)))%nat.
Proof.
  split; [lia|].
  apply (missing_update_threshold_monotone Sample.session 1 2 5 Sample.day "dave"). lia.
Defined.

(** X9. An entry of the user that is dated inside the threshold, on or
    after the as-of date minus (threshold - 1) days, rules the
    missing-update finding out, whatever else the history holds. *)
Theorem recent_entry_clears_missing_update
    (session : Session) (team_id days_missing today : Z) (user : string) (e : Standup.t) :
  In e (standups session) ->
  in_history team_id user e ->
  today - (days_missing - 1) <= PyDate.date_of (Standup.created_at e) ->
  count_risks user "Missing Update"
    (payload_risks (get_risk_report session team_id days_missing today)) = 0%nat.
Proof.
  intros I H D.
  destruct (missing_count_cases session team_id days_missing today user)
    as [[_ ->]|(t & [_ B] & ->)]; [reflexivity|].
  pose proof (date_of_mono _ _ (B e I H)).
  destruct (Z.ltb_spec (PyDate.date_of t) (today - (days_missing - 1)));
    [lia | reflexivity].
Qed.

Lemma recent_entry_clears_missing_update_witness :
  In Sample.carol_2 (standups Sample.session)
  /\ in_history 1 "carol" Sample.carol_2
  /\ Sample.day - (2 - 1) <= PyDate.date_of (Standup.created_at Sample.carol_2)
  /\ count_risks "carol" "Missing Update"
       (payload_risks (get_risk_report Sample.session 1 2 Sample.day)) = 0%nat.
Proof.
  assert (I : In Sample.carol_2 (standups Sample.session)) by (simpl; tauto).
  assert (H : in_history 1 "carol" Sample.carol_2) by (split; reflexivity).
  assert (D : Sample.day - (2 - 1) <= PyDate.date_of (Standup.created_at Sample.carol_2))
    by (vm_compute; discriminate).
  split; [exact I|]. split; [exact H|]. split; [exact D|].
  exact (recent_entry_clears_missing_update Sample.session 1 2 Sample.day "carol"
           Sample.carol_2 I H D).
Defined.

(** X10. Every finding of the risk report is about a user who has at least
    one entry in the history of the team: the report knows no roster, and
    a user who never posted is never flagged. *)
Theorem findings_about_known_users
    (session : Session) (team_id days_missing today : Z) (r : json) :
  In r (payload_risks (get_risk_report session team_id days_missing today)) ->
  exists user type description,
    r = risk user type description
    /\ In type risk_types
    /\ exists e, In e (standups session) /\ in_history team_id user e.
Proof.
  change (payload_risks (get_risk_report session team_id days_missing today))
    with (risk_report_risks session team_id days_missing today).
  unfold risk_report_risks. intros H. apply in_app_or in H. destruct H as [H|H].
  - apply in_flat_map in H. destruct H as ([user entries] & G & H).
    apply user_risks_shape in H. destruct H as (ty & d & -> & T).
    exists user, ty, d. split; [reflexivity|].
    split; [destruct T as [-> | ->]; simpl; tauto|].
    apply (group_by_In _ String.eqb_eq) in G. destruct G as [Ee Ne].
    destruct entries as [|e0 es]; [contradiction|].
    assert (I : In e0 (e0 :: es)) by now left.
    rewrite Ee in I. apply filter_In in I. destruct I as [I U].
    apply select_recent_In in I. apply String.eqb_eq in U.
    exists e0. unfold in_history. intuition.
  - rewrite select_last_at_rows in H.
    apply in_flat_map in H. destruct H as ([user rows] & G & H). simpl in H.
    apply missing_shape in H. destruct H as (d & ->).
    exists user, "Missing Update", d. split; [reflexivity|].
    split; [simpl; tauto|].
    apply (group_by_In _ String.eqb_eq) in G. destruct G as [Ee Ne].
    destruct rows as [|e0 es]; [contradiction|].
    assert (I : In e0 (e0 :: es)) by now left.
    rewrite Ee, filter_user_order_by in I. apply filter_In in I. destruct I as [I U].
    apply filter_In in I. destruct I as [I T].
    apply String.eqb_eq in U. apply Z.eqb_eq in T.
    exists e0. unfold in_history. intuition.
Qed.

Lemma findings_about_known_users_witness :
  In (risk "dave" "Missing Update"
        "Last update was on 2026-11-01 — no update in last 2 days.")
     (payload_risks (get_risk_report Sample.session 1 2 Sample.day))
  /\ exists user type description,
       risk "dave" "Missing Update"
         "Last update was on 2026-11-01 — no update in last 2 days."
       = risk user type description
       /\ In type risk_types
       /\ exists e, In e (standups Sample.session) /\ in_history 1 user e.
Proof.
  assert (I : In (risk "dave" "Missing Update"
                    "Last update was on 2026-11-01 — no update in last 2 days.")
                 (payload_risks (get_risk_report Sample.session 1 2 Sample.day))).
  { vm_compute. right. now left. }
  split; [exact I|].
  exact (findings_about_known_users Sample.session 1 2 Sample.day _ I).
Defined.

(** X11. A user with a stale-task or a repeated-blocker finding has an
    entry on the as-of date and on the day before, and, for a threshold
    of at least one day, no missing-update finding: the pair findings and
    the missing-update finding exclude each other. *)
Theorem pair_findings_exclude_missing_update
    (session : Session) (team_id days_missing today : Z) (user type : string) :
  type = "Stale Task" \/ type = "Repeated Blocker" ->
  count_risks user type
    (payload_risks (get_risk_report session team_id days_missing today)) <> 0%nat ->
  has_entry session team_id user today
  /\ has_entry session team_id user (today - 1)
  /\ (1 <= days_missing ->
      count_risks user "Missing Update"
        (payload_risks (get_risk_report session team_id days_missing today)) = 0%nat).
Proof.
  intros T C.
  assert (M : type <> "Missing Update") by (destruct T as [-> | ->]; discriminate).
  rewrite report_count, (missing_not_counted _ _ _ _ _ M), user_risks_unfold in C.
  destruct (by_date_cases session team_id today user)
    as [(te & ye & Et & Ey & Lt & Ly) | [Hnone _]].
  - split; [now apply latest_has_entry with te|].
    split; [now apply latest_has_entry with ye|].
    intros D. destruct Lt as (I & (Ht & Hu & Hd) & _).
    destruct (missing_count_cases session team_id days_missing today user)
      as [[_ ->]|(t & [_ B] & ->)]; [reflexivity|].
    assert (H : in_history team_id user te) by now split.
    pose proof (date_of_mono _ _ (B te I H)).
    destruct (Z.ltb_spec (PyDate.date_of t) (today - (days_missing - 1)));
      [lia | reflexivity].
  - exfalso. apply C.
    destruct Hnone as [-> | ->]; [reflexivity|].
    now destruct (dict_get _ _ today).
Qed.

Lemma pair_findings_exclude_missing_update_witness :
  ("Repeated Blocker" = "Stale Task" \/ "Repeated Blocker" = "Repeated Blocker")
  /\ count_risks "carol" "Repeated Blocker"
       (payload_risks (get_risk_report Sample.session 1 2 Sample.day)) <> 0%nat
  /\ has_entry Sample.session 1 "carol" Sample.day
  /\ has_entry Sample.session 1 "carol" (Sample.day - 1)
  /\ (1 <= 2 ->
      count_risks "carol" "Missing Update"
        (payload_risks (get_risk_report Sample.session 1 2 Sample.day)) = 0%nat).
Proof.
  assert (T : "Repeated Blocker" = "Stale Task" \/ "Repeated Blocker" = "Repeated Blocker")
    by now right.
  assert (C : count_risks "carol" "Repeated Blocker"
                (payload_risks (get_risk_report Sample.session 1 2 Sample.day)) <> 0%nat)
    by (vm_compute; discriminate).
  split; [exact T|]. split; [exact C|].
  exact (pair_findings_exclude_missing_update Sample.session 1 2 Sample.day "carol"
           "Repeated Blocker" T C).
Defined.

(** ** The Slack delivery *)

Lemma map_opt_some {A B : Type} (f : A -> option B) (l : list A) :
  (forall x, In x l -> exists y, f x = Some y) -> exists ys, map_opt f l = Some ys.
Proof.
  induction l as [|a l IH]; intros H; simpl; [now exists []|].
  destruct (H a (or_introl eq_refl)) as (y & ->).
  destruct IH as (ys & ->); [intros x Hx; apply H; now right|].
  now exists (y :: ys).
Qed.

Lemma dict_set_new_key (d : dict json json) (k v : json) :
  (forall k', In k' (dict_keys d) -> json_key_eqb k k' = false) ->
  dict_set json_key_eqb d k v = (d ++ [(k, v)])%list.
Proof.
  induction d as [|[k0 v0] d IH]; simpl; intros H; [reflexivity|].
  rewrite (H k0 (or_introl eq_refl)), IH; [reflexivity|].
  intros k' Hk'. apply H. now right.
Qed.

Lemma unique_updates_records (rows : list Standup.t) (d : dict json json) :
  NoDup (map Standup.user_name rows) ->
  (forall s k', In s rows -> In k' (dict_keys d) ->
                json_key_eqb (JStr (Standup.user_name s)) k' = false) ->
  unique_updates (map update_record rows) d
  = Some (d ++ map (fun s => (JStr (Standup.user_name s), update_record s)) rows)%list.
Proof.
  revert d. induction rows as [|s rows IH]; intros d N F; simpl.
  - now rewrite app_nil_r.
  - inversion N as [|? ? Hs Nrows]; subst.
    change (json_item (update_record s) "user") with (Some (JStr (Standup.user_name s))).
    simpl hashable. cbv iota.
    rewrite dict_set_new_key by (intros k' Hk'; apply F; [now left | exact Hk']).
    rewrite IH; [now rewrite <- app_assoc | exact Nrows |].
    intros s' k' Hs' Hk'. unfold dict_keys in Hk'. rewrite map_app, in_app_iff in Hk'.
    destruct Hk' as [Hk'|[<-|[]]]; [apply F; [now right | exact Hk']|].
    simpl. apply String.eqb_neq. intros E. apply Hs. rewrite <- E. now apply in_map.
Qed.

Lemma unique_updates_of_dashboard (rows : list Standup.t) :
  option_map dict_values (unique_updates (map update_record (latest_entries rows)) [])
  = Some (map update_record (latest_entries rows)).
Proof.
  rewrite unique_updates_records.
  - simpl. unfold dict_values. rewrite map_map. reflexivity.
  - apply latest_entries_one_per_user.
  - intros s k' _ [].
Qed.

(** X12. The deduplication that the Slack delivery repeats on the updates
    of a fetched dashboard changes nothing: the dashboard already holds
    one update per user, and the delivery works on the same list in the
    same order. *)
Theorem slack_dedup_keeps_dashboard_updates
    (client : option Groq) (session : Session) (team_id today : Z) :
  slack_updates (slack_dashboard (Some (get_dashboard client session team_id today)))
  = Some (payload_updates (get_dashboard client session team_id today)).
Proof.
  change (slack_updates (slack_dashboard (Some (get_dashboard client session team_id today))))
    with (option_map dict_values
            (unique_updates
               (map update_record (latest_entries (select_today session team_id today)))
               [])).
  apply unique_updates_of_dashboard.
Qed.

Lemma filter_user_records (name : string) (rows : list Standup.t) :
  exists kept,
    filter_user name (map update_record rows) = Some (map update_record kept).
Proof.
  induction rows as [|s rows (kept & IH)]; [now exists []|].
  simpl map. unfold filter_user; fold filter_user.
  change (json_item (update_record s) "user") with (Some (JStr (Standup.user_name s))).
  cbv iota. rewrite IH.
  destruct (String.eqb _ _); [now exists (s :: kept) | now exists kept].
Qed.

Section SlackFacts.

Variable py_repr : json -> string.

Lemma update_lines_of_records (rows : list Standup.t) :
  exists text, updates_text_of py_repr (map update_record rows) = Some text.
Proof.
  destruct rows as [|s rows]; [now eexists|].
  change (updates_text_of py_repr (map update_record (s :: rows)))
    with (option_map (PyStr.join PyStr.nl)
            (map_opt (update_line py_repr) (map update_record (s :: rows)))).
  destruct (map_opt_some (update_line py_repr) (map update_record (s :: rows)))
    as (ys & ->); [|now eexists].
  intros u Hu. apply in_map_iff in Hu. destruct Hu as (s' & <- & _). now eexists.
Qed.

Lemma risk_lines_of_dashboard (session : Session) (team_id today : Z) :
  exists text,
    risk_text_of py_repr (JList (dashboard_risks session team_id today)) = Some text.
Proof.
  unfold risk_text_of. destruct (negb _); [now eexists|]. simpl py_iter.
  destruct (map_opt_some (risk_line py_repr) (dashboard_risks session team_id today))
    as (ys & ->); [|now eexists].
  intros r Hr. apply dashboard_risks_shape in Hr.
  destruct Hr as (user & ty & d & -> & _). now eexists.
Qed.

(** On a dashboard of this server the message is always built. *)
Lemma slack_draft_of_dashboard
    (client : option Groq) (session : Session) (team_id today day dashboard_team : Z)
    (user_name : option string) :
  exists draft,
    slack_draft py_repr today team_id user_name
      (get_dashboard client session dashboard_team day) = Some draft.
Proof.
  unfold slack_draft.
  change (json_get (get_dashboard client session dashboard_team day) "summary"
            (JStr "No summary available."))
    with (Some (JStr (summarize_standups client
                        (latest_entries (select_today session dashboard_team day))))).
  change (json_get (get_dashboard client session dashboard_team day) "risks" (JList []))
    with (Some (JList (dashboard_risks session dashboard_team day))).
  change (json_get (get_dashboard client session dashboard_team day) "updates" (JList []))
    with (Some (JList (map update_record
                         (latest_entries (select_today session dashboard_team day))))).
  cbv iota. simpl py_iter. cbv iota.
  pose proof (unique_updates_of_dashboard (select_today session dashboard_team day)) as U.
  destruct (unique_updates _ []) as [unique|]; [|discriminate U].
  simpl in U. injection U as U. cbv iota. cbv zeta. rewrite U.
  destruct (risk_lines_of_dashboard session dashboard_team day) as (rt & ->).
  destruct (update_lines_of_records
              (latest_entries (select_today session dashboard_team day))) as (ut & ->).
  destruct user_name as [name|]; [|now eexists].
  destruct (PyStr.truthy name); [|now eexists].
  destruct (filter_user_records name
              (latest_entries (select_today session dashboard_team day))) as (kept & ->).
  destruct kept as [|s kept]; [now eexists|].
  destruct (update_lines_of_records (s :: kept)) as (ut' & E).
  change (map update_record (s :: kept))
    with (update_record s :: map update_record kept) in *.
  cbv iota. rewrite E. now eexists.
Qed.

(** X13. When the loopback request answers with a dashboard of this
    server, the delivery never raises while it builds the message, for a
    full report and for the update of any user; if the webhook request
    does not raise either, whatever its status code, the delivery returns
    and the notify handler answers with its success message, also when no
    webhook is configured and nothing was posted. *)
Theorem slack_delivery_of_own_dashboard
    (env : SlackEnv) (client : option Groq) (session : Session)
    (today day team_id : Z) (user_name : option string) :
  fetch_dashboard env team_id = Some (get_dashboard client session team_id day) ->
  send_slack_report py_repr env today team_id user_name <> BuildRaised
  /\ ((forall url message, post env url message <> None) ->
      outcome_of (send_slack_report py_repr env today team_id user_name) = SlackReturned
      /\ notify_slack py_repr env today team_id
         = Some (JDict [("message", JStr "Report successfully queued for Slack.")])).
Proof.
  intros F.
  assert (S : forall user_name,
             send_slack_report py_repr env today team_id user_name <> BuildRaised
             /\ ((forall url message, post env url message <> None) ->
                 outcome_of (send_slack_report py_repr env today team_id user_name)
                 = SlackReturned)).
  { intros u. unfold send_slack_report. rewrite F. simpl slack_dashboard.
    destruct (slack_draft_of_dashboard client session team_id today day team_id u)
      as (draft & ->).
    destruct draft as [|message]; [split; [discriminate | reflexivity]|].
    destruct (slack_webhook env) as [url|]; [|split; [discriminate | reflexivity]].
    destruct (PyStr.truthy url); [|split; [discriminate | reflexivity]].
    destruct (post env url message) eqn:P; split; try discriminate; try reflexivity.
    intros H. now apply H in P. }
  split; [apply S|]. intros P. split; [now apply S|].
  unfold notify_slack. now rewrite (proj2 (S None) P).
Qed.

End SlackFacts.

Lemma slack_delivery_of_own_dashboard_witness :
  fetch_dashboard (Demo.env None Sample.session Sample.day) 1
  = Some (get_dashboard None Sample.session 1 Sample.day)
  /\ send_slack_report Demo.repr (Demo.env None Sample.session Sample.day) Sample.day 1
       (Some "carol") <> BuildRaised
  /\ ((forall url message,
         post (Demo.env None Sample.session Sample.day) url message <> None) ->
      outcome_of
        (send_slack_report Demo.repr (Demo.env None Sample.session Sample.day) Sample.day 1
           (Some "carol")) = SlackReturned
      /\ notify_slack Demo.repr (Demo.env None Sample.session Sample.day) Sample.day 1
         = Some (JDict [("message", JStr "Report successfully queued for Slack.")])).
Proof.
  split; [reflexivity|].
  exact (slack_delivery_of_own_dashboard Demo.repr (Demo.env None Sample.session Sample.day) None
           Sample.session Sample.day Sample.day 1 (Some "carol") eq_refl).
Defined.

Lemma dict_set_values (d : dict json json) (k u v : json) :
  In v (dict_values (dict_set json_key_eqb d k u)) -> v = u \/ In v (dict_values d).
Proof.
  induction d as [|[k0 v0] d IH]; simpl.
  - intros [<-|[]]. now left.
  - destruct (json_key_eqb k k0); simpl.
    + intros [<-|H]; [now left | right; now right].
    + intros [<-|H]; [right; now left|].
      destruct (IH H) as [->|H']; [now left | right; now right].
Qed.

Lemma unique_updates_values (items : list json) (d d' : dict json json) (v : json) :
  unique_updates items d = Some d' ->
  In v (dict_values d') -> In v (dict_values d) \/ In v items.
Proof.
  revert d. induction items as [|u items IH]; intros d; simpl.
  - intros E. injection E as <-. now left.
  - destruct (json_item u "user") as [k|]; [|discriminate].
    destruct (hashable k); [|discriminate].
    intros E H. destruct (IH _ E H) as [H'|H']; [|right; now right].
    apply dict_set_values in H'. destruct H' as [->|H']; [right; now left | now left].
Qed.

Lemma filter_user_kept (name : string) (updates kept : list json) (u : json) :
  filter_user name updates = Some kept -> In u kept ->
  In u updates
  /\ exists name', json_item u "user" = Some (JStr name')
                   /\ PyStr.lower name' = PyStr.lower name.
Proof.
  revert kept. induction updates as [|x updates IH]; intros kept; simpl.
  - intros E. injection E as <-. intros [].
  - destruct (json_item x "user") as [[| |n| |]|] eqn:Ex; try discriminate.
    destruct (filter_user name updates) as [rest|]; [|discriminate].
    intros E. injection E as <-.
    destruct (String.eqb (PyStr.lower n) (PyStr.lower name)) eqn:Q.
    + intros [<-|H].
      * split; [now left|]. exists n. split; [exact Ex | now apply String.eqb_eq].
      * destruct (IH rest eq_refl H) as [I M]. split; [now right | exact M].
    + intros H. destruct (IH rest eq_refl H) as [I M]. split; [now right | exact M].
Qed.

Section SlackPerUser.

Variable py_repr : json -> string.

(** X14. A message for one user is built only from an update of the
    fetched dashboard whose user is that user up to case: when the
    delivery for a user neither returns early nor raises while building,
    the dashboard holds such an update.  The case folding is the
    lower-casing of the text: read off the bytes on ASCII text, and
    folding the letters beyond ASCII. *)
Theorem per_user_message_needs_update
    (env : SlackEnv) (today team_id : Z) (name : string) :
  PyStr.truthy name = true ->
  send_slack_report py_repr env today team_id (Some name) <> NoUpdateForUser ->
  send_slack_report py_repr env today team_id (Some name) <> BuildRaised ->
  (exists u name',
     In u (payload_updates (slack_dashboard (fetch_dashboard env team_id)))
     /\ json_item u "user" = Some (JStr name')
     /\ PyStr.lower name' = PyStr.lower name)
  /\ case_folding_reads_text.
Proof.
  intros T N B. split; [|exact case_folding_is_read].
  unfold send_slack_report in N, B.
  set (dashboard := slack_dashboard (fetch_dashboard env team_id)) in *.
  destruct (slack_draft py_repr today team_id (Some name) dashboard)
    as [[|message]|] eqn:D; try contradiction.
  clear N B. unfold slack_draft in D. rewrite T in D.
  destruct dashboard as [| | | |fields]; try discriminate D.
  unfold json_get, payload_updates, json_item in *.
  destruct (dict_get String.eqb fields "updates") as [updates|] eqn:U.
  - destruct (py_iter updates) as [items|] eqn:I; [|discriminate D].
    destruct (unique_updates items []) as [unique|] eqn:Q; [|discriminate D].
    destruct (filter_user name (dict_values unique)) as [[|u kept]|] eqn:F;
      try discriminate D.
    destruct (filter_user_kept _ _ _ u F (or_introl eq_refl)) as [Hu (n' & Hn & Hl)].
    destruct (unique_updates_values _ _ _ _ Q Hu) as [[]|Hi].
    exists u, n'. split; [|now split].
    destruct updates as [| |s|l|f]; simpl in I; try discriminate I;
      injection I as <-; [| exact Hi |].
    + apply in_map_iff in Hi. destruct Hi as (c & <- & _). discriminate Hn.
    + apply in_map_iff in Hi. destruct Hi as (kv & <- & _). discriminate Hn.
  - simpl in D. discriminate D.
Qed.

(** X15. When the loopback request for the dashboard fails, the delivery
    still does not raise while building: for a user it returns without
    posting anything, and the full report is built from the stand-in
    texts, which say that no summary, no risk and no update is there. *)
Theorem slack_when_fetch_fails (env : SlackEnv) (today team_id : Z) :
  fetch_dashboard env team_id = None ->
  (forall name, PyStr.truthy name = true ->
                send_slack_report py_repr env today team_id (Some name) = NoUpdateForUser)
  /\ send_slack_report py_repr env today team_id None <> BuildRaised
  /\ send_slack_report py_repr env today team_id None <> NoUpdateForUser
  /\ forall message,
       (send_slack_report py_repr env today team_id None = NoWebhook message
        \/ (exists status_code,
              send_slack_report py_repr env today team_id None
              = Posted message status_code)
        \/ send_slack_report py_repr env today team_id None = PostRaised message) ->
       message = slack_message today team_id None "No summary available."
                   ":white_check_mark: No major risks detected."
                   "_No stand-up updates found for today._".
Proof.
  intros F. unfold send_slack_report. rewrite F. split.
  - intros name T. unfold slack_draft. simpl. now rewrite T.
  - change (slack_draft py_repr today team_id None (slack_dashboard None))
      with (Some (DraftMessage
                    (slack_message today team_id None "No summary available."
                       ":white_check_mark: No major risks detected."
                       "_No stand-up updates found for today._"))).
    cbv iota.
    destruct (slack_webhook env) as [url|].
    + destruct (PyStr.truthy url).
      * destruct (post env url _); repeat split; try discriminate;
          intros m [H|[(c & H)|H]]; try discriminate H; now injection H.
      * repeat split; try discriminate.
        intros m [H|[(c & H)|H]]; try discriminate H; now injection H.
    + repeat split; try discriminate.
      intros m [H|[(c & H)|H]]; try discriminate H; now injection H.
Qed.

End SlackPerUser.

Lemma per_user_message_needs_update_witness :
  PyStr.truthy "CAROL" = true
  /\ send_slack_report Demo.repr (Demo.env None Sample.session Sample.day) Sample.day 1
       (Some "CAROL") <> NoUpdateForUser
  /\ send_slack_report Demo.repr (Demo.env None Sample.session Sample.day) Sample.day 1
       (Some "CAROL") <> BuildRaised
  /\ (exists u name',
        In u (payload_updates
                (slack_dashboard
                   (fetch_dashboard (Demo.env None Sample.session Sample.day) 1)))
        /\ json_item u "user" = Some (JStr name')
        /\ PyStr.lower name' = PyStr.lower "CAROL")
  /\ case_folding_reads_text.
Proof.
  assert (N : send_slack_report Demo.repr (Demo.env None Sample.session Sample.day)
                Sample.day 1 (Some "CAROL") <> NoUpdateForUser)
    by (vm_compute; discriminate).
  assert (B : send_slack_report Demo.repr (Demo.env None Sample.session Sample.day)
                Sample.day 1 (Some "CAROL") <> BuildRaised)
    by (vm_compute; discriminate).
  split; [reflexivity|]. split; [exact N|]. split; [exact B|].
  exact (per_user_message_needs_update Demo.repr (Demo.env None Sample.session Sample.day)
           Sample.day 1 "CAROL" eq_refl N B).
Defined.

Lemma slack_when_fetch_fails_witness :
  fetch_dashboard Demo.offline 1 = None
  /\ (forall name, PyStr.truthy name = true ->
                   send_slack_report Demo.repr Demo.offline Sample.day 1 (Some name)
                   = NoUpdateForUser)
  /\ send_slack_report Demo.repr Demo.offline Sample.day 1 None <> BuildRaised
  /\ send_slack_report Demo.repr Demo.offline Sample.day 1 None <> NoUpdateForUser
  /\ forall message,
       (send_slack_report Demo.repr Demo.offline Sample.day 1 None = NoWebhook message
        \/ (exists status_code,
              send_slack_report Demo.repr Demo.offline Sample.day 1 None
              = Posted message status_code)
        \/ send_slack_report Demo.repr Demo.offline Sample.day 1 None = PostRaised message) ->
       message = slack_message Sample.day 1 None "No summary available."
                   ":white_check_mark: No major risks detected."
                   "_No stand-up updates found for today._".
Proof.
  split; [reflexivity|].
  exact (slack_when_fetch_fails Demo.repr Demo.offline Sample.day 1 eq_refl).
Defined.

(** ** Submitting, then delivering *)

Lemma submitted_row_kept
    (send_slack_report : Z -> option string -> SlackOutcome)
    (session : Session) (standup : Standup.t) (today : Z) :
  team_exists session (Standup.team_id standup) ->
  Standup.id standup = None ->
  key_room session ->
  PyDate.date_of (Standup.created_at standup) = today ->
  exists row,
    Standup.user_name row = Standup.user_name standup
    /\ In row (latest_entries
                 (select_today (fst (submit_standup send_slack_report session standup))
                    (Standup.team_id standup) today)).
Proof.
  intros X E K D.
  destruct (submit_standup_last send_slack_report session standup X E K)
    as (row & S & Ht & Hu & Hc).
  rewrite S. simpl fst. exists row. split; [exact Hu|].
  apply latest_entries_last_row.
  assert (R : select_today (mkSession (teams session) (standups session ++ [row])%list)
                (Standup.team_id standup) today
              = (select_today session (Standup.team_id standup) today ++ [row])%list).
  { unfold select_today. simpl standups. rewrite filter_app. f_equal. simpl.
    rewrite Ht, Z.eqb_refl, Hc. apply date_of_bounds in D. destruct D as [D1 D2].
    apply Z.leb_le in D1. apply Z.ltb_lt in D2. now rewrite D1, D2. }
  rewrite R, rev_app_distr. simpl. now rewrite String.eqb_refl.
Qed.

Lemma filter_user_finds (name : string) (rows : list Standup.t) (s : Standup.t) :
  In s rows ->
  PyStr.lower (Standup.user_name s) = PyStr.lower name ->
  exists first kept,
    filter_user name (map update_record rows) = Some (map update_record (first :: kept)).
Proof.
  induction rows as [|r rows IH]; intros I E; [destruct I|].
  simpl map. unfold filter_user; fold filter_user.
  change (json_item (update_record r) "user") with (Some (JStr (Standup.user_name r))).
  cbv iota.
  destruct (filter_user_records name rows) as (kept & K).
  destruct I as [->|I].
  - rewrite K. apply String.eqb_eq in E. rewrite E. now exists s, kept.
  - destruct (IH I E) as (first & kept' & ->).
    destruct (String.eqb _ _); [now exists r, (first :: kept') | now exists first, kept'].
Qed.

Section SlackAfterSubmit.

Variable py_repr : json -> string.

(** X18. After the submission, for an existing team, of an entry that
    carries no key, is dated on the as-of day and names a user with a
    non-empty name, the delivery for that user, when it fetches the
    dashboard of the session that holds the new row, finds an update to
    post: it neither returns for want of an update nor raises while
    building the message. *)
Theorem submitter_update_is_found
    (send : Z -> option string -> SlackOutcome) (env : SlackEnv)
    (client : option Groq) (session : Session) (standup : Standup.t) (today : Z) :
  team_exists session (Standup.team_id standup) ->
  Standup.id standup = None ->
  key_room session ->
  PyDate.date_of (Standup.created_at standup) = today ->
  PyStr.truthy (Standup.user_name standup) = true ->
  fetch_dashboard env (Standup.team_id standup)
  = Some (get_dashboard client (fst (submit_standup send session standup))
            (Standup.team_id standup) today) ->
  send_slack_report py_repr env today (Standup.team_id standup)
    (Some (Standup.user_name standup)) <> NoUpdateForUser
  /\ send_slack_report py_repr env today (Standup.team_id standup)
       (Some (Standup.user_name standup)) <> BuildRaised.
Proof.
  intros X Hid K D T F.
  destruct (submitted_row_kept send session standup today X Hid K D) as (row & Hu & Hr).
  set (session' := fst (submit_standup send session standup)) in *.
  set (team := Standup.team_id standup) in *.
  set (name := Standup.user_name standup) in *.
  assert (Dr : exists message,
             slack_draft py_repr today team (Some name)
               (get_dashboard client session' team today)
             = Some (DraftMessage message)).
  { unfold slack_draft.
    change (json_get (get_dashboard client session' team today) "summary"
              (JStr "No summary available."))
      with (Some (JStr (summarize_standups client
                          (latest_entries (select_today session' team today))))).
    change (json_get (get_dashboard client session' team today) "risks" (JList []))
      with (Some (JList (dashboard_risks session' team today))).
    change (json_get (get_dashboard client session' team today) "updates" (JList []))
      with (Some (JList (map update_record
                           (latest_entries (select_today session' team today))))).
    cbv iota. simpl py_iter. cbv iota.
    pose proof (unique_updates_of_dashboard (select_today session' team today)) as U.
    destruct (unique_updates _ []) as [unique|]; [|discriminate U].
    simpl in U. injection U as U. cbv iota. cbv zeta. rewrite U, T.
    destruct (filter_user_finds name _ row Hr) as (first & kept & ->);
      [now rewrite Hu|].
    destruct (update_lines_of_records py_repr (first :: kept)) as (ut & E).
    change (map update_record (first :: kept))
      with (update_record first :: map update_record kept) in *.
    cbv iota. rewrite E. now eexists. }
  destruct Dr as (message & Dr).
  unfold send_slack_report. rewrite F. simpl slack_dashboard. rewrite Dr.
  destruct (slack_webhook env) as [url|]; [|split; discriminate].
  destruct (PyStr.truthy url); [|split; discriminate].
  destruct (post env url message); split; discriminate.
Qed.

End SlackAfterSubmit.

Lemma submitter_update_is_found_witness :
  team_exists Sample.session (Standup.team_id Demo.new_entry)
  /\ Standup.id Demo.new_entry = None
  /\ key_room Sample.session
  /\ PyDate.date_of (Standup.created_at Demo.new_entry) = Sample.day
  /\ PyStr.truthy (Standup.user_name Demo.new_entry) = true
  /\ fetch_dashboard
       (Demo.env None
          (fst (submit_standup (fun _ _ => SlackReturned) Sample.session Demo.new_entry))
          Sample.day)
       (Standup.team_id Demo.new_entry)
     = Some (get_dashboard None
               (fst (submit_standup (fun _ _ => SlackReturned) Sample.session
                       Demo.new_entry))
               (Standup.team_id Demo.new_entry) Sample.day)
  /\ send_slack_report Demo.repr
       (Demo.env None
          (fst (submit_standup (fun _ _ => SlackReturned) Sample.session Demo.new_entry))
          Sample.day)
       Sample.day (Standup.team_id Demo.new_entry)
       (Some (Standup.user_name Demo.new_entry)) <> NoUpdateForUser
  /\ send_slack_report Demo.repr
       (Demo.env None
          (fst (submit_standup (fun _ _ => SlackReturned) Sample.session Demo.new_entry))
          Sample.day)
       Sample.day (Standup.team_id Demo.new_entry)
       (Some (Standup.user_name Demo.new_entry)) <> BuildRaised.
Proof.
  assert (X : team_exists Sample.session (Standup.team_id Demo.new_entry)).
  { exists Sample.core. split; [now left | reflexivity]. }
  assert (K : key_room Sample.session).
  { intros r k [<-|[<-|[<-|[]]]] E; injection E as <-; reflexivity. }
  split; [exact X|]. split; [reflexivity|]. split; [exact K|].
  split; [reflexivity|]. split; [reflexivity|]. split; [reflexivity|].
  exact (submitter_update_is_found Demo.repr (fun _ _ => SlackReturned)
           (Demo.env None
              (fst (submit_standup (fun _ _ => SlackReturned) Sample.session
                      Demo.new_entry))
              Sample.day)
           None Sample.session Demo.new_entry Sample.day X eq_refl K eq_refl eq_refl
           eq_refl).
Defined.
